(** * Paper-Trader: the price updater of the Papertrader worksheet

    A shallow embedding of the two scripts of the repository,

    - [main.py], the row-preserving updater (module [Main]), and
    - [papertrader_updater.py], the older updater that also stamps a
      timestamp column (module [Legacy]),

    together with the properties of the synchronisation engine: extraction
    of (row, symbol) pairs from column A, batching of the symbols, the fetch
    that survives failing batches, and the write into column C.

    Conventions of the model.
    - A cell text is a [string] of 8-bit characters read as ASCII: [strip]
      and [upper] are Python's [str.strip] and [str.upper] on ASCII text
      (module [Text] says which texts are), and the properties that depend
      on what is trimmed or upper-cased are stated for ASCII text.
    - Python integers are [Z] where the code may receive any integer (the
      chunk size read from the environment) and [nat] for row numbers.
    - A Python [dict] is a [gmap]. A price (a Python [float]) and a trade
      object of the market-data library are opaque types: the code only
      stores and forwards them; [float(trade.price)] is a partial function.
    - The two libraries the scripts call are modelled by what the scripts
      use of them. The worksheet of gspread (module [Sheets]) is a finite
      map from (column, row) to cell values with a row count; the ranges
      the scripts format, such as C7 or B2:B9, are strings in A1 notation
      and are parsed by the model. A write call is an item of a list of
      calls, whose effect on the worksheet is given by [exec_calls].
    - The market-data client (module [Alpaca]) is, during one cycle, a
      function from the number of the request and the symbols requested to
      an outcome: it raises, or it returns a mapping from symbol to trade.
      The fetch returns, next to the price map, the list of the requests
      it issued. *)

From Stdlib Require Import ZArith QArith List String Ascii DecimalString Decimal DecimalNat Sorted Lia.
From stdpp Require Import base gmap strings list.

Local Open Scope string_scope.
Local Open Scope list_scope.
Local Open Scope nat_scope.

(** ** Python strings *)

Module PyStr.

(** [str.isspace] for an ASCII character: TAB, LF, VT, FF, CR, FS, GS, RS,
    US, SPACE. Beyond ASCII Python counts more characters as white space
    (U+0085, U+00A0, U+2000 to U+200A and others): the definition is
    [str.isspace] for the characters of ASCII text only. *)
Definition isspace (c : ascii) : bool :=
  let n := nat_of_ascii c in
  (((9 <=? n) && (n <=? 13)) || ((28 <=? n) && (n <=? 32)))%nat.

Definition islower (c : ascii) : bool :=
  let n := nat_of_ascii c in ((97 <=? n) && (n <=? 122))%nat.

(** [c.upper()] for an ASCII character: the letters a to z are mapped to
    A to Z. Beyond ASCII [str.upper] maps more letters, some to several
    characters: the definition is [str.upper] for ASCII text only. *)
Definition upper_char (c : ascii) : ascii :=
  if islower c then ascii_of_nat (nat_of_ascii c - 32) else c.

(** [s.upper()], for ASCII text *)
Fixpoint upper (s : string) : string :=
  match s with
  | EmptyString => EmptyString
  | String c s' => String (upper_char c) (upper s')
  end.

(** [s.lstrip()], for ASCII text *)
Fixpoint lstrip (s : string) : string :=
  match s with
  | EmptyString => EmptyString
  | String c s' => if isspace c then lstrip s' else s
  end.

(** [s.rstrip()], for ASCII text *)
Fixpoint rstrip (s : string) : string :=
  match s with
  | EmptyString => EmptyString
  | String c s' =>
      match rstrip s' with
      | EmptyString => if isspace c then EmptyString else String c EmptyString
      | r => String c r
      end
  end.

(** [s.strip()], for ASCII text *)
Definition strip (s : string) : string := rstrip (lstrip s).

(** [bool(s)]: a string is truthy when it is not empty. *)
Definition truthy (s : string) : bool :=
  match s with EmptyString => false | String _ _ => true end.

(** [s.startswith("$")] *)
Definition startswith_dollar (s : string) : bool :=
  match s with
  | String c _ => Ascii.eqb c "$"%char
  | EmptyString => false
  end.

(** [s[1:]] *)
Definition drop1 (s : string) : string :=
  match s with String _ s' => s' | EmptyString => EmptyString end.

(** [str(n)] for a non-negative integer: its decimal digits. *)
Definition str_nat (n : nat) : string :=
  NilEmpty.string_of_uint (Nat.to_uint n).

(** No character of [s] is a lower-case letter: [s.upper() == s] on ASCII. *)
Fixpoint no_lower (s : string) : bool :=
  match s with
  | EmptyString => true
  | String c s' => negb (islower c) && no_lower s'
  end.

End PyStr.

(** ** Python exceptions and built-ins used by the scripts *)

Module Py.

Inductive Exn : Type :=
| ValueError      (* [range()] arg 3 must not be zero *)
| APIError.       (* a rejected spreadsheet request *)

Inductive Result (A : Type) : Type :=
| Ok (a : A)
| Raise (e : Exn).
Arguments Ok {A} a.
Arguments Raise {A} e.

(** [list(range(0, stop, step))] for [stop = len(seq) >= 0]: a zero step
    raises [ValueError], a negative step counts down from 0 and is empty, a
    positive step gives 0, step, 2*step, ... below [stop]. *)
Definition range0 (stop : nat) (step : Z) : Result (list nat) :=
  if (step =? 0)%Z then Raise ValueError
  else if (step <? 0)%Z then Ok []
  else
    let st := Z.to_nat step in
    Ok (map (fun k => k * st) (seq 0 ((stop + st - 1) / st))).

(** [list(dict.fromkeys(l))]: the keys in the order of their first
    insertion, a key already present keeping its place. *)
Definition fromkeys (l : list string) : list string :=
  foldl (fun keys x => if decide (x ∈ keys) then keys else keys ++ [x]) [] l.

End Py.

(** ** The spreadsheet: A1 notation and the worksheet calls of gspread

    A model of the calls [col_values], [update] and [batch_update] of a
    gspread worksheet, as the scripts use them. *)

Module Sheets.

Import PyStr Py.

(** The column letters A..Z as column numbers 1..26. *)
Definition col_index (c : ascii) : option nat :=
  let n := nat_of_ascii c in
  if ((65 <=? n) && (n <=? 90))%nat then Some (n - 64) else None.

(** A cell reference: a column letter followed by a row number >= 1. *)
Definition parse_cell (s : string) : option (nat * nat) :=
  match s with
  | String c ds =>
      match col_index c, ds with
      | Some col, String _ _ =>
          match NilEmpty.uint_of_string ds with
          | Some d => if (Nat.of_uint d =? 0)%nat then None
                      else Some (col, Nat.of_uint d)
          | None => None
          end
      | _, _ => None
      end
  | EmptyString => None
  end.

(** Splits at the first colon. *)
Fixpoint break_colon (s : string) : string * option string :=
  match s with
  | EmptyString => (EmptyString, None)
  | String c s' =>
      if Ascii.eqb c ":"%char then (EmptyString, Some s')
      else let '(a, b) := break_colon s' in (String c a, b)
  end.

Inductive Range : Type :=
| Single (cell : nat * nat)                 (* "C7" *)
| Span (top_left bottom_right : nat * nat). (* "C2:C9" *)

Definition parse_range (s : string) : option Range :=
  match break_colon s with
  | (a, None) => Single <$> parse_cell a
  | (a, Some b) =>
      match parse_cell a, parse_cell b with
      | Some c1, Some c2 => Some (Span c1 c2)
      | _, _ => None
      end
  end.

Section WithPrice.

Context {Price : Type}.

(** What the scripts put in a cell: a float or a string. *)
Inductive Value : Type :=
| VNum (p : Price)
| VStr (s : string).

(** The grid: the cells that were given a value, by (column, row), and the
    number of rows of the grid. *)
Record Worksheet : Type := {
  cells : gmap (nat * nat) Value;
  row_count : nat
}.

(** The text of a cell as the API returns it; [fmt] formats a number. *)
Definition cell_text (fmt : Price -> string) (ws : Worksheet) (col row : nat) : string :=
  match cells ws !! (col, row) with
  | None => EmptyString
  | Some (VStr s) => s
  | Some (VNum p) => fmt p
  end.

(** Drops the empty strings at the end of a column. *)
Fixpoint drop_trailing_blanks (l : list string) : list string :=
  match l with
  | [] => []
  | s :: rest =>
      match drop_trailing_blanks rest with
      | [] => if truthy s then [s] else []
      | r => s :: r
      end
  end.

(** [ws.col_values(col)]: the texts of the column from row 1 to its last
    non-empty cell, blanks as empty strings. *)
Definition col_values (fmt : Price -> string) (ws : Worksheet) (col : nat) : list string :=
  drop_trailing_blanks (map (cell_text fmt ws col) (seq 1 (row_count ws))).

Definition write_cell (ws : Worksheet) (col row : nat) (v : Value) : Worksheet :=
  {| cells := <[(col, row) := v]> (cells ws); row_count := row_count ws |}.

Fixpoint write_row (ws : Worksheet) (col row : nat) (vs : list Value) : Worksheet :=
  match vs with
  | [] => ws
  | v :: vs' => write_row (write_cell ws col row v) (S col) row vs'
  end.

(** Writes the rows of [values] downwards from (col, row). *)
Fixpoint write_grid (ws : Worksheet) (col row : nat) (values : list (list Value)) : Worksheet :=
  match values with
  | [] => ws
  | vs :: rest => write_grid (write_row ws col row vs) col (S row) rest
  end.

(** The values fit into the span of [h] rows and [w] columns. *)
Definition fits (h w : nat) (values : list (list Value)) : bool :=
  (length values <=? h)%nat && forallb (fun vs => (length vs <=? w)%nat) values.

(** One value range of a write: the range names the top-left cell; a span
    must contain the values, otherwise the request is rejected. *)
Definition write_range (ws : Worksheet) (range : string) (values : list (list Value))
  : option Worksheet :=
  match parse_range range with
  | Some (Single (col, row)) => Some (write_grid ws col row values)
  | Some (Span (c1, r1) (c2, r2)) =>
      if fits (S r2 - r1) (S c2 - c1) values
      then Some (write_grid ws c1 r1 values) else None
  | None => None
  end.

(** An entry of the list passed to [batch_update]:
    [{"range": ..., "values": ...}]. *)
Record Update : Type := {
  range : string;
  values : list (list Value)
}.

(** The write calls of the scripts, both with [value_input_option="RAW"]. *)
Inductive Call : Type :=
| batch_update (updates : list Update)
| update (range_name : string) (vals : list (list Value)).

Fixpoint write_ranges (ws : Worksheet) (updates : list Update) : option Worksheet :=
  match updates with
  | [] => Some ws
  | u :: rest =>
      match write_range ws (range u) (values u) with
      | Some ws' => write_ranges ws' rest
      | None => None
      end
  end.

(** The effect of one call on the worksheet; [None] when the request is
    rejected, in which case nothing is written. *)
Definition exec_call (ws : Worksheet) (c : Call) : option Worksheet :=
  match c with
  | batch_update updates => write_ranges ws updates
  | update r vals => write_range ws r vals
  end.

(** Runs the calls in order. A rejected call raises: the calls after it are
    not issued, the writes before it stay. *)
Fixpoint exec_calls (ws : Worksheet) (cs : list Call) : Worksheet * Result unit :=
  match cs with
  | [] => (ws, Ok tt)
  | c :: rest =>
      match exec_call ws c with
      | Some ws' => exec_calls ws' rest
      | None => (ws, Raise APIError)
      end
  end.

End WithPrice.

Arguments Value : clear implicits.
Arguments Worksheet : clear implicits.
Arguments Update : clear implicits.
Arguments Call : clear implicits.

End Sheets.

(** ** The market-data client *)

Module Alpaca.

(** What [client.get_stock_latest_trade(req)] does for one request: it
    raises, or it returns [None] or a mapping from symbol to trade. *)
Inductive Outcome (Trade : Type) : Type :=
| Raises
| Returns (result : option (gmap string Trade)).
Arguments Raises {Trade}.
Arguments Returns {Trade} result.

(** The behaviour of the client during one cycle: the outcome of the
    [k]-th request of the cycle (from 0), given the symbols requested. *)
Definition Feed (Trade : Type) : Type := nat -> list string -> Outcome Trade.

End Alpaca.

(** ** The spreadsheets the service account can open

    A model of [open_by_key], [open], [worksheet] and [add_worksheet] of
    gspread, as [_open_worksheet] uses them. The grid of a worksheet is
    modelled by its number of rows; the number of columns asked for is not
    kept. *)

Module Spreadsheets.

Import Sheets.

Section WithPrice.

Context {Price : Type}.

(** The spreadsheets by key, each with its worksheets by title, and the key
    of the spreadsheet that [open] finds for a title. *)
Record Drive : Type := {
  files : gmap string (gmap string (Worksheet Price));
  titles : gmap string string
}.

(** [gc.open_by_key(key)]: the key when there is such a spreadsheet; [None]
    stands for [SpreadsheetNotFound]. *)
Definition open_by_key (d : Drive) (key : string) : option string :=
  match files d !! key with
  | Some _ => Some key
  | None => None
  end.

(** [gc.open(title)] *)
Definition open (d : Drive) (title : string) : option string :=
  match titles d !! title with
  | Some key => open_by_key d key
  | None => None
  end.

(** [sh.worksheet(title)]; [None] stands for [WorksheetNotFound]. *)
Definition worksheet (d : Drive) (key title : string) : option (Worksheet Price) :=
  match files d !! key with
  | Some sheets => sheets !! title
  | None => None
  end.

(** The worksheet [title] of the spreadsheet [key] becomes [ws]. *)
Definition store (d : Drive) (key title : string) (ws : Worksheet Price) : Drive :=
  {| files := <[key := <[title := ws]> (default ∅ (files d !! key))]> (files d);
     titles := titles d |}.

(** [sh.add_worksheet(title=title, rows=rows, cols=cols)]: a blank grid. *)
Definition add_worksheet (rows cols : nat) : Worksheet Price :=
  {| cells := ∅; row_count := rows |}.

(** What [_open_worksheet] does: it returns a worksheet, having issued
    [calls] on it and left the spreadsheets as [drive]; or it raises. *)
Inductive Opening : Type :=
| Opened (drive : Drive) (key : string) (ws : Worksheet Price) (calls : list (Call Price))
| SpreadsheetNotFound
| HeaderRejected.

End WithPrice.

Arguments Drive : clear implicits.
Arguments Opening : clear implicits.

End Spreadsheets.

(** ** main.py *)

Module Main.

Import PyStr Py Sheets Alpaca.

(** A TickerRow: [(row_idx, sym)]. *)
Definition TickerRow : Type := nat * string.

(** The loop [for row_idx, raw in enumerate(col_a[1:], start=2)] of
    [_get_rows_and_symbols], from row [row_idx] on. *)
Fixpoint scan_rows (row_idx : nat) (cells : list string) : list TickerRow :=
  match cells with
  | [] => []
  | raw :: rest =>
      let sym := upper (strip raw) in
      if truthy sym then
        let sym := if startswith_dollar sym then drop1 sym else sym in
        (row_idx, sym) :: scan_rows (S row_idx) rest
      else scan_rows (S row_idx) rest
  end.

(** [_get_rows_and_symbols], on the values [col_a] of column A. *)
Definition _get_rows_and_symbols (col_a : list string) : list TickerRow :=
  scan_rows 2 (tail col_a).

(** [_chunks(seq, size)], the list of the slices it yields; it raises when
    [range(0, len(seq), size)] does. *)
Definition _chunks {A : Type} (seq : list A) (size : Z) : Result (list (list A)) :=
  match range0 (length seq) size with
  | Raise e => Raise e
  | Ok starts => Ok (map (fun i => take (Z.to_nat size) (drop i seq)) starts)
  end.

Section WithFeed.

Context {Price Trade : Type}.

(** [float(trade.price)]: the price, or [None] when it raises. *)
Variable float_price : Trade -> option Price.
(** The text the spreadsheet shows for a number. *)
Variable fmt : Price -> string.
(** [CHUNK_SIZE]. *)
Variable CHUNK_SIZE : Z.

(** The loop over [(result or {}).items()]. *)
Definition record_prices (result : option (gmap string Trade)) (prices : gmap string Price)
  : gmap string Price :=
  map_fold
    (fun sym trade prices =>
       match float_price trade with
       | Some p => <[sym := p]> prices
       | None => prices
       end)
    prices (default ∅ result).

(** The loop over the batches, from the [k]-th request on; the state is the
    price map and the list of the requests issued so far. *)
Fixpoint fetch_batches (feed : Feed Trade) (k : nat) (batches : list (list string))
    (st : gmap string Price * list (list string))
  : gmap string Price * list (list string) :=
  match batches with
  | [] => st
  | batch :: rest =>
      let '(prices, issued) := st in
      match feed k batch with
      | Raises => fetch_batches feed (S k) rest (prices, issued ++ [batch])
      | Returns result =>
          fetch_batches feed (S k) rest (record_prices result prices, issued ++ [batch])
      end
  end.

(** [_fetch_latest_prices(symbols, client)]: the price map and the requests
    issued to the client. *)
Definition _fetch_latest_prices (symbols : list string) (feed : Feed Trade)
  : Result (gmap string Price * list (list string)) :=
  match symbols with
  | [] => Ok (∅, [])
  | _ :: _ =>
      let unique_symbols := fromkeys symbols in
      match _chunks unique_symbols CHUNK_SIZE with
      | Raise e => Raise e
      | Ok batches => Ok (fetch_batches feed 0 batches (∅, []))
      end
  end.

(** [price if price is not None else ""] *)
Definition cell_value (price : option Price) : Value Price :=
  match price with
  | Some p => VNum p
  | None => VStr ""
  end.

(** The list [updates] built by [_write_prices_exact_rows]. *)
Definition build_updates (rows_with_symbols : list TickerRow) (price_map : gmap string Price)
  : list (Update Price) :=
  map (fun '(row_idx, sym) =>
         {| range := String "C" (str_nat row_idx);
            values := [[cell_value (price_map !! sym)]] |})
      rows_with_symbols.

(** [_write_prices_exact_rows]: the write calls it issues. *)
Definition _write_prices_exact_rows (rows_with_symbols : list TickerRow)
    (price_map : gmap string Price) : list (Call Price) :=
  match rows_with_symbols with
  | [] => []
  | _ :: _ =>
      match build_updates rows_with_symbols price_map with
      | [] => []
      | updates => [batch_update updates]
      end
  end.

Inductive Outcome : Type :=
| NoTickers                          (* "No tickers in Column A. Sleeping" *)
| Updated (updated total : nat)      (* "Updated {updated} of {total} rows" *)
| LoopError (e : Exn).               (* "Loop error: {e}" *)

(** What one iteration of the loop of [main] did. *)
Record Cycle : Type := {
  outcome : Outcome;
  requests : list (list string);     (* the batches sent to the client *)
  calls : list (Call Price);         (* the write calls issued *)
  sheet : Worksheet Price            (* the worksheet afterwards *)
}.

(** [sum(1 for _, s in rows_syms if s in price_map)] *)
Definition count_updated (rows_syms : list TickerRow) (price_map : gmap string Price) : nat :=
  length (filter (fun rs => is_Some (price_map !! rs.2)) rows_syms).

(** The body of [while _running] in [main]. *)
Definition cycle (ws : Worksheet Price) (feed : Feed Trade) : Cycle :=
  let rows_syms := _get_rows_and_symbols (col_values fmt ws 1) in
  let symbols := map snd rows_syms in
  match symbols with
  | [] => {| outcome := NoTickers; requests := []; calls := []; sheet := ws |}
  | _ :: _ =>
      match _fetch_latest_prices symbols feed with
      | Raise e => {| outcome := LoopError e; requests := []; calls := []; sheet := ws |}
      | Ok (price_map, reqs) =>
          let cs := _write_prices_exact_rows rows_syms price_map in
          match exec_calls ws cs with
          | (ws', Ok _) =>
              {| outcome := Updated (count_updated rows_syms price_map) (length rows_syms);
                 requests := reqs; calls := cs; sheet := ws' |}
          | (ws', Raise e) =>
              {| outcome := LoopError e; requests := reqs; calls := cs; sheet := ws' |}
          end
      end
  end.

(** The loop [while _running] of [main]. [env] lists, for the iterations
    that can take place, the behaviour of the client during the iteration
    and whether a termination signal is handled before [_running] is
    tested again; the result is the list of the cycles run. Every
    iteration sleeps once, after the cycle. *)
Fixpoint main_loop (_running : bool) (env : list (Feed Trade * bool))
    (ws : Worksheet Price) : list Cycle :=
  match env with
  | [] => []
  | (feed, signalled) :: rest =>
      if _running then
        let c := cycle ws feed in
        c :: main_loop (negb signalled) rest (sheet c)
      else []
  end.

End WithFeed.

Section WithDrive.

Import Spreadsheets.

Context {Price Trade : Type}.

Variable float_price : Trade -> option Price.
Variable fmt : Price -> string.
Variable CHUNK_SIZE : Z.
(** [GOOGLE_SHEET_ID], [GOOGLE_SHEET_NAME] and [PAPERTRADER_SHEET]. *)
Variable SHEET_ID : option string.
Variable SHEET_NAME : string.
Variable WORKSHEET_NAME : string.

(** [_open_worksheet(gc)] *)
Definition _open_worksheet (d : Drive Price) : Opening Price :=
  let sh :=
    match SHEET_ID with
    | Some id => if truthy id then open_by_key d id else open d SHEET_NAME
    | None => open d SHEET_NAME
    end in
  match sh with
  | None => SpreadsheetNotFound
  | Some key =>
      match worksheet d key WORKSHEET_NAME with
      | Some ws => Opened d key ws []
      | None =>
          let ws := add_worksheet 1000 5 in
          let header := [[VStr "asset"; VStr ""; VStr "current price"]] in
          match write_range ws "A1:C1" header with
          | Some ws' =>
              Opened (store d key WORKSHEET_NAME ws') key ws' [update "A1:C1" header]
          | None => HeaderRejected
          end
      end
  end.

(** [main], from the opening of the worksheet on: the calls of the
    opening and the cycles run; [None] when the opening raises. *)
Definition main (d : Drive Price) (_running : bool) (env : list (Feed Trade * bool))
  : option (list (Call Price) * list (@Cycle Price)) :=
  match _open_worksheet d with
  | Opened _ _ ws cs => Some (cs, main_loop float_price fmt CHUNK_SIZE _running env ws)
  | _ => None
  end.

End WithDrive.

End Main.

(** ** papertrader_updater.py *)

Module Legacy.

Import PyStr Py Sheets Alpaca.

(** [_get_tickers], on the values [col_a] of column A:
    [[t.strip().upper() for t in col_a[1:] if t.strip()]]. *)
Definition _get_tickers (col_a : list string) : list string :=
  let tickers := tail col_a in
  map (fun t => upper (strip t)) (List.filter (fun t => truthy (strip t)) tickers).

(** [_chunks], the same text as in main.py. *)
Definition _chunks {A : Type} (seq : list A) (size : Z) : Result (list (list A)) :=
  match range0 (length seq) size with
  | Raise e => Raise e
  | Ok starts => Ok (map (fun i => take (Z.to_nat size) (drop i seq)) starts)
  end.

Section WithFeed.

Context {Price Trade : Type}.

Variable float_price : Trade -> option Price.
Variable fmt : Price -> string.
Variable CHUNK_SIZE : Z.

(** [_fetch_latest_prices(symbols, client)]. The loop over the batches is
    the loop of main.py; the request object is built before the [try], from
    a list of strings. The symbols are batched as they come, duplicates
    included. *)
Definition _fetch_latest_prices (symbols : list string) (feed : Feed Trade)
  : Result (gmap string Price * list (list string)) :=
  match symbols with
  | [] => Ok (∅, [])
  | _ :: _ =>
      match _chunks symbols CHUNK_SIZE with
      | Raise e => Raise e
      | Ok batches => Ok (Main.fetch_batches float_price feed 0 batches (∅, []))
      end
  end.

(** The lists [updates_colB] and [updates_colC] of [_write_prices]. *)
Definition updates_colB (timestamp : string) (symbols : list string) : list (list (Value Price)) :=
  map (fun _ => [VStr timestamp]) symbols.

Definition updates_colC (symbols : list string) (price_map : gmap string Price)
  : list (list (Value Price)) :=
  map (fun sym => [Main.cell_value (price_map !! sym)]) symbols.

(** [_write_prices]: the write calls it issues; [timestamp] is the reading
    of the clock, formatted. *)
Definition _write_prices (timestamp : string) (symbols : list string)
    (price_map : gmap string Price) : list (Call Price) :=
  match symbols with
  | [] => []
  | _ :: _ =>
      [ update ("B2:B" +:+ str_nat (length symbols + 1)) (updates_colB timestamp symbols);
        update ("C2:C" +:+ str_nat (length symbols + 1)) (updates_colC symbols price_map) ]
  end.

Inductive Outcome : Type :=
| NoTickers
| Updated (updated total : nat)      (* "Updated {len(price_map)} of {len(symbols)} tickers" *)
| LoopError (e : Exn).

Record Cycle : Type := {
  outcome : Outcome;
  requests : list (list string);
  calls : list (Call Price);
  sheet : Worksheet Price
}.

(** The body of [while _running] in [main]. *)
Definition cycle (timestamp : string) (ws : Worksheet Price) (feed : Feed Trade) : Cycle :=
  let symbols := _get_tickers (col_values fmt ws 1) in
  match symbols with
  | [] => {| outcome := NoTickers; requests := []; calls := []; sheet := ws |}
  | _ :: _ =>
      match _fetch_latest_prices symbols feed with
      | Raise e => {| outcome := LoopError e; requests := []; calls := []; sheet := ws |}
      | Ok (price_map, reqs) =>
          let cs := _write_prices timestamp symbols price_map in
          match exec_calls ws cs with
          | (ws', Ok _) =>
              {| outcome := Updated (size price_map) (length symbols);
                 requests := reqs; calls := cs; sheet := ws' |}
          | (ws', Raise e) =>
              {| outcome := LoopError e; requests := reqs; calls := cs; sheet := ws' |}
          end
      end
  end.

(** The loop [while _running] of [main]; an iteration of [env] has the
    clock reading of its write, the behaviour of the client and whether a
    termination signal is handled before [_running] is tested again. *)
Fixpoint main_loop (_running : bool) (env : list (string * Feed Trade * bool))
    (ws : Worksheet Price) : list Cycle :=
  match env with
  | [] => []
  | (timestamp, feed, signalled) :: rest =>
      if _running then
        let c := cycle timestamp ws feed in
        c :: main_loop (negb signalled) rest (sheet c)
      else []
  end.

End WithFeed.

Section WithDrive.

Import Spreadsheets.

Context {Price : Type}.

Variable SHEET_NAME : string.
Variable WORKSHEET_NAME : string.

(** [_open_worksheet(gc)] *)
Definition _open_worksheet (d : Drive Price) : Opening Price :=
  match open d SHEET_NAME with
  | None => SpreadsheetNotFound
  | Some key =>
      match worksheet d key WORKSHEET_NAME with
      | Some ws => Opened d key ws []
      | None =>
          let ws := add_worksheet 1000 5 in
          let header := [[VStr "Ticker"; VStr "Last Updated (UTC)"; VStr "Price"]] in
          match write_range ws "A1:C1" header with
          | Some ws' =>
              Opened (store d key WORKSHEET_NAME ws') key ws' [update "A1:C1" header]
          | None => HeaderRejected
          end
      end
  end.

End WithDrive.

End Legacy.

(** ** The words of the specification *)

Module Spec.

Import PyStr.

(** Deduplication in first-occurrence order. *)
Fixpoint dedup_first (l : list string) : list string :=
  match l with
  | [] => []
  | x :: l' => x :: filter (fun y => y <> x) (dedup_first l')
  end.

(** SymbolSet: the distinct symbols of the TickerRows, in the order of their
    first occurrence. *)
Definition SymbolSet (rows : list (nat * string)) : list string :=
  dedup_first (map snd rows).

(** Extraction as specified: from row [row] on, each cell is trimmed,
    upper-cased and relieved of one leading dollar sign, and the row is
    discarded when the result is empty. *)
Fixpoint extract_from (row : nat) (cells : list string) : list (nat * string) :=
  match cells with
  | [] => []
  | raw :: rest =>
      let sym := upper (strip raw) in
      let sym := if startswith_dollar sym then drop1 sym else sym in
      if truthy sym then (row, sym) :: extract_from (S row) rest
      else extract_from (S row) rest
  end.

(** Row 1 is the header; the data starts at row 2. *)
Definition extract (rawColumn : list string) : list (nat * string) :=
  extract_from 2 (tail rawColumn).

End Spec.

(** ** Behaviours of the feed *)

Module Feeds.

Import Alpaca.

Section WithTrade.

Context {Trade : Type}.


(** Every response names symbols of the batch requested only. *)
Definition answers_requested (feed : Feed Trade) : Prop :=
  forall k b r s, feed k b = Returns (Some r) -> is_Some (r !! s) -> s ∈ b.

(** No symbol is in two batches. *)
Definition pairwise_disjoint (batches : list (list string)) : Prop :=
  forall i j b1 b2 s,
    batches !! i = Some b1 -> batches !! j = Some b2 -> s ∈ b1 -> s ∈ b2 -> i = j.

End WithTrade.

End Feeds.

(** ** Concrete worksheets and feeds *)

Module Demo.

Import Sheets Alpaca.

(** Prices are rationals; a trade carries a price or none that parses. *)
Record Trade : Type := { price : option Q }.

Definition float_price (t : Trade) : option Q := price t.

Definition fmt (p : Q) : string := "0".

Definition quote (q : Q) : Trade := {| price := Some q |}.

(** A worksheet of 1000 rows whose column A holds the given texts from
    row 1 on, empty texts being blank cells. *)
Definition sheet_of_column (col_a : list string) : Worksheet Q :=
  {| cells := list_to_map
       (omap (fun '(i, s) => if PyStr.truthy s then Some ((1, S i), VStr s) else None)
             (imap (fun i s => (i, s)) col_a));
     row_count := 1000 |}.

(** A feed that answers every request with the quotes of the symbols
    requested. *)
Definition feed_of (quotes : gmap string Trade) : Feed Trade :=
  fun _ batch => Returns (Some (filter (fun kv => kv.1 ∈ batch) quotes)).

(** A feed that answers every request with all its quotes. *)
Definition feed_all (quotes : gmap string Trade) : Feed Trade :=
  fun _ _ => Returns (Some quotes).

(** A feed whose [n]-th request raises and that otherwise behaves as [feed]. *)
Definition failing_at (n : nat) (feed : Feed Trade) : Feed Trade :=
  fun k batch => if (k =? n)%nat then Raises else feed k batch.

Definition quotes : gmap string Trade :=
  {[ "AAPL" := quote (17234 # 100); "SPY" := quote (450 # 1); "MSFT" := quote (300 # 1) ]}.

End Demo.

(** ** The claims that fail, as they are stated *)

Module Stated.

Import Py Alpaca.

Section WithFeed.

Context {Price Trade : Type}.
Variable float_price : Trade -> option Price.

(** Partial failure isolation, for every sequence of batches and every
    feed: the symbols of a batch whose request raises are absent from the
    price map. *)
Definition failing_batch_absent (feed : Feed Trade) (batches : list (list string)) : Prop :=
  forall i b s,
    batches !! i = Some b -> feed i b = Raises -> s ∈ b ->
    (Main.fetch_batches float_price feed 0 batches (∅, [])).1 !! s = None.

(** PriceMap containment, for every feed: the keys of the price map are
    symbols of the SymbolSet. *)
Definition keys_in_symbol_set (CHUNK_SIZE : Z) (rows : list Main.TickerRow)
    (feed : Feed Trade) : Prop :=
  forall price_map reqs s,
    Main._fetch_latest_prices float_price CHUNK_SIZE (map snd rows) feed
    = Ok (price_map, reqs) ->
    is_Some (price_map !! s) -> s ∈ Spec.SymbolSet rows.


End WithFeed.

End Stated.

(** ** Notions used to state what the code does *)

Module Observed.

Import PyStr Sheets Alpaca.

(** A symbol without its leading dollar sign, as main.py takes it. *)
Definition strip_dollar (sym : string) : string :=
  if startswith_dollar sym then drop1 sym else sym.

Section WithFeed.

Context {Price Trade : Type}.
Variable float_price : Trade -> option Price.

(** No response to the batches [l], requested from the [k]-th request on,
    names the symbol [s] with a price that parses. *)
Definition unpriced (feed : Feed Trade) (k : nat) (l : list (list string)) (s : string) : Prop :=
  forall j b r t,
    l !! j = Some b -> feed (k + j) b = Returns (Some r) -> r !! s = Some t ->
    float_price t = None.

(** The update carries a number. *)
Definition is_number (u : Update Price) : bool :=
  match values u with
  | [[VNum _]] => true
  | _ => false
  end.

End WithFeed.

End Observed.

(** ** More concrete worksheets, feeds and spreadsheets *)

Module Samples.

Import Sheets Alpaca Spreadsheets.

(** One spreadsheet, titled Trading Log, without worksheets. *)
Definition drive : Drive Q :=
  {| files := {[ "key1" := (∅ : gmap string (Worksheet Q)) ]};
     titles := {[ "Trading Log" := "key1" ]} |}.

Definition opening : Opening Q :=
  Main._open_worksheet None "Trading Log" "Papertrader" drive.

Definition opened_drive : Drive Q :=
  match opening with Opened d _ _ _ => d | _ => drive end.

Definition opened_sheet : Worksheet Q :=
  match opening with Opened _ _ ws _ => ws | _ => add_worksheet 0 0 end.

Definition legacy_opening : Opening Q :=
  Legacy._open_worksheet "Trading Log" "Papertrader" drive.

Definition legacy_opened_drive : Drive Q :=
  match legacy_opening with Opened d _ _ _ => d | _ => drive end.

Definition legacy_opened_sheet : Worksheet Q :=
  match legacy_opening with Opened _ _ ws _ => ws | _ => add_worksheet 0 0 end.

(** A response whose price for AAPL does not parse. *)
Definition unparsable : gmap string Demo.Trade :=
  {[ "AAPL" := {| Demo.price := None |} ]}.

(** A feed every request of which raises. *)
Definition outage : Feed Demo.Trade := fun _ _ => Raises.

(** Column A: a header and a cell of white space. *)
Definition blank_sheet : Worksheet Q :=
  {| cells := {[ (1, 1) := VStr "SYMBOL"; (1, 2) := VStr "  " ]};
     row_count := 1000 |}.

(** Tickers in rows 2 and 4, and a value left in column C of the blank
    row 3. *)
Definition stale_sheet : Worksheet Q :=
  write_cell (Demo.sheet_of_column ["SYMBOL"; "AAPL"; ""; "SPY"]) 3 3 (VNum (9 # 1)%Q).

End Samples.

(** ** ASCII text

    [PyStr.strip] and [PyStr.upper] are Python's [str.strip] and
    [str.upper] on ASCII text: beyond ASCII, [str.strip] trims more
    characters and [str.upper] maps more letters, not always one to one.
    The statements that depend on what is trimmed or upper-cased are made
    for ASCII text. *)

Module Text.

Definition ascii_char (c : ascii) : bool := (nat_of_ascii c <? 128)%nat.

(** Every character of [s] is an ASCII character. *)
Fixpoint ascii_text (s : string) : bool :=
  match s with
  | EmptyString => true
  | String c s' => ascii_char c && ascii_text s'
  end.

(** Every text of the column is ASCII text. *)
Definition ascii_column (col : list string) : Prop :=
  Forall (fun raw => ascii_text raw = true) col.

End Text.

(** ** What the responses of a cycle leave in the price map *)

Module Recorded.

Import Alpaca.

Section WithFeed.

Context {Price Trade : Type}.
Variable float_price : Trade -> option Price.

(** The request number [j] of the cycle, for one of the [batches], is
    answered by a response that names the symbol [s] with a price that
    parses as [p]. *)
Definition priced_by (feed : Feed Trade) (batches : list (list string))
    (j : nat) (s : string) (p : Price) : Prop :=
  exists b r t,
    batches !! j = Some b /\ feed j b = Returns (Some r) /\
    r !! s = Some t /\ float_price t = Some p.



End WithFeed.

End Recorded.

(** ** Idempotence as stated, for papertrader_updater.py *)

Module StatedRuns.

Import Sheets Alpaca.

Section WithFeed.

Context {Price Trade : Type}.
Variable float_price : Trade -> option Price.
Variable fmt : Price -> string.
Variable CHUNK_SIZE : Z.

(** A second run, on the worksheet left by the first and with the same
    feed responses, issues the calls of the first: same cells, same
    values. [t1] and [t2] are the clock readings of the two runs. *)
Definition second_run_identical (t1 t2 : string) (ws : Worksheet Price)
    (feed : Feed Trade) : Prop :=
  Legacy.calls
    (Legacy.cycle float_price fmt CHUNK_SIZE t2
       (Legacy.sheet (Legacy.cycle float_price fmt CHUNK_SIZE t1 ws feed)) feed)
  = Legacy.calls (Legacy.cycle float_price fmt CHUNK_SIZE t1 ws feed).

End WithFeed.

End StatedRuns.

(** * Properties *)

Import PyStr Py Sheets Alpaca Feeds.

(** ** Strings and A1 notation *)

Lemma upper_char_not_lower c : islower (upper_char c) = false.
Proof.
  unfold upper_char. destruct (islower c) eqn:E; [|exact E].
  unfold islower in *. apply andb_true_iff in E as [E1 E2].
  apply Nat.leb_le in E1. apply Nat.leb_le in E2.
  rewrite nat_ascii_embedding by lia.
  apply andb_false_iff. left. apply Nat.leb_gt. lia.
Qed.

Lemma upper_no_lower s : no_lower (upper s) = true.
Proof.
  induction s as [|c s IH]; [reflexivity|].
  simpl. rewrite upper_char_not_lower, IH. reflexivity.
Qed.

Lemma no_lower_drop1 s : no_lower s = true -> no_lower (drop1 s) = true.
Proof.
  destruct s as [|c s]; [trivial|]. simpl.
  intros H. apply andb_true_iff in H. tauto.
Qed.

Lemma unorm_not_nil d : unorm d <> Nil.
Proof. induction d; simpl; try discriminate. exact IHd. Qed.

Lemma to_uint_not_nil n : Nat.to_uint n <> Nil.
Proof.
  rewrite <- (Unsigned.of_to n) at 1. rewrite Unsigned.to_of.
  apply unorm_not_nil.
Qed.

(** The decimal digits of a number are not empty and hold no colon. *)
Lemma str_nat_cons n : exists c s, str_nat n = String c s.
Proof.
  unfold str_nat. pose proof (to_uint_not_nil n) as H.
  destruct (Nat.to_uint n); simpl; eauto. congruence.
Qed.

Lemma break_colon_digits d :
  break_colon (NilEmpty.string_of_uint d) = (NilEmpty.string_of_uint d, None).
Proof. induction d; simpl; try rewrite IHd; reflexivity. Qed.

Lemma parse_cell_C row :
  parse_cell (String "C" (str_nat row)) = if (row =? 0)%nat then None else Some (3, row).
Proof.
  unfold parse_cell. change (col_index "C") with (Some 3).
  destruct (str_nat_cons row) as (c & s & E). rewrite E, <- E.
  unfold str_nat. rewrite NilEmpty.usu, Unsigned.of_to. reflexivity.
Qed.

(** [f"C{row_idx}"] names the cell of column C in row [row_idx]. *)
Lemma parse_range_C row :
  parse_range (String "C" (str_nat row))
  = if (row =? 0)%nat then None else Some (Single (3, row)).
Proof.
  unfold parse_range. cbn [break_colon]. change (Ascii.eqb "C" ":") with false.
  cbv iota. unfold str_nat at 1. rewrite break_colon_digits.
  fold (str_nat row). rewrite parse_cell_C. destruct (row =? 0)%nat; reflexivity.
Qed.

Lemma parse_cell_col (c : ascii) (col row : nat) :
  col_index c = Some col ->
  parse_cell (String c (str_nat row)) = if (row =? 0)%nat then None else Some (col, row).
Proof.
  intros Hc. unfold parse_cell. rewrite Hc.
  destruct (str_nat_cons row) as (c' & s & E). rewrite E, <- E.
  unfold str_nat. rewrite NilEmpty.usu, Unsigned.of_to. reflexivity.
Qed.

(** [f"B2:B{n}"] and [f"C2:C{n}"] span rows 2 to [n] of one column. *)
Lemma parse_range_B2 n :
  parse_range ("B2:B" +:+ str_nat n)
  = if (n =? 0)%nat then None else Some (Span (2, 2) (2, n)).
Proof.
  unfold parse_range.
  change (break_colon ("B2:B" +:+ str_nat n))
    with ("B2", Some (String "B" (str_nat n))).
  cbv beta iota.
  rewrite (parse_cell_col "B" 2 n eq_refl).
  change (parse_cell "B2") with (Some (2, 2)).
  destruct (n =? 0)%nat; reflexivity.
Qed.

Lemma parse_range_C2 n :
  parse_range ("C2:C" +:+ str_nat n)
  = if (n =? 0)%nat then None else Some (Span (3, 2) (3, n)).
Proof.
  unfold parse_range.
  change (break_colon ("C2:C" +:+ str_nat n))
    with ("C2", Some (String "C" (str_nat n))).
  cbv beta iota.
  rewrite (parse_cell_col "C" 3 n eq_refl).
  change (parse_cell "C2") with (Some (3, 2)).
  destruct (n =? 0)%nat; reflexivity.
Qed.

(** ** The worksheet *)

Section SheetFacts.

Context {Price : Type}.
Implicit Types (ws : Worksheet Price) (v : Value Price).

Lemma write_row_row_count ws col row vs :
  row_count (write_row ws col row vs) = row_count ws.
Proof.
  revert ws col. induction vs as [|v vs IH]; intros ws col; simpl; [reflexivity|].
  rewrite IH. reflexivity.
Qed.

Lemma write_grid_row_count ws col row vals :
  row_count (write_grid ws col row vals) = row_count ws.
Proof.
  revert ws row. induction vals as [|vs vals IH]; intros ws row; simpl; [reflexivity|].
  rewrite IH. apply write_row_row_count.
Qed.

(** A row of [w] values written from column [col] leaves the other columns. *)
Lemma write_row_other_col ws col row vs c r :
  c < col \/ col + length vs <= c ->
  cells (write_row ws col row vs) !! (c, r) = cells ws !! (c, r).
Proof.
  revert ws col. induction vs as [|v vs IH]; intros ws col H; simpl; [reflexivity|].
  simpl in H. rewrite IH by lia. simpl.
  apply lookup_insert_ne. intros [= -> _]. lia.
Qed.

Lemma write_grid_other_col ws col row vals w c r :
  Forall (fun vs => length vs <= w) vals ->
  c < col \/ col + w <= c ->
  cells (write_grid ws col row vals) !! (c, r) = cells ws !! (c, r).
Proof.
  intros Hw Hc. revert ws row.
  induction Hw as [|vs vals Hvs _ IH]; intros ws row; simpl; [reflexivity|].
  rewrite IH. apply write_row_other_col. lia.
Qed.

(** The values of a column depend on the cells of that column only. *)
Lemma col_values_ext fmt ws ws' col :
  row_count ws' = row_count ws ->
  (forall r, cells ws' !! (col, r) = cells ws !! (col, r)) ->
  col_values fmt ws' col = col_values fmt ws col.
Proof.
  intros Hn Hc. unfold col_values. rewrite Hn. f_equal.
  apply map_ext. intros r. unfold cell_text. rewrite Hc. reflexivity.
Qed.

End SheetFacts.

(** ** Extraction of the TickerRows (main.py) *)

(** The row numbers of the scan start at [row_idx] and stay within the
    scanned cells. *)
Lemma scan_rows_bounds row_idx cells :
  Forall (fun rs : Main.TickerRow => row_idx <= rs.1 < row_idx + length cells)
         (Main.scan_rows row_idx cells).
Proof.
  revert row_idx. induction cells as [|raw rest IH]; intros row_idx; simpl.
  - constructor.
  - assert (Forall (fun rs : Main.TickerRow => row_idx <= rs.1 < row_idx + S (length rest))
                   (Main.scan_rows (S row_idx) rest)) as Hrest.
    { eapply Forall_impl; [apply IH|]. simpl. intros rs Hrs. lia. }
    destruct (truthy (upper (strip raw))); [|exact Hrest].
    constructor; [simpl; lia|exact Hrest].
Qed.

Lemma scan_rows_sorted row_idx cells :
  StronglySorted lt (map fst (Main.scan_rows row_idx cells)).
Proof.
  revert row_idx. induction cells as [|raw rest IH]; intros row_idx; simpl.
  - constructor.
  - destruct (truthy (upper (strip raw))); [|apply IH].
    simpl. constructor; [apply IH|].
    apply Forall_map. eapply Forall_impl; [apply scan_rows_bounds|].
    simpl. intros rs Hrs. lia.
Qed.

Lemma StronglySorted_lt_NoDup (l : list nat) : StronglySorted lt l -> NoDup l.
Proof.
  induction 1 as [|x l _ IH Hx]; constructor; [|exact IH].
  intros Hin. rewrite Forall_forall in Hx. specialize (Hx _ Hin). lia.
Qed.

(** Every row of the scan comes from the cell of that row: the symbol is the
    cell trimmed and upper-cased, without its leading dollar sign. *)
Lemma scan_rows_origin row_idx cells r sym :
  (r, sym) ∈ Main.scan_rows row_idx cells ->
  exists raw, cells !! (r - row_idx) = Some raw /\ row_idx <= r /\
    truthy (upper (strip raw)) = true /\
    sym = (if startswith_dollar (upper (strip raw))
           then drop1 (upper (strip raw)) else upper (strip raw)).
Proof.
  revert row_idx. induction cells as [|raw rest IH]; intros row_idx; simpl.
  - intros H. inversion H.
  - assert (forall r', (r', sym) ∈ Main.scan_rows (S row_idx) rest ->
              r' = r -> exists raw0, (raw :: rest) !! (r - row_idx) = Some raw0 /\
              row_idx <= r /\ truthy (upper (strip raw0)) = true /\
              sym = (if startswith_dollar (upper (strip raw0))
                     then drop1 (upper (strip raw0)) else upper (strip raw0))) as Hrest.
    { intros r' Hin ->. destruct (IH _ Hin) as (raw0 & Hl & Hle & Ht & Hs).
      exists raw0. split; [|split; [lia|split; assumption]].
      replace (r - row_idx) with (S (r - S row_idx)) by lia. exact Hl. }
    destruct (truthy (upper (strip raw))) eqn:Htr; [|intros H; eapply Hrest; eauto].
    intros H. apply elem_of_cons in H as [[= -> ->]|H]; [|eapply Hrest; eauto].
    exists raw. rewrite Nat.sub_diag. simpl. auto.
Qed.

(** The symbols of the rows hold no lower-case letter. *)
Lemma scan_rows_upper row_idx cells :
  Forall (fun rs : Main.TickerRow => no_lower rs.2 = true) (Main.scan_rows row_idx cells).
Proof.
  revert row_idx. induction cells as [|raw rest IH]; intros row_idx; simpl.
  - constructor.
  - destruct (truthy (upper (strip raw))); [|apply IH].
    constructor; [|apply IH]. simpl.
    destruct (startswith_dollar _); [apply no_lower_drop1|]; apply upper_no_lower.
Qed.

(** ** Deduplication and batching *)

Lemma fromkeys_acc (keys l : list string) :
  foldl (fun keys x => if decide (x ∈ keys) then keys else keys ++ [x]) keys l
  = keys ++ filter (fun y => y ∉ keys) (Spec.dedup_first l).
Proof.
  revert keys. induction l as [|x l IH]; intros keys; simpl.
  - rewrite app_nil_r. reflexivity.
  - rewrite IH. destruct (decide (x ∈ keys)) as [Hin|Hnin].
    + rewrite filter_cons_False by (intros H; exact (H Hin)).
      rewrite list_filter_filter. f_equal. apply list_filter_iff.
      intros y. split; [|tauto]. intros Hy. split; [exact Hy|congruence].
    + rewrite filter_cons_True by exact Hnin.
      rewrite <- app_assoc. simpl. do 2 f_equal.
      rewrite list_filter_filter. apply list_filter_iff.
      intros y. rewrite elem_of_app, elem_of_cons, elem_of_nil. tauto.
Qed.

(** [list(dict.fromkeys(l))] is the deduplication in first-occurrence order. *)
Lemma fromkeys_dedup_first l : fromkeys l = Spec.dedup_first l.
Proof.
  unfold fromkeys. rewrite fromkeys_acc. simpl.
  induction (Spec.dedup_first l) as [|y d IH]; [reflexivity|].
  rewrite filter_cons_True by apply not_elem_of_nil. f_equal. exact IH.
Qed.

Lemma dedup_first_elem l x : x ∈ Spec.dedup_first l <-> x ∈ l.
Proof.
  induction l as [|y l IH]; simpl; [reflexivity|].
  rewrite !elem_of_cons, list_elem_of_filter, IH.
  destruct (decide (x = y)); tauto.
Qed.

Lemma dedup_first_NoDup l : NoDup (Spec.dedup_first l).
Proof.
  induction l as [|y l IH]; simpl; constructor.
  - rewrite list_elem_of_filter. tauto.
  - apply NoDup_filter, IH.
Qed.

Lemma concat_slices {A : Type} (l : list A) (s n : nat) :
  concat (map (fun k => take s (drop (k * s) l)) (seq 0 n)) = take (n * s) l.
Proof.
  induction n as [|n IH]; [reflexivity|].
  rewrite seq_S, map_app, concat_app, IH. simpl.
  rewrite app_nil_r, take_take_drop. f_equal. lia.
Qed.

Lemma ceil_div_bounds (len s : nat) :
  0 < s ->
  len <= (len + s - 1) / s * s /\
  (forall k, k < (len + s - 1) / s -> k * s < len).
Proof.
  intros Hs.
  pose proof (Nat.div_mod_eq (len + s - 1) s) as Hdm.
  pose proof (Nat.mod_upper_bound (len + s - 1) s) as Hm.
  split; [nia|]. intros k Hk. nia.
Qed.

(** For a positive step the range holds the multiples of the step below
    [stop], as Python's [range(0, stop, step)]. *)
Lemma range0_positive (stop : nat) (step : Z) :
  (0 < step)%Z ->
  exists l, range0 stop step = Ok l /\
    forall i, i ∈ l <-> i < stop /\ exists k, i = k * Z.to_nat step.
Proof.
  intros Hstep. unfold range0.
  destruct (Z.eqb_spec step 0) as [->|_]; [lia|].
  destruct (Z.ltb_spec step 0) as [?|_]; [lia|].
  set (s := Z.to_nat step). assert (0 < s) as Hs by lia.
  destruct (ceil_div_bounds stop s Hs) as [Hle Hlt].
  eexists. split; [reflexivity|]. intros i.
  change (map ?f ?l) with (f <$> l). rewrite list_elem_of_fmap. split.
  - intros (k & -> & Hk). apply elem_of_seq in Hk. split; [apply Hlt; lia|eauto].
  - intros (Hi & k & ->). exists k. split; [reflexivity|].
    apply elem_of_seq. split; [lia|]. simpl.
    destruct (Nat.lt_ge_cases k ((stop + s - 1) / s)) as [?|Hge]; [assumption|].
    exfalso. assert ((stop + s - 1) / s * s <= k * s) by nia. lia.
Qed.

(** For a positive size the slices are not empty, hold at most [size]
    elements, and give the sequence back when put end to end. *)
Lemma chunks_positive {A : Type} (l : list A) (size : Z) :
  (0 < size)%Z ->
  exists batches,
    Main._chunks l size = Ok batches /\
    concat batches = l /\
    Forall (fun b => 1 <= length b <= Z.to_nat size) batches.
Proof.
  intros Hsize. unfold Main._chunks, range0.
  destruct (Z.eqb_spec size 0) as [->|_]; [lia|].
  destruct (Z.ltb_spec size 0) as [?|_]; [lia|].
  set (s := Z.to_nat size). assert (0 < s) as Hs by lia.
  destruct (ceil_div_bounds (length l) s Hs) as [Hle Hlt].
  eexists. split; [reflexivity|]. rewrite map_map. split.
  - rewrite concat_slices. apply take_ge. exact Hle.
  - apply Forall_map, Forall_forall. intros k Hk.
    apply elem_of_seq in Hk. specialize (Hlt k ltac:(lia)). simpl.
    rewrite length_take, length_drop. lia.
Qed.

(** Whatever the size, a slice holds elements of the sequence only. *)
Lemma chunks_elements {A : Type} (l : list A) (size : Z) batches b x :
  Main._chunks l size = Ok batches -> b ∈ batches -> x ∈ b -> x ∈ l.
Proof.
  unfold Main._chunks. destruct (range0 (length l) size) as [starts|e]; [|discriminate].
  intros [= <-] Hb Hx. apply list_elem_of_fmap in Hb as (i & -> & _).
  apply elem_of_take in Hx as (j & Hj & _). rewrite lookup_drop in Hj.
  eapply list_elem_of_lookup_2, Hj.
Qed.


Lemma legacy_chunks_eq {A : Type} (l : list A) (size : Z) :
  Legacy._chunks l size = Main._chunks l size.
Proof. reflexivity. Qed.

(** ** The fetch loop *)

Section FetchFacts.

Context {Price Trade : Type}.
Variable float_price : Trade -> option Price.

Local Abbreviation record_prices := (Main.record_prices float_price).
Local Abbreviation fetch_batches := (Main.fetch_batches float_price).

(** After a response is recorded, a symbol it names with a price that
    parses has that price; every other symbol keeps its entry. *)
Lemma record_prices_lookup (result : option (gmap string Trade))
    (prices : gmap string Price) (s : string) :
  record_prices result prices !! s
  = match default ∅ result !! s ≫= float_price with
    | Some p => Some p
    | None => prices !! s
    end.
Proof.
  unfold Main.record_prices. revert s.
  apply (map_fold_weak_ind
    (fun (acc : gmap string Price) (m : gmap string Trade) =>
       forall s, acc !! s = match m !! s ≫= float_price with
                            | Some p => Some p
                            | None => prices !! s
                            end)).
  - intros s. rewrite lookup_empty. reflexivity.
  - intros i x m acc Hi IH s. destruct (decide (i = s)) as [->|Hne].
    + rewrite lookup_insert_eq. simpl.
      destruct (float_price x) as [p|].
      * apply lookup_insert_eq.
      * rewrite IH, Hi. reflexivity.
    + rewrite (lookup_insert_ne m) by exact Hne.
      destruct (float_price x) as [p|]; [rewrite lookup_insert_ne by exact Hne|];
        apply IH.
Qed.

Lemma fetch_batches_app (feed : Feed Trade) k l1 l2 st :
  fetch_batches feed k (l1 ++ l2) st
  = fetch_batches feed (k + length l1) l2 (fetch_batches feed k l1 st).
Proof.
  revert k st. induction l1 as [|b l1 IH]; intros k [prices issued]; simpl.
  - rewrite Nat.add_0_r. reflexivity.
  - replace (k + S (length l1)) with (S k + length l1) by lia.
    destruct (feed k b); apply IH.
Qed.

(** One request is issued for every batch, in order, whatever the outcomes. *)
Lemma fetch_batches_issued (feed : Feed Trade) k batches prices issued :
  (fetch_batches feed k batches (prices, issued)).2 = issued ++ batches.
Proof.
  revert k prices issued. induction batches as [|b rest IH]; intros k prices issued; simpl.
  - rewrite app_nil_r. reflexivity.
  - destruct (feed k b); rewrite IH, <- app_assoc; reflexivity.
Qed.





(** A key of the price map was a key before the loop, or is named by the
    response of a request that did not raise. *)
Lemma fetch_lookup_named (feed : Feed Trade) k l s prices issued :
  is_Some ((fetch_batches feed k l (prices, issued)).1 !! s) ->
  is_Some (prices !! s) \/
  exists j b r, l !! j = Some b /\ feed (k + j) b = Returns (Some r) /\ is_Some (r !! s).
Proof.
  revert k prices issued. induction l as [|b l IH]; intros k prices issued; simpl.
  - auto.
  - assert (forall st', is_Some ((fetch_batches feed (S k) l st').1 !! s) ->
              is_Some (st'.1 !! s) \/
              exists j b0 r, (b :: l) !! j = Some b0 /\
                feed (k + j) b0 = Returns (Some r) /\ is_Some (r !! s)) as Hrest.
    { intros [p' i'] H. destruct (IH _ _ _ H) as [?|(j & b0 & r & Hl & Hf & Hs)]; [auto|].
      right. exists (S j), b0, r. split; [exact Hl|].
      replace (k + S j) with (S k + j) by lia. auto. }
    destruct (feed k b) as [|result] eqn:Hf; intros H;
      destruct (Hrest _ H) as [Hp|?]; auto. simpl in Hp.
    rewrite record_prices_lookup in Hp.
    destruct result as [r|]; simpl in Hp.
    + destruct (r !! s) as [t|] eqn:Hr; simpl in Hp; [|auto].
      right. exists 0, b, r. rewrite Nat.add_0_r. eauto.
    + rewrite lookup_empty in Hp. auto.
Qed.

End FetchFacts.

(** ** The writes of main.py *)

Section WriteFacts.

Context {Price : Type}.
Implicit Types (ws : Worksheet Price) (price_map : gmap string Price).

(** The write of one TickerRow on the worksheet. *)
Local Abbreviation put price_map :=
  (fun ws (rs : Main.TickerRow) => write_cell ws 3 rs.1 (Main.cell_value (price_map !! rs.2))).

Lemma write_range_C ws row (v : Value Price) :
  write_range ws (String "C" (str_nat row)) [[v]]
  = if (row =? 0)%nat then None else Some (write_cell ws 3 row v).
Proof.
  unfold write_range. rewrite parse_range_C.
  destruct (row =? 0)%nat; reflexivity.
Qed.

Lemma build_updates_lookup (rows : list Main.TickerRow) price_map i r s :
  rows !! i = Some (r, s) ->
  Main.build_updates rows price_map !! i
  = Some {| range := String "C" (str_nat r);
            values := [[Main.cell_value (price_map !! s)]] |}.
Proof.
  intros H. unfold Main.build_updates.
  change (map ?f rows) with (f <$> rows).
  apply list_lookup_fmap_Some. exists (r, s). split; [reflexivity|exact H].
Qed.

(** The updates of rows numbered from 1 are accepted and put each value in
    column C of its row. *)
Lemma write_ranges_build (rows : list Main.TickerRow) price_map ws :
  Forall (fun rs : Main.TickerRow => 1 <= rs.1) rows ->
  write_ranges ws (Main.build_updates rows price_map)
  = Some (foldl (put price_map) ws rows).
Proof.
  intros Hrows. revert ws. induction Hrows as [|[r s] rows Hr _ IH]; intros ws.
  - reflexivity.
  - simpl in *. rewrite write_range_C.
    destruct (Nat.eqb_spec r 0) as [->|_]; [lia|]. apply IH.
Qed.

Lemma foldl_put_row_count (rows : list Main.TickerRow) price_map ws :
  row_count (foldl (put price_map) ws rows) = row_count ws.
Proof.
  revert ws. induction rows as [|rs rows IH]; intros ws; simpl; [reflexivity|].
  rewrite IH. reflexivity.
Qed.

Lemma foldl_put_other (rows : list Main.TickerRow) price_map ws c r :
  c <> 3 \/ r ∉ map fst rows ->
  cells (foldl (put price_map) ws rows) !! (c, r) = cells ws !! (c, r).
Proof.
  revert ws. induction rows as [|[r0 s0] rows IH]; intros ws H; simpl; [reflexivity|].
  rewrite IH.
  - simpl. apply lookup_insert_ne. intros [= <- <-].
    destruct H as [H|H]; [congruence|]. apply H. simpl. left.
  - destruct H as [H|H]; [auto|]. right. intros Hin. apply H. simpl. right. exact Hin.
Qed.

Lemma foldl_put_target (rows : list Main.TickerRow) price_map ws r s :
  NoDup (map fst rows) -> (r, s) ∈ rows ->
  cells (foldl (put price_map) ws rows) !! (3, r) = Some (Main.cell_value (price_map !! s)).
Proof.
  revert ws. induction rows as [|[r0 s0] rows IH]; intros ws Hnd Hin.
  - inversion Hin.
  - simpl in Hnd. apply NoDup_cons in Hnd as [Hr0 Hnd]. simpl.
    apply elem_of_cons in Hin as [[= -> ->]|Hin].
    + rewrite foldl_put_other by auto. simpl. apply lookup_insert_eq.
    + apply IH; assumption.
Qed.

(** Accepted or not, the write of main.py leaves every column but C. *)
Lemma write_ranges_build_frame (rows : list Main.TickerRow) price_map ws ws' c r :
  write_ranges ws (Main.build_updates rows price_map) = Some ws' ->
  c <> 3 ->
  cells ws' !! (c, r) = cells ws !! (c, r) /\ row_count ws' = row_count ws.
Proof.
  intros Hw Hc. revert ws Hw. induction rows as [|[r0 s0] rows IH]; intros ws Hw; simpl in Hw.
  - injection Hw as <-. auto.
  - rewrite write_range_C in Hw. destruct (r0 =? 0)%nat; [discriminate|].
    destruct (IH _ Hw) as [H1 H2]. rewrite H1, H2. simpl. split; [|reflexivity].
    apply lookup_insert_ne. congruence.
Qed.

Lemma exact_rows_frame (rows : list Main.TickerRow) price_map ws c r :
  c <> 3 ->
  cells (exec_calls ws (Main._write_prices_exact_rows rows price_map)).1 !! (c, r)
  = cells ws !! (c, r) /\
  row_count (exec_calls ws (Main._write_prices_exact_rows rows price_map)).1 = row_count ws.
Proof.
  intros Hc. unfold Main._write_prices_exact_rows.
  destruct rows as [|rs rows]; [auto|].
  destruct (Main.build_updates (rs :: rows) price_map) as [|u us] eqn:E; [auto|].
  rewrite <- E. cbn [exec_calls exec_call].
  destruct (write_ranges ws (Main.build_updates (rs :: rows) price_map)) as [ws'|] eqn:Hw;
    cbn [fst]; [|auto].
  eapply write_ranges_build_frame; eauto.
Qed.

(** On rows numbered from 1, the write of main.py is one accepted call. *)
Lemma exact_rows_exec (rows : list Main.TickerRow) price_map ws :
  Forall (fun rs : Main.TickerRow => 1 <= rs.1) rows ->
  exec_calls ws (Main._write_prices_exact_rows rows price_map)
  = (foldl (put price_map) ws rows, Ok tt).
Proof.
  intros Hrows. unfold Main._write_prices_exact_rows.
  destruct rows as [|rs rows]; [reflexivity|].
  destruct (Main.build_updates (rs :: rows) price_map) as [|u us] eqn:E; [discriminate|].
  rewrite <- E. cbn [exec_calls exec_call].
  rewrite write_ranges_build by exact Hrows. reflexivity.
Qed.

(** Writing the same rows again changes nothing. *)
Lemma foldl_put_idem (rows : list Main.TickerRow) price_map ws :
  NoDup (map fst rows) ->
  foldl (put price_map) (foldl (put price_map) ws rows) rows = foldl (put price_map) ws rows.
Proof.
  intros Hnd.
  assert (forall w w' : Worksheet Price,
            cells w = cells w' -> row_count w = row_count w' -> w = w') as Hext.
  { intros [c1 n1] [c2 n2]. simpl. intros -> ->. reflexivity. }
  apply Hext; [|rewrite !foldl_put_row_count; reflexivity].
  apply map_eq. intros [c r].
  destruct (decide (c = 3)) as [->|Hc]; [|rewrite foldl_put_other by auto; reflexivity].
  destruct (decide (r ∈ map fst rows)) as [Hin|Hnin];
    [|rewrite foldl_put_other by auto; reflexivity].
  change (map fst rows) with (fst <$> rows) in Hin.
  apply list_elem_of_fmap in Hin as ([r' s] & -> & Hin). simpl.
  rewrite !(foldl_put_target rows price_map _ r' s) by assumption. reflexivity.
Qed.

End WriteFacts.

(** ** The writes of papertrader_updater.py *)

Section LegacyWriteFacts.

Context {Price : Type}.
Implicit Types (ws : Worksheet Price) (price_map : gmap string Price).

Lemma fits_one_column (vals : list (list (Value Price))) n :
  length vals <= n -> Forall (fun vs => length vs = 1) vals -> fits n 1 vals = true.
Proof.
  intros Hn Hw. unfold fits. apply andb_true_iff. split.
  - apply Nat.leb_le. exact Hn.
  - apply forallb_forall. intros vs Hin. apply Nat.leb_le.
    rewrite Forall_forall in Hw. rewrite (Hw vs); [lia|].
    apply list_elem_of_In. exact Hin.
Qed.

Lemma updates_colB_shape timestamp (symbols : list string) :
  length (Legacy.updates_colB (Price := Price) timestamp symbols) = length symbols /\
  Forall (fun vs => length vs = 1) (Legacy.updates_colB (Price := Price) timestamp symbols).
Proof.
  unfold Legacy.updates_colB. split; [apply length_map|].
  apply Forall_map, Forall_forall. reflexivity.
Qed.

Lemma updates_colC_shape (symbols : list string) price_map :
  length (Legacy.updates_colC symbols price_map) = length symbols /\
  Forall (fun vs => length vs = 1) (Legacy.updates_colC symbols price_map).
Proof.
  unfold Legacy.updates_colC. split; [apply length_map|].
  apply Forall_map, Forall_forall. reflexivity.
Qed.

(** A span of one column from row 2 to row [n + 1] takes [n] rows of one
    value. *)
Lemma write_range_column ws (letter : ascii) (col : nat) (rng : string) n
    (vals : list (list (Value Price))) :
  parse_range rng = Some (Span (col, 2) (col, n + 1)) ->
  length vals = n -> Forall (fun vs => length vs = 1) vals ->
  write_range ws rng vals = Some (write_grid ws col 2 vals).
Proof.
  intros Hp Hn Hw. unfold write_range. rewrite Hp.
  replace (S (n + 1) - 2) with n by lia. replace (S col - col) with 1 by lia.
  rewrite fits_one_column; [reflexivity|lia|exact Hw].
Qed.

(** The two calls of [_write_prices] are accepted: the timestamps go down
    column B and the values down column C, both from row 2. *)
Lemma legacy_write_exec timestamp (symbols : list string) price_map ws :
  exec_calls ws (Legacy._write_prices timestamp symbols price_map)
  = (match symbols with
     | [] => ws
     | _ :: _ => write_grid (write_grid ws 2 2 (Legacy.updates_colB timestamp symbols))
                            3 2 (Legacy.updates_colC symbols price_map)
     end, Ok tt).
Proof.
  unfold Legacy._write_prices. destruct symbols as [|s0 rest]; [reflexivity|].
  set (symbols := s0 :: rest).
  destruct (updates_colB_shape timestamp symbols) as [HB1 HB2].
  destruct (updates_colC_shape symbols price_map) as [HC1 HC2].
  cbn [exec_calls exec_call].
  assert (parse_range ("B2:B" +:+ str_nat (length symbols + 1))
          = Some (Span (2, 2) (2, length symbols + 1))) as PB.
  { rewrite parse_range_B2.
    destruct (Nat.eqb_spec (length symbols + 1) 0); [lia|reflexivity]. }
  assert (parse_range ("C2:C" +:+ str_nat (length symbols + 1))
          = Some (Span (3, 2) (3, length symbols + 1))) as PC.
  { rewrite parse_range_C2.
    destruct (Nat.eqb_spec (length symbols + 1) 0); [lia|reflexivity]. }
  rewrite (write_range_column ws "B" 2 _ (length symbols) _ PB HB1 HB2).
  rewrite (write_range_column _ "C" 3 _ (length symbols) _ PC HC1 HC2).
  reflexivity.
Qed.

(** The write of papertrader_updater.py leaves every column but B and C. *)
Lemma legacy_write_frame timestamp (symbols : list string) price_map ws c r :
  c <> 2 -> c <> 3 ->
  cells (exec_calls ws (Legacy._write_prices timestamp symbols price_map)).1 !! (c, r)
  = cells ws !! (c, r) /\
  row_count (exec_calls ws (Legacy._write_prices timestamp symbols price_map)).1
  = row_count ws.
Proof.
  intros H2 H3. rewrite legacy_write_exec. cbn [fst].
  destruct symbols as [|s0 rest]; [auto|].
  rewrite !write_grid_row_count. split; [|reflexivity].
  rewrite (write_grid_other_col _ 3 2 _ 1);
    [|eapply Forall_impl; [apply updates_colC_shape|simpl; intros; lia]|lia].
  apply (write_grid_other_col _ 2 2 _ 1);
    [eapply Forall_impl; [apply updates_colB_shape|simpl; intros; lia]|lia].
Qed.

End LegacyWriteFacts.

(** ** One cycle *)

Section CycleFacts.

Context {Price Trade : Type}.
Variable float_price : Trade -> option Price.
Variable fmt : Price -> string.
Variable CHUNK_SIZE : Z.

Local Abbreviation cycle := (Main.cycle float_price fmt CHUNK_SIZE).
Local Abbreviation legacy_cycle := (Legacy.cycle float_price fmt CHUNK_SIZE).

Lemma extracted_rows_from_1 col_a :
  Forall (fun rs : Main.TickerRow => 1 <= rs.1) (Main._get_rows_and_symbols col_a).
Proof.
  eapply Forall_impl; [apply scan_rows_bounds|]. simpl. intros rs H. lia.
Qed.

Lemma extracted_rows_NoDup col_a : NoDup (map fst (Main._get_rows_and_symbols col_a)).
Proof. apply StronglySorted_lt_NoDup, scan_rows_sorted. Qed.

(** The write of a cycle of main.py is always accepted: the cycle ends with
    every extracted row holding its value in column C. *)
Lemma cycle_closed_form (ws : Worksheet Price) (feed : Feed Trade) :
  cycle ws feed
  = let rows_syms := Main._get_rows_and_symbols (col_values fmt ws 1) in
    match map snd rows_syms with
    | [] => {| Main.outcome := Main.NoTickers; Main.requests := [];
               Main.calls := []; Main.sheet := ws |}
    | _ :: _ =>
        match Main._fetch_latest_prices float_price CHUNK_SIZE (map snd rows_syms) feed with
        | Raise e => {| Main.outcome := Main.LoopError e; Main.requests := [];
                        Main.calls := []; Main.sheet := ws |}
        | Ok (price_map, reqs) =>
            {| Main.outcome :=
                 Main.Updated (Main.count_updated rows_syms price_map) (length rows_syms);
               Main.requests := reqs;
               Main.calls := Main._write_prices_exact_rows rows_syms price_map;
               Main.sheet :=
                 foldl (fun ws (rs : Main.TickerRow) =>
                          write_cell ws 3 rs.1 (Main.cell_value (price_map !! rs.2)))
                       ws rows_syms |}
        end
    end.
Proof.
  unfold Main.cycle. cbv zeta.
  destruct (map snd _) as [|s0 syms]; [reflexivity|].
  destruct (Main._fetch_latest_prices _ _ _ _) as [[price_map reqs]|e]; [|reflexivity].
  rewrite exact_rows_exec by apply extracted_rows_from_1. reflexivity.
Qed.

Lemma cycle_frame (ws : Worksheet Price) (feed : Feed Trade) c r :
  c <> 3 ->
  cells (Main.sheet (cycle ws feed)) !! (c, r) = cells ws !! (c, r).
Proof.
  intros Hc. rewrite cycle_closed_form. cbv zeta.
  destruct (map snd _) as [|s0 syms]; [reflexivity|].
  destruct (Main._fetch_latest_prices _ _ _ _) as [[price_map reqs]|e]; [|reflexivity].
  simpl. apply foldl_put_other. auto.
Qed.

Lemma cycle_row_count (ws : Worksheet Price) (feed : Feed Trade) :
  row_count (Main.sheet (cycle ws feed)) = row_count ws.
Proof.
  rewrite cycle_closed_form. cbv zeta.
  destruct (map snd _) as [|s0 syms]; [reflexivity|].
  destruct (Main._fetch_latest_prices _ _ _ _) as [[price_map reqs]|e]; [|reflexivity].
  simpl. apply foldl_put_row_count.
Qed.

(** A cycle leaves column A as it found it. *)
Lemma cycle_column_A (ws : Worksheet Price) (feed : Feed Trade) :
  col_values fmt (Main.sheet (cycle ws feed)) 1 = col_values fmt ws 1.
Proof.
  apply col_values_ext; [apply cycle_row_count|].
  intros r. apply cycle_frame. discriminate.
Qed.

(** A second cycle on the worksheet left by the first, with the same feed,
    is the first cycle again: requests, calls, outcome and worksheet. *)
Lemma cycle_twice (ws : Worksheet Price) (feed : Feed Trade) :
  cycle (Main.sheet (cycle ws feed)) feed = cycle ws feed.
Proof.
  rewrite (cycle_closed_form (Main.sheet (cycle ws feed))). rewrite cycle_column_A.
  rewrite (cycle_closed_form ws). cbv zeta.
  destruct (map snd _) as [|s0 syms]; [reflexivity|].
  destruct (Main._fetch_latest_prices _ _ _ _) as [[price_map reqs]|e]; [|reflexivity].
  simpl. f_equal. apply foldl_put_idem, extracted_rows_NoDup.
Qed.

Lemma legacy_cycle_closed_form timestamp (ws : Worksheet Price) (feed : Feed Trade) :
  legacy_cycle timestamp ws feed
  = let symbols := Legacy._get_tickers (col_values fmt ws 1) in
    match symbols with
    | [] => {| Legacy.outcome := Legacy.NoTickers; Legacy.requests := [];
               Legacy.calls := []; Legacy.sheet := ws |}
    | _ :: _ =>
        match Legacy._fetch_latest_prices float_price CHUNK_SIZE symbols feed with
        | Raise e => {| Legacy.outcome := Legacy.LoopError e; Legacy.requests := [];
                        Legacy.calls := []; Legacy.sheet := ws |}
        | Ok (price_map, reqs) =>
            {| Legacy.outcome := Legacy.Updated (size price_map) (length symbols);
               Legacy.requests := reqs;
               Legacy.calls := Legacy._write_prices timestamp symbols price_map;
               Legacy.sheet :=
                 (exec_calls ws (Legacy._write_prices timestamp symbols price_map)).1 |}
        end
    end.
Proof.
  unfold Legacy.cycle. cbv zeta.
  destruct (Legacy._get_tickers _) as [|s0 syms] eqn:E; [reflexivity|].
  destruct (Legacy._fetch_latest_prices _ _ _ _) as [[price_map reqs]|e]; [|reflexivity].
  rewrite legacy_write_exec. reflexivity.
Qed.

Lemma legacy_cycle_frame timestamp (ws : Worksheet Price) (feed : Feed Trade) c r :
  c <> 2 -> c <> 3 ->
  cells (Legacy.sheet (legacy_cycle timestamp ws feed)) !! (c, r) = cells ws !! (c, r) /\
  row_count (Legacy.sheet (legacy_cycle timestamp ws feed)) = row_count ws.
Proof.
  intros H2 H3. rewrite legacy_cycle_closed_form. cbv zeta.
  destruct (Legacy._get_tickers _) as [|s0 syms] eqn:E; [auto|].
  destruct (Legacy._fetch_latest_prices _ _ _ _) as [[price_map reqs]|e]; [|auto].
  cbn [Legacy.sheet]. apply legacy_write_frame; assumption.
Qed.

Lemma legacy_cycle_column_A timestamp (ws : Worksheet Price) (feed : Feed Trade) :
  col_values fmt (Legacy.sheet (legacy_cycle timestamp ws feed)) 1 = col_values fmt ws 1.
Proof.
  apply col_values_ext.
  - apply (legacy_cycle_frame timestamp ws feed 1 0); discriminate.
  - intros r. apply legacy_cycle_frame; discriminate.
Qed.

(** The calls of a cycle of papertrader_updater.py at time [t2] are the
    same on the worksheet left by an earlier cycle as on the original. *)
Lemma legacy_cycle_twice t1 t2 (ws : Worksheet Price) (feed : Feed Trade) :
  Legacy.calls (legacy_cycle t2 (Legacy.sheet (legacy_cycle t1 ws feed)) feed)
  = Legacy.calls (legacy_cycle t2 ws feed) /\
  Legacy.requests (legacy_cycle t2 (Legacy.sheet (legacy_cycle t1 ws feed)) feed)
  = Legacy.requests (legacy_cycle t2 ws feed) /\
  Legacy.outcome (legacy_cycle t2 (Legacy.sheet (legacy_cycle t1 ws feed)) feed)
  = Legacy.outcome (legacy_cycle t2 ws feed).
Proof.
  rewrite (legacy_cycle_closed_form t2 (Legacy.sheet (legacy_cycle t1 ws feed))).
  rewrite legacy_cycle_column_A. rewrite (legacy_cycle_closed_form t2 ws). cbv zeta.
  destruct (Legacy._get_tickers _) as [|s0 syms] eqn:E; [auto|].
  destruct (Legacy._fetch_latest_prices _ _ _ _) as [[price_map reqs]|e]; auto.
Qed.

(** The requests, the calls and the outcome of a cycle depend on the
    worksheet through column A only. *)
Lemma cycle_reads_column_A (ws ws' : Worksheet Price) (feed : Feed Trade) :
  col_values fmt ws' 1 = col_values fmt ws 1 ->
  Main.calls (cycle ws' feed) = Main.calls (cycle ws feed) /\
  Main.requests (cycle ws' feed) = Main.requests (cycle ws feed) /\
  Main.outcome (cycle ws' feed) = Main.outcome (cycle ws feed).
Proof.
  intros H. rewrite !cycle_closed_form, H. cbv zeta.
  destruct (map snd _) as [|s0 syms]; [auto|].
  destruct (Main._fetch_latest_prices _ _ _ _) as [[price_map reqs]|e]; auto.
Qed.

Lemma legacy_cycle_reads_column_A timestamp (ws ws' : Worksheet Price) (feed : Feed Trade) :
  col_values fmt ws' 1 = col_values fmt ws 1 ->
  Legacy.calls (legacy_cycle timestamp ws' feed) = Legacy.calls (legacy_cycle timestamp ws feed).
Proof.
  intros H. rewrite !legacy_cycle_closed_form, H. cbv zeta.
  destruct (Legacy._get_tickers _) as [|s0 syms] eqn:E; [auto|].
  destruct (Legacy._fetch_latest_prices _ _ _ _) as [[price_map reqs]|e]; auto.
Qed.

(** The values written in column C do not depend on the clock. *)
Lemma legacy_prices_clock_free t1 t2 (ws : Worksheet Price) (feed : Feed Trade) :
  drop 1 (Legacy.calls (legacy_cycle t1 ws feed))
  = drop 1 (Legacy.calls (legacy_cycle t2 ws feed)).
Proof.
  rewrite !legacy_cycle_closed_form. cbv zeta.
  destruct (Legacy._get_tickers _) as [|s0 syms] eqn:E; [auto|].
  destruct (Legacy._fetch_latest_prices _ _ _ _) as [[price_map reqs]|e]; auto.
Qed.

End CycleFacts.

(** * The claims *)

(** ** Extraction *)

Lemma scan_rows_length row_idx cells :
  length (Main.scan_rows row_idx cells) <= length cells.
Proof.
  revert row_idx. induction cells as [|raw rest IH]; intros row_idx; simpl; [lia|].
  specialize (IH (S row_idx)). destruct (truthy _); simpl; lia.
Qed.

(** C10. For every input column, the row indices of the TickerRows returned
    by the extraction are strictly increasing: no row index appears twice,
    every index is at least 2 (and at most the length of the column), and
    there are no more TickerRows than cells below the header, each source
    row contributing at most one. *)
Theorem extraction_rows_strictly_increasing (col_a : list string) :
  StronglySorted lt (map fst (Main._get_rows_and_symbols col_a)) /\
  NoDup (map fst (Main._get_rows_and_symbols col_a)) /\
  Forall (fun r => 2 <= r <= length col_a) (map fst (Main._get_rows_and_symbols col_a)) /\
  length (Main._get_rows_and_symbols col_a) <= length col_a - 1.
Proof.
  unfold Main._get_rows_and_symbols.
  split; [apply scan_rows_sorted|].
  split; [apply StronglySorted_lt_NoDup, scan_rows_sorted|].
  split.
  - apply Forall_map. eapply Forall_impl; [apply scan_rows_bounds|].
    simpl. intros rs H. destruct col_a; simpl in *; lia.
  - pose proof (scan_rows_length 2 (tail col_a)) as H.
    destruct col_a; simpl in *; lia.
Qed.

(** The scenario of the specification: the column
    SYMBOL, AAPL, (blank), aapl, $SPY gives the rows 2, 4 and 5. *)
Lemma extraction_scenario :
  Main._get_rows_and_symbols ["SYMBOL"; "AAPL"; ""; "aapl"; "$SPY"]
  = [(2, "AAPL"); (4, "AAPL"); (5, "SPY")].
Proof. reflexivity. Qed.

Lemma startswith_dollar_inv s :
  startswith_dollar s = true -> s = String "$" (drop1 s).
Proof.
  destruct s as [|c s]; simpl; [discriminate|].
  intros H. apply Ascii.eqb_eq in H. subst c. reflexivity.
Qed.

(** The extraction of main.py is the specified one on every column that
    has no cell reduced to a dollar sign. *)
Lemma extraction_as_specified (col_a : list string) :
  Forall (fun raw => upper (strip raw) <> "$") (tail col_a) ->
  Main._get_rows_and_symbols col_a = Spec.extract col_a.
Proof.
  unfold Main._get_rows_and_symbols, Spec.extract. intros H. generalize 2.
  induction H as [|raw rest Hraw _ IH]; intros row; simpl; [reflexivity|].
  rewrite IH. destruct (upper (strip raw)) as [|c sym] eqn:E; [reflexivity|].
  simpl. destruct (Ascii.eqb_spec c "$") as [->|_]; [|reflexivity].
  destruct sym; [congruence|reflexivity].
Qed.

(** Every symbol extracted by main.py is free of lower-case letters, and
    is empty only for a cell reduced to a dollar sign. *)
Lemma extracted_symbols (col_a : list string) r sym :
  (r, sym) ∈ Main._get_rows_and_symbols col_a ->
  no_lower sym = true /\
  (sym = "" -> exists raw, col_a !! (r - 1) = Some raw /\ upper (strip raw) = "$").
Proof.
  intros Hin. split.
  - pose proof (scan_rows_upper 2 (tail col_a)) as H.
    rewrite Forall_forall in H. exact (H _ Hin).
  - intros ->. apply scan_rows_origin in Hin as (raw & Hl & Hle & Ht & Hs).
    exists raw. split.
    + destruct col_a as [|h rest]; [discriminate|]. simpl in Hl.
      replace (r - 1) with (S (r - 2)) by lia. exact Hl.
    + destruct (startswith_dollar (upper (strip raw))) eqn:Hd.
      * apply startswith_dollar_inv in Hd. rewrite Hd, <- Hs. reflexivity.
      * rewrite <- Hs in Ht. discriminate.
Qed.

(** C4. The extraction discards the header, numbers the cells from row 2,
    trims, upper-cases and strips one leading dollar sign, and is said to
    discard a row whose result is empty. main.py tests emptiness before it
    strips the dollar sign: the column SYMBOL, $ gives the TickerRow
    (2, "") where the specified extraction gives none; and
    papertrader_updater.py keeps neither the row numbers nor strips the
    dollar sign. *)
Theorem bare_dollar_cell_gives_empty_symbol :
  Main._get_rows_and_symbols ["SYMBOL"; "$"] = [(2, "")] /\
  Spec.extract ["SYMBOL"; "$"] = [] /\
  Legacy._get_tickers ["SYMBOL"; "AAPL"; ""; "aapl"; "$SPY"] = ["AAPL"; "AAPL"; "$SPY"].
Proof. repeat split; reflexivity. Qed.

(** ** The write *)

Section WriteClaims.

Context {Price Trade : Type}.
Variable float_price : Trade -> option Price.
Variable fmt : Price -> string.
Variable CHUNK_SIZE : Z.

(** Row fidelity of main.py: the update built for the [i]-th extracted
    TickerRow is the [i]-th update, and its range is the cell of column C
    in the row of that TickerRow; once applied, that cell holds the value. *)
Lemma exact_rows_fidelity (col_a : list string) (price_map : gmap string Price)
    (ws : Worksheet Price) i r s :
  Main._get_rows_and_symbols col_a !! i = Some (r, s) ->
  (exists u, Main.build_updates (Main._get_rows_and_symbols col_a) price_map !! i = Some u /\
             parse_range (range u) = Some (Single (3, r)) /\
             values u = [[Main.cell_value (price_map !! s)]]) /\
  cells (exec_calls ws (Main._write_prices_exact_rows
                          (Main._get_rows_and_symbols col_a) price_map)).1 !! (3, r)
  = Some (Main.cell_value (price_map !! s)).
Proof.
  intros Hi. split.
  - eexists. split; [apply build_updates_lookup, Hi|]. simpl. split; [|reflexivity].
    rewrite parse_range_C.
    pose proof (extracted_rows_from_1 col_a) as H1. rewrite Forall_forall in H1.
    specialize (H1 _ (list_elem_of_lookup_2 _ _ _ Hi)). simpl in H1.
    destruct (Nat.eqb_spec r 0); [lia|reflexivity].
  - rewrite exact_rows_exec by apply extracted_rows_from_1. simpl.
    apply foldl_put_target; [apply extracted_rows_NoDup|].
    eapply list_elem_of_lookup_2, Hi.
Qed.

(** C7. For every sequence of TickerRows and every PriceMap, the write of
    main.py changes cells of column C only, and the write of
    papertrader_updater.py cells of columns B (the timestamps) and C only:
    every other cell of the worksheet keeps its content; on an empty
    sequence no call is issued at all. *)
Theorem write_touches_price_column_only (rows : list Main.TickerRow)
    (symbols : list string) (timestamp : string)
    (price_map : gmap string Price) (ws : Worksheet Price) :
  (forall c r, c <> 3 ->
     cells (exec_calls ws (Main._write_prices_exact_rows rows price_map)).1 !! (c, r)
     = cells ws !! (c, r)) /\
  Main._write_prices_exact_rows [] price_map = [] /\
  (forall c r, c <> 2 -> c <> 3 ->
     cells (exec_calls ws (Legacy._write_prices timestamp symbols price_map)).1 !! (c, r)
     = cells ws !! (c, r)) /\
  Legacy._write_prices timestamp [] price_map = [].
Proof.
  split; [|split; [reflexivity|split; [|reflexivity]]].
  - intros c r Hc. apply exact_rows_frame. exact Hc.
  - intros c r H2 H3. apply legacy_write_frame; assumption.
Qed.

End WriteClaims.

(** ** Batching and fetching *)

Lemma NoDup_concat_disjoint (batches : list (list string)) :
  NoDup (concat batches) -> pairwise_disjoint batches.
Proof.
  induction batches as [|b0 rest IH]; intros Hnd i j b1 b2 s H1 H2 Hs1 Hs2.
  - discriminate.
  - simpl in Hnd. apply NoDup_app in Hnd as (_ & Hdis & Hrest).
    assert (forall k b, rest !! k = Some b -> s ∈ b -> s ∈ concat rest) as Hin.
    { intros k b Hk Hs. apply list_elem_of_In, in_concat. exists b.
      rewrite <- !list_elem_of_In. split; [|exact Hs].
      eapply list_elem_of_lookup_2, Hk. }
    destruct i as [|i], j as [|j]; simpl in H1, H2.
    + reflexivity.
    + injection H1 as <-. exfalso. apply (Hdis s Hs1). eapply Hin; eauto.
    + injection H2 as <-. exfalso. apply (Hdis s Hs2). eapply Hin; eauto.
    + f_equal. eapply IH; eauto.
Qed.

Section FetchClaims.

Context {Price Trade : Type}.
Variable float_price : Trade -> option Price.
Variable fmt : Price -> string.

(** Batch completeness of main.py: for a positive chunk size, the requests
    issued are the slices of the SymbolSet; put end to end they give the
    SymbolSet, no symbol is in two of them, and none is empty or longer
    than the chunk size. *)
Lemma batches_partition_symbol_set (CHUNK_SIZE : Z) (rows : list Main.TickerRow)
    (feed : Feed Trade) :
  (0 < CHUNK_SIZE)%Z ->
  exists price_map batches,
    Main._fetch_latest_prices float_price CHUNK_SIZE (map snd rows) feed
    = Ok (price_map, batches) /\
    concat batches = Spec.SymbolSet rows /\
    NoDup (concat batches) /\
    pairwise_disjoint batches /\
    Forall (fun b => 1 <= length b <= Z.to_nat CHUNK_SIZE) batches.
Proof.
  intros Hsize. unfold Main._fetch_latest_prices, Spec.SymbolSet.
  destruct (map snd rows) as [|s0 syms] eqn:E.
  - exists ∅, []. repeat split; try constructor. intros i j b1 b2 s H. discriminate.
  - destruct (chunks_positive (fromkeys (s0 :: syms)) CHUNK_SIZE Hsize)
      as (batches & Hc & Hcat & Hlen).
    rewrite Hc.
    pose proof (fetch_batches_issued float_price feed 0 batches ∅ []) as Hiss.
    destruct (Main.fetch_batches float_price feed 0 batches (∅, [])) as [pm issued].
    simpl in Hiss. subst issued.
    assert (NoDup (concat batches)) as Hnd.
    { rewrite Hcat, fromkeys_dedup_first. apply dedup_first_NoDup. }
    exists pm, batches. split; [reflexivity|].
    split; [rewrite Hcat; apply fromkeys_dedup_first|].
    split; [exact Hnd|]. split; [apply NoDup_concat_disjoint, Hnd|exact Hlen].
Qed.

Lemma count_updated_empty (rows : list Main.TickerRow) :
  Main.count_updated rows (∅ : gmap string Price) = 0.
Proof.
  unfold Main.count_updated. induction rows as [|rs rows IH]; [reflexivity|].
  rewrite filter_cons_False; [exact IH|].
  rewrite lookup_empty. intros [? [=]].
Qed.


End FetchClaims.

(** ** The claims on concrete worksheets and feeds *)

Lemma feed_of_answers_requested quotes : answers_requested (Demo.feed_of quotes).
Proof.
  intros k b r s [= <-] [t Ht].
  apply map_lookup_filter_Some in Ht as [_ H]. exact H.
Qed.

Lemma failing_at_answers_requested n (feed : Feed Demo.Trade) :
  answers_requested feed -> answers_requested (Demo.failing_at n feed).
Proof.
  intros H k b r s. unfold Demo.failing_at.
  destruct (k =? n)%nat; [discriminate|]. apply H.
Qed.

(** C1. Row fidelity: the value of a ticker read in row R is written in
    row R of column C, also when blank rows leave gaps. main.py does so
    ([exact_rows_fidelity]); papertrader_updater.py drops the blank cells
    and writes the values down column C from row 2: on the column
    Ticker, AAPL, (blank), SPY the price of SPY, read in row 4, lands in
    row 3, next to the blank cell, and row 4 gets nothing. *)
Theorem legacy_prices_land_in_compacted_rows :
  let ws := Demo.sheet_of_column ["Ticker"; "AAPL"; ""; "SPY"] in
  let cy := Legacy.cycle Demo.float_price Demo.fmt 150 "2024-01-02 15:04:05" ws
              (Demo.feed_of Demo.quotes) in
  col_values Demo.fmt ws 1 = ["Ticker"; "AAPL"; ""; "SPY"] /\
  Legacy.calls cy
  = [update "B2:B3" [[VStr "2024-01-02 15:04:05"]; [VStr "2024-01-02 15:04:05"]];
     update "C2:C3" [[VNum (17234 # 100)%Q]; [VNum (450 # 1)%Q]]] /\
  cells (Legacy.sheet cy) !! (3, 3) = Some (VNum (450 # 1)%Q) /\
  cells (Legacy.sheet cy) !! (3, 4) = None /\
  Main.calls (Main.cycle Demo.float_price Demo.fmt 150 ws (Demo.feed_of Demo.quotes))
  = [batch_update [ {| range := "C2"; values := [[VNum (17234 # 100)%Q]] |};
                    {| range := "C4"; values := [[VNum (450 # 1)%Q]] |} ]].
Proof. vm_compute. repeat split; reflexivity. Qed.

(** C2. Batch completeness: the requests partition the deduplicated
    SymbolSet, no symbol being in two batches. main.py does so for every
    positive chunk size ([batches_partition_symbol_set]);
    papertrader_updater.py batches the tickers as read: on the column
    Ticker, AAPL, AAPL with a chunk size of 1 it requests AAPL twice, in
    two batches. *)
Theorem legacy_duplicate_ticker_in_two_batches :
  let ws := Demo.sheet_of_column ["Ticker"; "AAPL"; "AAPL"] in
  Legacy.requests (Legacy.cycle Demo.float_price Demo.fmt 1 "2024-01-02 15:04:05" ws
                     (Demo.feed_of Demo.quotes))
  = [["AAPL"]; ["AAPL"]] /\
  Spec.SymbolSet [(2, "AAPL"); (3, "AAPL")] = ["AAPL"] /\
  Main.requests (Main.cycle Demo.float_price Demo.fmt 1 ws (Demo.feed_of Demo.quotes))
  = [["AAPL"]].
Proof. vm_compute. repeat split; reflexivity. Qed.


(** C9 fails as stated: the feed answers the request for AAPL with quotes
    of AAPL, SPY and MSFT, and MSFT, which is not in the column, is a key
    of the price map. *)
Lemma unrequested_symbol_recorded :
  ~ Stated.keys_in_symbol_set Demo.float_price 150
      (Main._get_rows_and_symbols ["SYMBOL"; "AAPL"]) (Demo.feed_all Demo.quotes).
Proof.
  intros H.
  specialize (H (Main.record_prices Demo.float_price (Some Demo.quotes) ∅)
                [["AAPL"]] "MSFT" eq_refl).
  assert (is_Some (Main.record_prices Demo.float_price (Some Demo.quotes) ∅ !! "MSFT")) as Hs.
  { rewrite record_prices_lookup. vm_compute. eauto. }
  specialize (H Hs). vm_compute in H.
  apply elem_of_cons in H as [H|H]; [discriminate H|inversion H].
Qed.


(** ** Instances of the theorems that have hypotheses *)


Lemma write_touches_price_column_only_witness :
  let ws := Demo.sheet_of_column ["SYMBOL"; "AAPL"; ""; "SPY"] in
  let rows := [(2, "AAPL"); (4, "SPY")] in
  let price_map : gmap string Q := {[ "AAPL" := (17234 # 100)%Q ]} in
  1 <> 3 /\ 1 <> 2 /\
  cells (exec_calls ws (Main._write_prices_exact_rows rows price_map)).1 !! (1, 4)
  = cells ws !! (1, 4) /\
  cells (exec_calls ws (Legacy._write_prices "2024-01-02 15:04:05" ["AAPL"; "SPY"]
                          price_map)).1 !! (1, 4)
  = cells ws !! (1, 4).
Proof.
  intros ws rows price_map.
  assert (1 <> 3) as H3 by lia. assert (1 <> 2) as H2 by lia.
  destruct (write_touches_price_column_only rows ["AAPL"; "SPY"] "2024-01-02 15:04:05"
              price_map ws) as (Hmain & _ & Hlegacy & _).
  split; [exact H3|]. split; [exact H2|].
  split; [apply Hmain, H3|apply Hlegacy; [exact H2|exact H3]].
Defined.

Lemma exact_rows_fidelity_witness :
  let col_a := ["SYMBOL"; "AAPL"; ""; "aapl"; "$SPY"] in
  let price_map : gmap string Q := {[ "AAPL" := (17234 # 100)%Q ]} in
  let ws := Demo.sheet_of_column col_a in
  Main._get_rows_and_symbols col_a !! 1 = Some (4, "AAPL") /\
  cells (exec_calls ws (Main._write_prices_exact_rows
                          (Main._get_rows_and_symbols col_a) price_map)).1 !! (3, 4)
  = Some (VNum (17234 # 100)%Q).
Proof.
  intros col_a price_map ws. split; [reflexivity|].
  exact (proj2 (exact_rows_fidelity col_a price_map ws 1 4 "AAPL" eq_refl)).
Defined.

Lemma batches_partition_symbol_set_witness :
  (0 < 2)%Z /\
  exists price_map batches,
    Main._fetch_latest_prices Demo.float_price 2
      (map snd [(2, "AAPL"); (4, "AAPL"); (5, "SPY"); (6, "MSFT")])
      (Demo.feed_of Demo.quotes) = Ok (price_map, batches) /\
    concat batches = ["AAPL"; "SPY"; "MSFT"].
Proof.
  assert (0 < 2)%Z as H by lia. split; [exact H|].
  destruct (batches_partition_symbol_set Demo.float_price 2
              [(2, "AAPL"); (4, "AAPL"); (5, "SPY"); (6, "MSFT")]
              (Demo.feed_of Demo.quotes) H) as (pm & batches & Hf & Hcat & _).
  exists pm, batches. split; [exact Hf|]. rewrite Hcat. reflexivity.
Defined.

(** * Further properties of the scripts *)

Import Observed Spreadsheets Text Recorded.

(** ** Extraction *)

Lemma truthy_upper s : truthy (upper s) = truthy s.
Proof. destruct s; reflexivity. Qed.

Lemma truthy_false_iff s : truthy s = false <-> s = "".
Proof. destruct s; simpl; split; congruence. Qed.

Lemma scan_rows_complete row_idx cells i raw :
  cells !! i = Some raw -> strip raw <> "" ->
  (row_idx + i, strip_dollar (upper (strip raw))) ∈ Main.scan_rows row_idx cells.
Proof.
  revert row_idx i. induction cells as [|raw0 rest IH]; intros row_idx i Hi Hraw.
  - discriminate.
  - simpl. destruct i as [|i]; simpl in Hi.
    + injection Hi as ->. rewrite truthy_upper.
      destruct (truthy (strip raw)) eqn:E; [|apply truthy_false_iff in E; congruence].
      rewrite Nat.add_0_r. apply elem_of_cons. left. reflexivity.
    + replace (row_idx + S i) with (S row_idx + i) by lia.
      specialize (IH (S row_idx) i Hi Hraw).
      destruct (truthy (upper (strip raw0))); [apply elem_of_cons; right|]; exact IH.
Qed.

(** A row number is returned by the extraction of main.py exactly when
    it is at least 2 and the cell of column A in that row is not blank
    once trimmed: no ticker is dropped and no blank cell gives a row. *)
Lemma row_extracted_iff_nonblank (col_a : list string) (r : nat) :
  r ∈ map fst (Main._get_rows_and_symbols col_a)
  <-> 2 <= r /\ exists raw, col_a !! (r - 1) = Some raw /\ strip raw <> "".
Proof.
  unfold Main._get_rows_and_symbols. split.
  - intros Hin. change (map fst ?l) with (fst <$> l) in Hin.
    apply list_elem_of_fmap in Hin as ([r' sym] & -> & Hin). simpl.
    apply scan_rows_origin in Hin as (raw & Hl & Hle & Ht & _).
    split; [exact Hle|]. exists raw. split.
    + destruct col_a as [|h rest]; [discriminate|]. simpl in Hl.
      replace (r' - 1) with (S (r' - 2)) by lia. exact Hl.
    + rewrite truthy_upper in Ht. intros E. rewrite E in Ht. discriminate.
  - intros (Hr & raw & Hl & Hraw).
    destruct col_a as [|h rest]; [discriminate|].
    replace (r - 1) with (S (r - 2)) in Hl by lia. simpl in Hl.
    pose proof (scan_rows_complete 2 rest (r - 2) raw Hl Hraw) as Hin.
    replace (2 + (r - 2)) with r in Hin by lia.
    change (map fst ?l) with (fst <$> l). apply list_elem_of_fmap.
    eexists. split; [|exact Hin]. reflexivity.
Qed.

Lemma scan_rows_symbols row_idx cells :
  map snd (Main.scan_rows row_idx cells)
  = map strip_dollar (map (fun t => upper (strip t))
                          (List.filter (fun t => truthy (strip t)) cells)).
Proof.
  revert row_idx. induction cells as [|raw rest IH]; intros row_idx; simpl; [reflexivity|].
  rewrite truthy_upper. destruct (truthy (strip raw)); simpl; rewrite IH; reflexivity.
Qed.

(** The two scripts read the same tickers from a column: cell by
    cell, the symbols of main.py are the tickers of papertrader_updater.py
    without their leading dollar sign, in the same order. *)
Lemma symbols_are_tickers_without_dollar (col_a : list string) :
  map snd (Main._get_rows_and_symbols col_a)
  = map strip_dollar (Legacy._get_tickers col_a) /\
  length (Main._get_rows_and_symbols col_a) = length (Legacy._get_tickers col_a).
Proof.
  assert (map snd (Main._get_rows_and_symbols col_a)
          = map strip_dollar (Legacy._get_tickers col_a)) as H
    by apply scan_rows_symbols.
  split; [exact H|].
  apply (f_equal (@length string)) in H. rewrite !length_map in H. exact H.
Qed.



(** ** Batching *)

(** For a positive size, [_chunks] cuts the sequence into
    ceil(len / size) slices: every slice but the last holds exactly [size]
    elements, the last between 1 and [size], and put end to end they give
    the sequence back. *)
Lemma chunks_slices {A : Type} (l : list A) (size : Z) :
  (0 < size)%Z ->
  exists batches,
    Main._chunks l size = Ok batches /\
    concat batches = l /\
    length batches = (length l + Z.to_nat size - 1) / Z.to_nat size /\
    forall i b, batches !! i = Some b ->
      1 <= length b <= Z.to_nat size /\
      (S i < length batches -> length b = Z.to_nat size).
Proof.
  intros Hsize. unfold Main._chunks, range0.
  destruct (Z.eqb_spec size 0) as [->|_]; [lia|].
  destruct (Z.ltb_spec size 0) as [?|_]; [lia|].
  set (s := Z.to_nat size). assert (0 < s) as Hs by lia.
  destruct (ceil_div_bounds (length l) s Hs) as [Hle Hlt].
  eexists. split; [reflexivity|]. rewrite map_map.
  split; [rewrite concat_slices; apply take_ge, Hle|].
  split; [rewrite length_map, length_seq; reflexivity|].
  intros i b Hb. rewrite length_map, length_seq.
  change (map ?f ?l0) with (f <$> l0) in Hb.
  apply list_lookup_fmap_Some in Hb as (k & -> & Hk).
  apply lookup_seq in Hk as [-> Hk]. simpl.
  rewrite length_take, length_drop. split.
  - specialize (Hlt i Hk). lia.
  - intros Hnext. specialize (Hlt (S i) Hnext). lia.
Qed.

Section FetchExtras.

Context {Price Trade : Type}.
Variable float_price : Trade -> option Price.
Variable fmt : Price -> string.

(** X5. papertrader_updater.py, for a positive chunk size, requests the
    tickers as they were read: the requests put end to end are the ticker
    list, in order and with its repetitions, and none is empty or longer
    than the chunk size. *)
Theorem legacy_requests_are_the_tickers (CHUNK_SIZE : Z) (symbols : list string)
    (feed : Feed Trade) :
  (0 < CHUNK_SIZE)%Z ->
  exists price_map reqs,
    Legacy._fetch_latest_prices float_price CHUNK_SIZE symbols feed = Ok (price_map, reqs) /\
    concat reqs = symbols /\
    Forall (fun b => 1 <= length b <= Z.to_nat CHUNK_SIZE) reqs.
Proof.
  intros Hsize. unfold Legacy._fetch_latest_prices.
  destruct symbols as [|s0 syms].
  - exists ∅, []. repeat split. constructor.
  - rewrite legacy_chunks_eq.
    destruct (chunks_positive (s0 :: syms) CHUNK_SIZE Hsize) as (batches & Hc & Hcat & Hlen).
    rewrite Hc.
    pose proof (fetch_batches_issued float_price feed 0 batches ∅ []) as Hiss.
    destruct (Main.fetch_batches float_price feed 0 batches (∅, [])) as [pm issued].
    simpl in Hiss. subst issued. exists pm, batches. auto.
Qed.

Lemma fetch_lookup_unpriced (feed : Feed Trade) k l s prices issued :
  unpriced float_price feed k l s ->
  (Main.fetch_batches float_price feed k l (prices, issued)).1 !! s = prices !! s.
Proof.
  revert k prices issued. induction l as [|b l IH]; intros k prices issued Hun; simpl.
  - reflexivity.
  - assert (unpriced float_price feed (S k) l s) as Hun'.
    { intros j b' r t Hl Hf. apply (Hun (S j) b' r t); [exact Hl|].
      replace (k + S j) with (S k + j) by lia. exact Hf. }
    destruct (feed k b) as [|result] eqn:Hf; rewrite IH by exact Hun'; [reflexivity|].
    rewrite record_prices_lookup. destruct result as [r|]; simpl.
    + destruct (r !! s) as [t|] eqn:Hr; simpl; [|reflexivity].
      rewrite (Hun 0 b r t eq_refl) by (rewrite ?Nat.add_0_r; assumption). reflexivity.
    + rewrite lookup_empty. reflexivity.
Qed.

(** X6. A price that does not parse changes nothing: when every response
    that names a symbol names it with a price that [float] rejects, the
    symbol has after the fetch loop the entry it had before it (none, when
    the loop starts from the empty map), and a request is still issued for
    every batch. *)
Theorem unparsable_price_is_skipped (feed : Feed Trade) (k : nat)
    (batches : list (list string)) (s : string)
    (prices : gmap string Price) (issued : list (list string)) :
  unpriced float_price feed k batches s ->
  (Main.fetch_batches float_price feed k batches (prices, issued)).1 !! s = prices !! s /\
  (Main.fetch_batches float_price feed k batches (prices, issued)).2 = issued ++ batches.
Proof.
  intros Hun. split; [apply fetch_lookup_unpriced, Hun|apply fetch_batches_issued].
Qed.

(** X7. The last price wins: when the response to a batch names a symbol
    with a price that parses and no response to a later batch does, the
    symbol has that price after the fetch loop, whatever the earlier
    responses recorded for it. *)
Theorem last_priced_response_wins (feed : Feed Trade) (pre : list (list string))
    (b : list string) (post : list (list string)) r s t p
    (prices : gmap string Price) (issued : list (list string)) :
  feed (length pre) b = Returns (Some r) ->
  r !! s = Some t ->
  float_price t = Some p ->
  unpriced float_price feed (S (length pre)) post s ->
  (Main.fetch_batches float_price feed 0 (pre ++ b :: post) (prices, issued)).1 !! s = Some p.
Proof.
  intros Hf Hr Hp Hpost. rewrite fetch_batches_app.
  destruct (Main.fetch_batches float_price feed 0 pre (prices, issued)) as [p1 i1].
  simpl. rewrite Hf, fetch_lookup_unpriced by exact Hpost.
  rewrite record_prices_lookup. simpl. rewrite Hr. simpl. rewrite Hp. reflexivity.
Qed.

(** X8. The fetch loop never drops an entry: a symbol that has a price
    at some point of the loop still has one at the end, also when the
    later requests raise, return nothing or return prices that do not
    parse. *)
Theorem fetched_prices_are_kept (feed : Feed Trade) (k : nat)
    (batches : list (list string)) (s : string)
    (prices : gmap string Price) (issued : list (list string)) :
  is_Some (prices !! s) ->
  is_Some ((Main.fetch_batches float_price feed k batches (prices, issued)).1 !! s).
Proof.
  revert k prices issued. induction batches as [|b rest IH]; intros k prices issued Hs; simpl.
  - exact Hs.
  - destruct (feed k b) as [|result]; apply IH; [exact Hs|].
    rewrite record_prices_lookup.
    destruct (default ∅ result !! s ≫= float_price); [eauto|exact Hs].
Qed.

Lemma fetch_all_raise (feed : Feed Trade) k l prices issued :
  (forall j b, feed j b = Raises) ->
  Main.fetch_batches float_price feed k l (prices, issued) = (prices, issued ++ l).
Proof.
  intros Hall. revert k issued. induction l as [|b l IH]; intros k issued; simpl.
  - rewrite app_nil_r. reflexivity.
  - rewrite Hall, IH, <- app_assoc. reflexivity.
Qed.

(** X9. A total outage of the feed does not abort the cycle of main.py:
    with a positive chunk size and at least one ticker, when every request
    raises, every batch is still requested, the cycle ends with "Updated 0
    of n" and its one write call puts a blank in column C of every
    extracted row. *)
Theorem feed_outage_blanks_every_row (CHUNK_SIZE : Z) (ws : Worksheet Price)
    (feed : Feed Trade) :
  (0 < CHUNK_SIZE)%Z ->
  (forall k b, feed k b = Raises) ->
  Main._get_rows_and_symbols (col_values fmt ws 1) <> [] ->
  Main.outcome (Main.cycle float_price fmt CHUNK_SIZE ws feed)
  = Main.Updated 0 (length (Main._get_rows_and_symbols (col_values fmt ws 1))) /\
  concat (Main.requests (Main.cycle float_price fmt CHUNK_SIZE ws feed))
  = Spec.SymbolSet (Main._get_rows_and_symbols (col_values fmt ws 1)) /\
  Main.calls (Main.cycle float_price fmt CHUNK_SIZE ws feed)
  = [batch_update (Main.build_updates (Main._get_rows_and_symbols (col_values fmt ws 1)) ∅)] /\
  Forall (fun u => values u = [[VStr ""]])
         (Main.build_updates (Main._get_rows_and_symbols (col_values fmt ws 1))
                             (∅ : gmap string Price)).
Proof.
  intros Hsize Hall Hrows. rewrite cycle_closed_form. cbv zeta.
  destruct (batches_partition_symbol_set float_price CHUNK_SIZE
              (Main._get_rows_and_symbols (col_values fmt ws 1)) feed Hsize)
    as (pm & batches & Hf & Hcat & _).
  assert (pm = ∅) as ->.
  { revert Hf. unfold Main._fetch_latest_prices.
    destruct (map snd _) as [|s0 syms]; [congruence|].
    destruct (Main._chunks _ _) as [bs|e]; [|discriminate].
    rewrite fetch_all_raise by exact Hall. congruence. }
  rewrite Hf.
  destruct (Main._get_rows_and_symbols (col_values fmt ws 1)) as [|rs rows] eqn:E;
    [congruence|].
  simpl map. cbv iota. simpl Main.outcome. rewrite count_updated_empty.
  split; [reflexivity|]. split; [exact Hcat|]. split; [reflexivity|].
  apply Forall_forall. intros u Hu. unfold Main.build_updates in Hu.
  change (map ?f ?l) with (f <$> l) in Hu.
  apply list_elem_of_fmap in Hu as ([r s] & -> & _). simpl.
  rewrite lookup_empty. reflexivity.
Qed.

End FetchExtras.

(** ** The writes and the cycle *)

Section WriteExtras.

Context {Price Trade : Type}.
Variable float_price : Trade -> option Price.
Variable fmt : Price -> string.
Variable CHUNK_SIZE : Z.

(** A column of single values written from (col, row): the cells of the
    column from [row] on hold the values, every other cell is kept. *)
Lemma write_grid_column (ws : Worksheet Price) col row (vs : list (Value Price)) c r :
  cells (write_grid ws col row (map (fun v => [v]) vs)) !! (c, r)
  = if decide (c = col /\ row <= r < row + length vs) then vs !! (r - row)
    else cells ws !! (c, r).
Proof.
  revert ws row. induction vs as [|v vs IH]; intros ws row; simpl.
  - destruct (decide _) as [[_ H]|_]; [lia|reflexivity].
  - rewrite IH. simpl.
    destruct (decide (c = col /\ S row <= r < S (row + length vs))) as [[E0 H]|H];
      destruct (decide (c = col /\ row <= r < row + S (length vs))) as [[E H']|H'].
    + replace (r - row) with (S (r - S row)) by lia. reflexivity.
    + exfalso. apply H'. split; [exact E0|lia].
    + subst c. assert (r = row) as -> by lia. rewrite Nat.sub_diag. simpl.
      apply lookup_insert_eq.
    + apply lookup_insert_ne. intros [= <- <-]. apply H'. split; [reflexivity|lia].
Qed.

(** What [_write_prices] of papertrader_updater.py leaves on the
    worksheet: the value of its [i]-th symbol (from 0) is in column C of
    row [i + 2] and the timestamp in column B of that row, whatever the
    row the ticker was read from; row 1 and the rows after the last symbol
    are as they were. *)
Lemma legacy_write_cells (timestamp : string) (symbols : list string)
    (price_map : gmap string Price) (ws : Worksheet Price) (i : nat) (sym : string) :
  symbols !! i = Some sym ->
  cells (exec_calls ws (Legacy._write_prices timestamp symbols price_map)).1 !! (3, i + 2)
  = Some (Main.cell_value (price_map !! sym)) /\
  cells (exec_calls ws (Legacy._write_prices timestamp symbols price_map)).1 !! (2, i + 2)
  = Some (VStr timestamp) /\
  (forall c r, r < 2 \/ length symbols + 2 <= r ->
     cells (exec_calls ws (Legacy._write_prices timestamp symbols price_map)).1 !! (c, r)
     = cells ws !! (c, r)).
Proof.
  intros Hi. rewrite legacy_write_exec. cbn [fst].
  destruct symbols as [|s0 rest] eqn:E; [discriminate|]. rewrite <- E in *. clear E s0 rest.
  pose proof (lookup_lt_Some _ _ _ Hi) as Hlt.
  assert (Legacy.updates_colB (Price := Price) timestamp symbols
          = map (fun v => [v]) (map (fun _ => VStr timestamp) symbols)) as ->
    by (unfold Legacy.updates_colB; rewrite map_map; reflexivity).
  assert (Legacy.updates_colC symbols price_map
          = map (fun v => [v]) (map (fun sym => Main.cell_value (price_map !! sym)) symbols))
    as -> by (unfold Legacy.updates_colC; rewrite map_map; reflexivity).
  split; [|split].
  - rewrite write_grid_column, length_map.
    rewrite decide_True by (split; [reflexivity|lia]).
    replace (i + 2 - 2) with i by lia.
    change (map ?f ?l) with (f <$> l). rewrite list_lookup_fmap, Hi. reflexivity.
  - rewrite write_grid_column, length_map.
    rewrite decide_False by (intros [[=] _]).
    rewrite write_grid_column, length_map.
    rewrite decide_True by (split; [reflexivity|lia]).
    replace (i + 2 - 2) with i by lia.
    change (map ?f ?l) with (f <$> l). rewrite list_lookup_fmap, Hi. reflexivity.
  - intros c r Hr. rewrite !write_grid_column, !length_map.
    rewrite !decide_False by (intros [_ ?]; lia). reflexivity.
Qed.

(** X10. What [_write_prices] of papertrader_updater.py leaves on the
    worksheet: the value of its [i]-th symbol (from 0) is in column C of
    row [i + 2] and the timestamp in column B of that row, whatever the
    row the ticker was read from; row 1 and the rows after the last symbol
    are as they were. *)
Theorem legacy_write_postcondition (timestamp : string) (symbols : list string)
    (price_map : gmap string Price) (ws : Worksheet Price) (i : nat) (sym : string) :
  symbols !! i = Some sym ->
  cells (exec_calls ws (Legacy._write_prices timestamp symbols price_map)).1 !! (3, i + 2)
  = Some (Main.cell_value (price_map !! sym)) /\
  cells (exec_calls ws (Legacy._write_prices timestamp symbols price_map)).1 !! (2, i + 2)
  = Some (VStr timestamp) /\
  (forall c r, r < 2 \/ length symbols + 2 <= r ->
     cells (exec_calls ws (Legacy._write_prices timestamp symbols price_map)).1 !! (c, r)
     = cells ws !! (c, r)).
Proof. apply legacy_write_cells. Qed.

Lemma drop_trailing_blanks_lookup (l : list string) i x :
  drop_trailing_blanks l !! i = Some x -> l !! i = Some x.
Proof.
  revert i. induction l as [|s rest IH]; intros i; simpl; [discriminate|].
  destruct (drop_trailing_blanks rest) as [|y ys] eqn:E.
  - destruct (truthy s); [|discriminate].
    destruct i as [|i]; simpl; [trivial|discriminate].
  - destruct i as [|i]; simpl; [trivial|]. apply IH.
Qed.

(** What [col_values] returns at an index is the text of the cell of that
    row. *)
Lemma col_values_lookup (ws : Worksheet Price) col i raw :
  col_values fmt ws col !! i = Some raw -> raw = cell_text fmt ws col (S i).
Proof.
  unfold col_values. intros H. apply drop_trailing_blanks_lookup in H.
  change (map ?f ?l) with (f <$> l) in H.
  apply list_lookup_fmap_Some in H as (r & -> & Hr).
  apply lookup_seq in Hr as [-> _]. reflexivity.
Qed.

Lemma blank_row_not_extracted (ws : Worksheet Price) r :
  r = 1 \/ strip (cell_text fmt ws 1 r) = "" ->
  r ∉ map fst (Main._get_rows_and_symbols (col_values fmt ws 1)).
Proof.
  intros Hr Hin. apply row_extracted_iff_nonblank in Hin as (H2 & raw & Hl & Hraw).
  destruct Hr as [->|Hblank]; [lia|].
  apply col_values_lookup in Hl. replace (S (r - 1)) with r in Hl by lia.
  subst raw. contradiction.
Qed.

(** A cycle of main.py leaves the header row and every row whose
    cell in column A is blank exactly as they were, column C included: a
    value left in column C next to a blank cell is never cleared. *)
Lemma blank_rows_skipped (ws : Worksheet Price) (feed : Feed Trade)
    (c r : nat) :
  r = 1 \/ strip (cell_text fmt ws 1 r) = "" ->
  cells (Main.sheet (Main.cycle float_price fmt CHUNK_SIZE ws feed)) !! (c, r)
  = cells ws !! (c, r).
Proof.
  intros Hr. apply blank_row_not_extracted in Hr.
  rewrite cycle_closed_form. cbv zeta.
  destruct (map snd _) as [|s0 syms]; [reflexivity|].
  destruct (Main._fetch_latest_prices _ _ _ _) as [[price_map reqs]|e]; [|reflexivity].
  simpl. apply foldl_put_other. right. exact Hr.
Qed.

Lemma str_nat_inj a b : str_nat a = str_nat b -> a = b.
Proof.
  unfold str_nat. intros H. apply (f_equal NilEmpty.uint_of_string) in H.
  rewrite !NilEmpty.usu in H. injection H as H. apply Unsigned.to_uint_inj, H.
Qed.

(** X12. The updates that main.py builds for the rows extracted from a
    column name pairwise distinct ranges: no cell is written twice in one
    batch, so the result does not depend on the order in which the batch
    is applied. *)
Theorem update_ranges_distinct (col_a : list string) (price_map : gmap string Price) :
  NoDup (map range (Main.build_updates (Main._get_rows_and_symbols col_a) price_map)).
Proof.
  unfold Main.build_updates. rewrite map_map.
  assert (forall rows : list Main.TickerRow,
            map (fun rs : Main.TickerRow =>
                   range (let '(row_idx, sym) := rs in
                          {| range := String "C" (str_nat row_idx);
                             values := [[Main.cell_value (price_map !! sym)]] |})) rows
            = map (fun r => String "C" (str_nat r)) (map fst rows)) as ->.
  { intros rows. rewrite map_map. apply map_ext. intros [r s]. reflexivity. }
  change (map ?f ?l) with (f <$> l) at 1. apply NoDup_fmap_2.
  - intros a b [= H]. apply str_nat_inj, H.
  - apply StronglySorted_lt_NoDup, scan_rows_sorted.
Qed.

Lemma count_updated_numbers (rows : list Main.TickerRow) (price_map : gmap string Price) :
  Main.count_updated rows price_map
  = length (List.filter is_number (Main.build_updates rows price_map)).
Proof.
  unfold Main.count_updated. induction rows as [|[r s] rows IH]; [reflexivity|].
  simpl List.filter. unfold is_number at 1. simpl values.
  destruct (price_map !! s) as [p|] eqn:E; simpl.
  - rewrite filter_cons_True by (simpl; rewrite E; eauto). cbn [length]. f_equal. exact IH.
  - rewrite filter_cons_False by (simpl; rewrite E; intros [? [=]]). exact IH.
Qed.

(** X13. The summary "Updated u of n rows" of main.py is exact: [n] is the
    number of extracted rows, all written in one call, and [u] is the
    number of updates of that call that carry a number instead of a
    blank; so [u] is at most [n]. *)
Theorem summary_counts_priced_rows (ws : Worksheet Price) (feed : Feed Trade) (u n : nat) :
  Main.outcome (Main.cycle float_price fmt CHUNK_SIZE ws feed) = Main.Updated u n ->
  exists updates,
    Main.calls (Main.cycle float_price fmt CHUNK_SIZE ws feed) = [batch_update updates] /\
    n = length updates /\
    n = length (Main._get_rows_and_symbols (col_values fmt ws 1)) /\
    u = length (List.filter is_number updates) /\
    u <= n.
Proof.
  rewrite cycle_closed_form. cbv zeta.
  destruct (Main._get_rows_and_symbols (col_values fmt ws 1)) as [|rs rows] eqn:E;
    [discriminate|].
  simpl map. cbv iota.
  destruct (Main._fetch_latest_prices _ _ _ _) as [[price_map reqs]|e]; [|discriminate].
  simpl. intros [= <- <-].
  exists (Main.build_updates (rs :: rows) price_map).
  split; [reflexivity|]. split; [unfold Main.build_updates; rewrite length_map; reflexivity|].
  split; [reflexivity|]. rewrite count_updated_numbers.
  split; [reflexivity|].
  etransitivity; [apply filter_length_le|].
  unfold Main.build_updates. rewrite length_map. reflexivity.
Qed.

(** On a worksheet whose column A is blank below the header (empty
    or white space only), a cycle of either script is a no-op: no request
    to the feed, no write call, the worksheet as it was. *)
Lemma blank_column_idle (ws : Worksheet Price) (feed : Feed Trade)
    (timestamp : string) :
  (forall r, 2 <= r -> strip (cell_text fmt ws 1 r) = "") ->
  Main.cycle float_price fmt CHUNK_SIZE ws feed
  = {| Main.outcome := Main.NoTickers; Main.requests := [];
       Main.calls := []; Main.sheet := ws |} /\
  Legacy.cycle float_price fmt CHUNK_SIZE timestamp ws feed
  = {| Legacy.outcome := Legacy.NoTickers; Legacy.requests := [];
       Legacy.calls := []; Legacy.sheet := ws |}.
Proof.
  intros Hblank.
  assert (Main._get_rows_and_symbols (col_values fmt ws 1) = []) as Hrows.
  { destruct (Main._get_rows_and_symbols (col_values fmt ws 1)) as [|[r s] rows] eqn:E;
      [reflexivity|]. exfalso.
    assert (r ∈ map fst (Main._get_rows_and_symbols (col_values fmt ws 1))) as Hin
      by (rewrite E; simpl; apply elem_of_cons; left; reflexivity).
    pose proof Hin as Hin'.
    apply row_extracted_iff_nonblank in Hin' as (H2 & _).
    revert Hin. apply blank_row_not_extracted. right. apply Hblank, H2. }
  assert (Legacy._get_tickers (col_values fmt ws 1) = []) as Htick.
  { destruct (symbols_are_tickers_without_dollar (col_values fmt ws 1)) as [_ Hlen].
    rewrite Hrows in Hlen. simpl in Hlen.
    destruct (Legacy._get_tickers _); [reflexivity|discriminate]. }
  split.
  - unfold Main.cycle. cbv zeta. rewrite Hrows. reflexivity.
  - unfold Legacy.cycle. cbv zeta. rewrite Htick. reflexivity.
Qed.

End WriteExtras.

(** ** Opening the worksheet *)

Section OpenExtras.

Context {Price : Type}.
Variable fmt : Price -> string.
Implicit Types (d : Drive Price) (ws : Worksheet Price).

Lemma store_worksheet_same d key title ws :
  worksheet (store d key title ws) key title = Some ws.
Proof. unfold worksheet, store. simpl. rewrite !lookup_insert_eq. reflexivity. Qed.

Lemma store_worksheet_other d key title ws key' title' :
  (key', title') <> (key, title) ->
  worksheet (store d key title ws) key' title' = worksheet d key' title'.
Proof.
  intros Hne. unfold worksheet, store. simpl.
  destruct (decide (key' = key)) as [->|Hk].
  - rewrite lookup_insert_eq, lookup_insert_ne by congruence.
    destruct (files d !! key); [reflexivity|apply lookup_empty].
  - rewrite lookup_insert_ne by congruence. reflexivity.
Qed.

Lemma store_open_by_key d key title ws k :
  is_Some (files d !! key) ->
  open_by_key (store d key title ws) k = open_by_key d k.
Proof.
  intros [sheets Hs]. unfold open_by_key, store. simpl.
  destruct (decide (k = key)) as [->|Hk].
  - rewrite lookup_insert_eq, Hs. reflexivity.
  - rewrite lookup_insert_ne by congruence. reflexivity.
Qed.

Lemma open_by_key_Some d k key : open_by_key d k = Some key -> k = key /\ is_Some (files d !! key).
Proof.
  unfold open_by_key. destruct (files d !! k) eqn:E; [|discriminate].
  intros [= <-]. eauto.
Qed.

Lemma open_Some d title key : open d title = Some key -> is_Some (files d !! key).
Proof.
  unfold open. destruct (titles d !! title); [|discriminate].
  intros H. apply open_by_key_Some in H. tauto.
Qed.

Lemma store_open d key title ws t :
  is_Some (files d !! key) -> open (store d key title ws) t = open d t.
Proof.
  intros Hk. unfold open. change (titles (store d key title ws)) with (titles d).
  destruct (titles d !! t); [|reflexivity]. apply store_open_by_key, Hk.
Qed.

(** The worksheet made of a header row only. *)
Lemma header_only_sheet (h1 h2 h3 : string) ws :
  write_range (add_worksheet 1000 5) "A1:C1" [[VStr h1; VStr h2; VStr h3]] = Some ws ->
  truthy h1 = true ->
  cells ws = <[(3, 1) := VStr h3]> (<[(2, 1) := VStr h2]> (<[(1, 1) := VStr h1]> ∅)) /\
  row_count ws = 1000 /\
  col_values fmt ws 1 = [h1] /\
  (forall c r, r <> 1 -> cells ws !! (c, r) = None).
Proof.
  intros Hw Hh.
  assert (write_range (add_worksheet 1000 5) "A1:C1" [[VStr h1; VStr h2; VStr h3]]
          = Some {| cells := <[(3, 1) := VStr h3]>
                               (<[(2, 1) := VStr h2]>
                                 (<[(1, 1) := VStr h1]>
                                   (∅ : gmap (nat * nat) (Value Price))));
                    row_count := 1000 |}) as E by reflexivity.
  rewrite E in Hw. injection Hw as <-. cbn [cells row_count].
  split; [reflexivity|]. split; [reflexivity|]. split.
  - unfold col_values, cell_text. cbn [cells row_count].
    change (seq 1 1000) with (1 :: seq 2 999). cbn [map].
    rewrite lookup_insert_ne, lookup_insert_ne, lookup_insert_eq by discriminate.
    assert (forall n k, drop_trailing_blanks
              (map (fun row =>
                 match (<[(3, 1) := VStr h3]>
                         (<[(2, 1) := VStr h2]>
                           (<[(1, 1) := VStr h1]> (∅ : gmap (nat * nat) (Value Price)))))
                       !! (1, row) with
                 | Some (VNum p) => fmt p
                 | Some (VStr s) => s
                 | None => ""
                 end) (seq (S (S k)) n)) = []) as Hblank.
    { induction n as [|n IH]; intros k; [reflexivity|]. cbn [seq map drop_trailing_blanks].
      rewrite IH. rewrite !lookup_insert_ne by (intros [=]). rewrite lookup_empty.
      reflexivity. }
    cbn [drop_trailing_blanks]. rewrite (Hblank 999 0), Hh. reflexivity.
  - intros c r Hr. rewrite !lookup_insert_ne by (intros [=]; congruence).
    apply lookup_empty.
Qed.

Variable SHEET_ID : option string.
Variable SHEET_NAME : string.
Variable WORKSHEET_NAME : string.

(** What [_open_worksheet] of main.py returns and changes. A
    worksheet that exists is returned as it is: nothing is written, its
    header and content are kept. A missing worksheet is created with 1000
    rows and the header asset, (blank), current price in row 1 and nothing
    else, by one write to A1:C1; it is then the worksheet of that title,
    and every other worksheet of every spreadsheet is as before. *)
Lemma open_worksheet_cases d d' key ws calls :
  Main._open_worksheet SHEET_ID SHEET_NAME WORKSHEET_NAME d = Opened d' key ws calls ->
  match worksheet d key WORKSHEET_NAME with
  | Some ws0 => d' = d /\ ws = ws0 /\ calls = []
  | None =>
      calls = [update "A1:C1" [[VStr "asset"; VStr ""; VStr "current price"]]] /\
      row_count ws = 1000 /\
      col_values fmt ws 1 = ["asset"] /\
      cells ws !! (2, 1) = Some (VStr "") /\
      cells ws !! (3, 1) = Some (VStr "current price") /\
      (forall c r, r <> 1 -> cells ws !! (c, r) = None) /\
      worksheet d' key WORKSHEET_NAME = Some ws /\
      (forall k t, (k, t) <> (key, WORKSHEET_NAME) -> worksheet d' k t = worksheet d k t)
  end.
Proof.
  unfold Main._open_worksheet. cbv zeta.
  destruct (match SHEET_ID with
            | Some id => if truthy id then open_by_key d id else open d SHEET_NAME
            | None => open d SHEET_NAME
            end) as [key0|]; [|discriminate].
  destruct (worksheet d key0 WORKSHEET_NAME) as [ws0|] eqn:Hw.
  - intros [= <- <- <- <-]. rewrite Hw. auto.
  - destruct (write_range _ _ _) as [ws'|] eqn:Hwr; [|discriminate].
    intros [= <- <- <- <-]. rewrite Hw.
    destruct (header_only_sheet _ _ _ _ Hwr eq_refl) as (Hcells & Hrc & Hcol & Hrest).
    split; [reflexivity|]. split; [exact Hrc|]. split; [exact Hcol|].
    split; [rewrite Hcells; rewrite lookup_insert_ne by discriminate; apply lookup_insert_eq|].
    split; [rewrite Hcells; apply lookup_insert_eq|]. split; [exact Hrest|].
    split; [apply store_worksheet_same|]. intros k t Hne. apply store_worksheet_other, Hne.
Qed.

(** X16. Opening again finds what the first opening left: after
    [_open_worksheet] of either script has returned, a second call on the
    resulting spreadsheets returns the same worksheet of the same
    spreadsheet, writes nothing and changes nothing; the header is written
    once at most. *)
Theorem open_worksheet_again d d' key ws calls :
  (Main._open_worksheet SHEET_ID SHEET_NAME WORKSHEET_NAME d = Opened d' key ws calls ->
   Main._open_worksheet SHEET_ID SHEET_NAME WORKSHEET_NAME d' = Opened d' key ws []) /\
  (Legacy._open_worksheet SHEET_NAME WORKSHEET_NAME d = Opened d' key ws calls ->
   Legacy._open_worksheet SHEET_NAME WORKSHEET_NAME d' = Opened d' key ws []).
Proof.
  split.
  - unfold Main._open_worksheet. cbv zeta.
    destruct (match SHEET_ID with
              | Some id => if truthy id then open_by_key d id else open d SHEET_NAME
              | None => open d SHEET_NAME
              end) as [key0|] eqn:Ho; [|discriminate].
    assert (is_Some (files d !! key0)) as Hk.
    { destruct SHEET_ID as [id|]; [destruct (truthy id)|];
        first [apply open_by_key_Some in Ho; tauto | eapply open_Some, Ho]. }
    destruct (worksheet d key0 WORKSHEET_NAME) as [ws0|] eqn:Hw.
    + intros [= <- <- <- <-]. rewrite Ho, Hw. reflexivity.
    + destruct (write_range _ _ _) as [ws'|] eqn:Hwr; [|discriminate].
      intros [= <- <- <- <-].
      assert (match SHEET_ID with
              | Some id => if truthy id
                           then open_by_key (store d key0 WORKSHEET_NAME ws') id
                           else open (store d key0 WORKSHEET_NAME ws') SHEET_NAME
              | None => open (store d key0 WORKSHEET_NAME ws') SHEET_NAME
              end = Some key0) as ->.
      { rewrite <- Ho. destruct SHEET_ID as [id|]; [destruct (truthy id)|];
          first [apply store_open_by_key, Hk | apply store_open, Hk]. }
      rewrite store_worksheet_same. reflexivity.
  - unfold Legacy._open_worksheet. cbv zeta.
    destruct (open d SHEET_NAME) as [key0|] eqn:Ho; [|discriminate].
    pose proof (open_Some _ _ _ Ho) as Hk.
    destruct (worksheet d key0 WORKSHEET_NAME) as [ws0|] eqn:Hw.
    + intros [= <- <- <- <-]. rewrite Ho, Hw. reflexivity.
    + destruct (write_range _ _ _) as [ws'|] eqn:Hwr; [|discriminate].
      intros [= <- <- <- <-]. rewrite store_open by exact Hk. rewrite Ho.
      rewrite store_worksheet_same. reflexivity.
Qed.

End OpenExtras.

(** ** The loop of [main] *)

Section LoopExtras.

Context {Price Trade : Type}.
Variable float_price : Trade -> option Price.
Variable fmt : Price -> string.
Variable CHUNK_SIZE : Z.

Local Abbreviation main_loop := (Main.main_loop float_price fmt CHUNK_SIZE).
Local Abbreviation legacy_loop := (Legacy.main_loop float_price fmt CHUNK_SIZE).

(** X17. What [_open_worksheet] of papertrader_updater.py creates when the
    worksheet is missing: a worksheet of 1000 rows whose only content is
    the header Ticker, Last Updated (UTC), Price in row 1; an existing
    worksheet is returned untouched. *)
Theorem legacy_open_worksheet_result (SHEET_NAME WORKSHEET_NAME : string)
    (d d' : Drive Price) key ws calls :
  Legacy._open_worksheet SHEET_NAME WORKSHEET_NAME d = Opened d' key ws calls ->
  match worksheet d key WORKSHEET_NAME with
  | Some ws0 => d' = d /\ ws = ws0 /\ calls = []
  | None =>
      calls = [update "A1:C1" [[VStr "Ticker"; VStr "Last Updated (UTC)"; VStr "Price"]]] /\
      row_count ws = 1000 /\
      col_values fmt ws 1 = ["Ticker"] /\
      cells ws !! (2, 1) = Some (VStr "Last Updated (UTC)") /\
      cells ws !! (3, 1) = Some (VStr "Price") /\
      (forall c r, r <> 1 -> cells ws !! (c, r) = None) /\
      worksheet d' key WORKSHEET_NAME = Some ws /\
      (forall k t, (k, t) <> (key, WORKSHEET_NAME) -> worksheet d' k t = worksheet d k t)
  end.
Proof.
  unfold Legacy._open_worksheet. cbv zeta.
  destruct (open d SHEET_NAME) as [key0|]; [|discriminate].
  destruct (worksheet d key0 WORKSHEET_NAME) as [ws0|] eqn:Hw.
  - intros [= <- <- <- <-]. rewrite Hw. auto.
  - destruct (write_range _ _ _) as [ws'|] eqn:Hwr; [|discriminate].
    intros [= <- <- <- <-]. rewrite Hw.
    destruct (header_only_sheet fmt _ _ _ _ Hwr eq_refl) as (Hcells & Hrc & Hcol & Hrest).
    split; [reflexivity|]. split; [exact Hrc|]. split; [exact Hcol|].
    split; [rewrite Hcells; rewrite lookup_insert_ne by discriminate; apply lookup_insert_eq|].
    split; [rewrite Hcells; apply lookup_insert_eq|]. split; [exact Hrest|].
    split; [apply store_worksheet_same|]. intros k t Hne. apply store_worksheet_other, Hne.
Qed.

Lemma main_loop_idle (ws : Worksheet Price) _running (env : list (Feed Trade * bool)) :
  (forall feed, Main.cycle float_price fmt CHUNK_SIZE ws feed
                = {| Main.outcome := Main.NoTickers; Main.requests := [];
                     Main.calls := []; Main.sheet := ws |}) ->
  Forall (fun c => c = {| Main.outcome := Main.NoTickers; Main.requests := [];
                          Main.calls := []; Main.sheet := ws |})
         (main_loop _running env ws).
Proof.
  intros Hidle. revert _running. induction env as [|[feed sig] rest IH]; intros _running; simpl.
  - constructor.
  - destruct _running; [|constructor]. rewrite Hidle. simpl.
    constructor; [reflexivity|apply IH].
Qed.

(** X18. Started on a spreadsheet that lacks the worksheet, [main] of
    main.py writes the header once and then idles: every cycle it runs
    finds no ticker, sends no request and writes nothing, so the new
    worksheet keeps holding the header only. *)
Theorem main_on_missing_worksheet (SHEET_ID : option string)
    (SHEET_NAME WORKSHEET_NAME : string) (d d' : Drive Price) key ws calls
    (_running : bool) (env : list (Feed Trade * bool)) :
  Main._open_worksheet SHEET_ID SHEET_NAME WORKSHEET_NAME d = Opened d' key ws calls ->
  worksheet d key WORKSHEET_NAME = None ->
  exists cycles,
    Main.main float_price fmt CHUNK_SIZE SHEET_ID SHEET_NAME WORKSHEET_NAME d _running env
    = Some ([update "A1:C1" [[VStr "asset"; VStr ""; VStr "current price"]]], cycles) /\
    Forall (fun c => c = {| Main.outcome := Main.NoTickers; Main.requests := [];
                            Main.calls := []; Main.sheet := ws |}) cycles.
Proof.
  intros Hopen Hmissing.
  pose proof (open_worksheet_cases fmt _ _ _ _ _ _ _ _ Hopen) as Hres.
  rewrite Hmissing in Hres. destruct Hres as (-> & _ & _ & _ & _ & Hrest & _).
  unfold Main.main. rewrite Hopen. eexists. split; [reflexivity|].
  apply main_loop_idle. intros feed.
  apply (blank_column_idle float_price fmt CHUNK_SIZE ws feed "").
  intros r Hr. unfold cell_text. rewrite Hrest by lia. reflexivity.
Qed.

(** X19. However long the loop of [main] runs and whatever the feed does,
    the worksheet after every cycle has column A as it was at the start
    and every cell outside column C as it was at the start (outside
    columns B and C for papertrader_updater.py). *)
Theorem loop_keeps_other_columns (ws : Worksheet Price) (_running : bool)
    (env : list (Feed Trade * bool)) (legacy_env : list (string * Feed Trade * bool)) :
  Forall (fun cy => col_values fmt (Main.sheet cy) 1 = col_values fmt ws 1 /\
                    forall c r, c <> 3 -> cells (Main.sheet cy) !! (c, r) = cells ws !! (c, r))
         (main_loop _running env ws) /\
  Forall (fun cy => col_values fmt (Legacy.sheet cy) 1 = col_values fmt ws 1 /\
                    forall c r, c <> 2 -> c <> 3 ->
                      cells (Legacy.sheet cy) !! (c, r) = cells ws !! (c, r))
         (legacy_loop _running legacy_env ws).
Proof.
  split.
  - revert ws _running. induction env as [|[feed sig] rest IH]; intros ws _running; simpl.
    + constructor.
    + destruct _running; [|constructor]. constructor.
      * split; [apply cycle_column_A|]. intros c r Hc. apply cycle_frame, Hc.
      * eapply Forall_impl; [apply IH|]. simpl. intros cy [Hcol Hcells]. split.
        -- rewrite Hcol. apply cycle_column_A.
        -- intros c r Hc. rewrite Hcells by exact Hc. apply cycle_frame, Hc.
  - revert ws _running.
    induction legacy_env as [|[[ts feed] sig] rest IH]; intros ws _running; simpl.
    + constructor.
    + destruct _running; [|constructor]. constructor.
      * split; [apply legacy_cycle_column_A|].
        intros c r H2 H3. apply legacy_cycle_frame; assumption.
      * eapply Forall_impl; [apply IH|]. simpl. intros cy [Hcol Hcells]. split.
        -- rewrite Hcol. apply legacy_cycle_column_A.
        -- intros c r H2 H3. rewrite Hcells by assumption.
           apply legacy_cycle_frame; assumption.
Qed.

(** X20. While the feed answers the same way in every iteration, the loop
    of [main] of main.py repeats its first cycle: every cycle it runs has
    the requests, the write call, the summary and the resulting worksheet
    of the first, so nothing accumulates over the iterations. *)
Theorem loop_repeats_first_cycle (ws : Worksheet Price) (_running : bool) (feed : Feed Trade)
    (env : list (Feed Trade * bool)) :
  Forall (fun e => e.1 = feed) env ->
  Forall (fun cy => cy = Main.cycle float_price fmt CHUNK_SIZE ws feed)
         (main_loop _running env ws).
Proof.
  intros Henv. revert _running.
  assert (forall w, Main.cycle float_price fmt CHUNK_SIZE w feed
                    = Main.cycle float_price fmt CHUNK_SIZE ws feed ->
            forall _running,
              Forall (fun cy => cy = Main.cycle float_price fmt CHUNK_SIZE ws feed)
                     (main_loop _running env w)) as H.
  { induction Henv as [|[f sig] rest Hf _ IH]; intros w Hw _running; simpl.
    - constructor.
    - simpl in Hf. subst f. destruct _running; [|constructor].
      constructor; [exact Hw|]. apply IH. rewrite Hw. apply cycle_twice. }
  apply H. reflexivity.
Qed.

(** X21. Shutdown: when the termination signal is handled during an
    iteration, that iteration is the last one; its cycle is run to the
    end, and the loop runs no cycle after it. With [_running] already
    false the loop runs no cycle at all. Both scripts. *)
Theorem loop_stops_after_signal (ws : Worksheet Price)
    (pre : list (Feed Trade * bool)) (feed : Feed Trade) (post : list (Feed Trade * bool))
    (lpre : list (string * Feed Trade * bool)) (t : string)
    (lpost : list (string * Feed Trade * bool)) :
  Forall (fun e => e.2 = false) pre ->
  Forall (fun e => e.2 = false) lpre ->
  length (main_loop true (pre ++ (feed, true) :: post) ws) = length pre + 1 /\
  main_loop true (pre ++ (feed, true) :: post) ws = main_loop true (pre ++ [(feed, true)]) ws /\
  main_loop false (pre ++ (feed, true) :: post) ws = [] /\
  length (legacy_loop true (lpre ++ (t, feed, true) :: lpost) ws) = length lpre + 1 /\
  legacy_loop false (lpre ++ (t, feed, true) :: lpost) ws = [].
Proof.
  intros Hpre Hlpre.
  assert (forall w, main_loop true (pre ++ (feed, true) :: post) w
                    = main_loop true (pre ++ [(feed, true)]) w /\
                    length (main_loop true (pre ++ [(feed, true)]) w) = length pre + 1) as Hm.
  { induction Hpre as [|[f sig] rest Hsig _ IH]; intros w; simpl.
    - destruct post as [|[f' s'] post']; simpl; auto.
    - simpl in Hsig. subst sig. simpl. destruct (IH (Main.sheet
        (Main.cycle float_price fmt CHUNK_SIZE w f))) as [-> ->]. auto. }
  assert (forall w, length (legacy_loop true (lpre ++ (t, feed, true) :: lpost) w)
                    = length lpre + 1) as Hl.
  { induction Hlpre as [|[[ts f] sig] rest Hsig _ IH]; intros w; simpl.
    - destruct lpost as [|[[t' f'] s'] lpost']; simpl; auto.
    - simpl in Hsig. subst sig. simpl. rewrite IH. reflexivity. }
  destruct (Hm ws) as [H1 H2].
  split; [rewrite H1; exact H2|]. split; [exact H1|].
  split; [destruct pre as [|[f s] pre']; reflexivity|].
  split; [apply Hl|]. destruct lpre as [|[[ts f] s] lpre']; reflexivity.
Qed.

End LoopExtras.

(** ** Normal form of the tickers *)

Lemma isspace_upper_char c : isspace (upper_char c) = isspace c.
Proof.
  unfold upper_char. destruct (islower c) eqn:E; [|reflexivity].
  unfold islower in E. apply andb_true_iff in E as [E1 E2].
  apply Nat.leb_le in E1. apply Nat.leb_le in E2.
  unfold isspace. rewrite nat_ascii_embedding by lia.
  transitivity false; [|symmetry]; apply orb_false_iff; split;
    apply andb_false_iff; first [left; apply Nat.leb_gt; lia | right; apply Nat.leb_gt; lia].
Qed.

Lemma upper_char_idem c : upper_char (upper_char c) = upper_char c.
Proof. unfold upper_char at 1. rewrite upper_char_not_lower. reflexivity. Qed.

Lemma upper_idem s : upper (upper s) = upper s.
Proof. induction s as [|c s IH]; simpl; [reflexivity|]. rewrite upper_char_idem, IH. reflexivity. Qed.

Lemma lstrip_upper s : lstrip (upper s) = upper (lstrip s).
Proof.
  induction s as [|c s IH]; simpl; [reflexivity|].
  rewrite isspace_upper_char. destruct (isspace c); [exact IH|reflexivity].
Qed.

Lemma rstrip_upper s : rstrip (upper s) = upper (rstrip s).
Proof.
  induction s as [|c s IH]; simpl; [reflexivity|].
  rewrite IH, isspace_upper_char.
  destruct (rstrip s); simpl; [destruct (isspace c)|]; reflexivity.
Qed.

Lemma strip_upper s : strip (upper s) = upper (strip s).
Proof. unfold strip. rewrite lstrip_upper, rstrip_upper. reflexivity. Qed.

Lemma rstrip_idem s : rstrip (rstrip s) = rstrip s.
Proof.
  induction s as [|c s IH]; simpl; [reflexivity|].
  destruct (rstrip s) as [|c' r] eqn:E.
  - destruct (isspace c) eqn:Hc; simpl; [reflexivity|]. rewrite Hc. reflexivity.
  - simpl. simpl in IH. rewrite IH. reflexivity.
Qed.

Lemma lstrip_head s : match lstrip s with String c _ => isspace c = false | EmptyString => True end.
Proof.
  induction s as [|c s IH]; simpl; [exact I|].
  destruct (isspace c) eqn:E; [exact IH|exact E].
Qed.

Lemma rstrip_head c s :
  isspace c = false -> exists r, rstrip (String c s) = String c r.
Proof.
  intros Hc. simpl. destruct (rstrip s); [rewrite Hc|]; eauto.
Qed.

Lemma strip_idem s : strip (strip s) = strip s.
Proof.
  unfold strip. pose proof (lstrip_head s) as H.
  destruct (lstrip s) as [|c r]; [reflexivity|].
  destruct (rstrip_head c r H) as [r' E]. rewrite E.
  cbn [lstrip]. rewrite H, <- E. apply rstrip_idem.
Qed.

(** A ticker of papertrader_updater.py is its own normal form. *)
Lemma ticker_normal raw :
  strip (upper (strip raw)) = upper (strip raw) /\
  upper (upper (strip raw)) = upper (strip raw).
Proof. rewrite strip_upper, strip_idem, upper_idem. auto. Qed.

Lemma no_lower_upper s : no_lower s = true -> upper s = s.
Proof.
  induction s as [|c s IH]; simpl; [reflexivity|].
  intros H. apply andb_true_iff in H as [Hc Hs]. rewrite (IH Hs).
  unfold upper_char. destruct (islower c); [discriminate|reflexivity].
Qed.

Lemma tickers_clean (col_a : list string) :
  Forall (fun t => t <> "" /\ no_lower t = true /\ strip t = t) (Legacy._get_tickers col_a).
Proof.
  unfold Legacy._get_tickers. cbv zeta. apply Forall_map, Forall_forall.
  intros raw Hin. apply list_elem_of_In, filter_In in Hin as [_ Ht]. simpl.
  split; [|split].
  - intros E. rewrite <- truthy_upper, E in Ht. discriminate.
  - apply upper_no_lower.
  - apply ticker_normal.
Qed.

(** Reading the tickers is idempotent: a column made of a header
    and the tickers that papertrader_updater.py has read from a column
    reads back as the same tickers. *)
Lemma tickers_read_back (header : string) (col_a : list string) :
  Legacy._get_tickers (header :: Legacy._get_tickers col_a) = Legacy._get_tickers col_a.
Proof.
  unfold Legacy._get_tickers at 1. cbv zeta. cbn [tail].
  pose proof (tickers_clean col_a) as Hclean.
  induction Hclean as [|t rest (Hne & Hlow & Hs) _ IH]; [reflexivity|].
  simpl. rewrite Hs. destruct (truthy t) eqn:E; [|apply truthy_false_iff in E; congruence].
  cbn [map]. rewrite Hs, (no_lower_upper t Hlow), IH. reflexivity.
Qed.

Section RequestExtras.

Context {Price Trade : Type}.
Variable float_price : Trade -> option Price.
Variable fmt : Price -> string.

(** X24. main.py respects the request limit: for a positive chunk size
    a cycle sends ceil(k / CHUNK_SIZE) requests, where k is the number of
    distinct symbols of the column, none of them empty and none with more
    than CHUNK_SIZE symbols; when the distinct symbols fit in one chunk,
    it sends one request with all of them. *)
Theorem cycle_request_count (CHUNK_SIZE : Z) (ws : Worksheet Price) (feed : Feed Trade) :
  (0 < CHUNK_SIZE)%Z ->
  let rows := Main._get_rows_and_symbols (col_values fmt ws 1) in
  let reqs := Main.requests (Main.cycle float_price fmt CHUNK_SIZE ws feed) in
  length reqs
  = (length (Spec.SymbolSet rows) + Z.to_nat CHUNK_SIZE - 1) / Z.to_nat CHUNK_SIZE /\
  Forall (fun b => 1 <= length b <= Z.to_nat CHUNK_SIZE) reqs /\
  (rows <> [] -> length (Spec.SymbolSet rows) <= Z.to_nat CHUNK_SIZE ->
   reqs = [Spec.SymbolSet rows]).
Proof.
  intros Hsize rows reqs. subst reqs. rewrite cycle_closed_form. cbv zeta. fold rows.
  unfold Spec.SymbolSet, Main._fetch_latest_prices.
  destruct (chunks_slices (fromkeys (map snd rows)) CHUNK_SIZE Hsize)
    as (batches & Hc & Hcat & Hlen & Hshape).
  rewrite <- fromkeys_dedup_first.
  destruct (map snd rows) as [|s0 syms] eqn:E.
  - assert (rows = []) as Hrows by (destruct rows; [reflexivity|discriminate]).
    simpl. split; [|split; [constructor|congruence]].
    symmetry. apply Nat.div_small. lia.
  - rewrite Hc.
    pose proof (fetch_batches_issued float_price feed 0 batches ∅ []) as Hiss.
    destruct (Main.fetch_batches float_price feed 0 batches (∅, [])) as [pm issued].
    simpl in Hiss. subst issued. simpl Main.requests.
    split; [exact Hlen|]. split.
    + apply Forall_forall. intros b Hb. apply list_elem_of_lookup in Hb as [i Hi].
      apply (Hshape i b Hi).
    + intros _ Hfit.
      assert (length batches = 1) as H1.
      { rewrite Hlen. set (k := length (fromkeys (s0 :: syms))) in *.
        assert (1 <= k).
        { subst k. rewrite fromkeys_dedup_first. simpl. lia. }
        symmetry. apply Nat.div_unique with (r := k - 1); lia. }
      destruct batches as [|b [|b' rest]]; try discriminate.
      simpl in Hcat. rewrite app_nil_r in Hcat. subst b. reflexivity.
Qed.

End RequestExtras.

(** ** Statements *)

(** X2. The two scripts read the same tickers from a column: cell by
    cell, the symbols of main.py are the tickers of papertrader_updater.py
    without their leading dollar sign, in the same order. *)
Theorem extractions_agree_up_to_dollar (col_a : list string) :
  map snd (Main._get_rows_and_symbols col_a)
  = map strip_dollar (Legacy._get_tickers col_a) /\
  length (Main._get_rows_and_symbols col_a) = length (Legacy._get_tickers col_a).
Proof. apply symbols_are_tickers_without_dollar. Qed.

(** X4. For a positive size, [_chunks] cuts the sequence into
    ceil(len / size) slices: every slice but the last holds exactly [size]
    elements, the last between 1 and [size], and put end to end they give
    the sequence back. *)
Theorem chunks_shape {A : Type} (l : list A) (size : Z) :
  (0 < size)%Z ->
  exists batches,
    Main._chunks l size = Ok batches /\
    concat batches = l /\
    length batches = (length l + Z.to_nat size - 1) / Z.to_nat size /\
    forall i b, batches !! i = Some b ->
      1 <= length b <= Z.to_nat size /\
      (S i < length batches -> length b = Z.to_nat size).
Proof. apply chunks_slices. Qed.

(** X15. What [_open_worksheet] of main.py returns and changes. A
    worksheet that exists is returned as it is: nothing is written, its
    header and content are kept. A missing worksheet is created with 1000
    rows and the header asset, (blank), current price in row 1 and nothing
    else, by one write to A1:C1; it is then the worksheet of that title,
    and every other worksheet of every spreadsheet is as before. *)
Theorem open_worksheet_result {Price : Type} (fmt : Price -> string)
    (SHEET_ID : option string) (SHEET_NAME WORKSHEET_NAME : string)
    (d d' : Drive Price) key ws calls :
  Main._open_worksheet SHEET_ID SHEET_NAME WORKSHEET_NAME d = Opened d' key ws calls ->
  match worksheet d key WORKSHEET_NAME with
  | Some ws0 => d' = d /\ ws = ws0 /\ calls = []
  | None =>
      calls = [update "A1:C1" [[VStr "asset"; VStr ""; VStr "current price"]]] /\
      row_count ws = 1000 /\
      col_values fmt ws 1 = ["asset"] /\
      cells ws !! (2, 1) = Some (VStr "") /\
      cells ws !! (3, 1) = Some (VStr "current price") /\
      (forall c r, r <> 1 -> cells ws !! (c, r) = None) /\
      worksheet d' key WORKSHEET_NAME = Some ws /\
      (forall k t, (k, t) <> (key, WORKSHEET_NAME) -> worksheet d' k t = worksheet d k t)
  end.
Proof. apply open_worksheet_cases. Qed.

(** ** Instances of the further properties *)

Lemma chunks_shape_witness :
  (0 < 2)%Z /\
  exists batches, Main._chunks [1; 2; 3; 4; 5] 2 = Ok batches /\ length batches = 3.
Proof.
  assert (0 < 2)%Z as H by lia. split; [exact H|].
  destruct (chunks_shape [1; 2; 3; 4; 5] 2 H) as (batches & Hc & _ & Hlen & _).
  exists batches. split; [exact Hc|exact Hlen].
Defined.

Lemma legacy_requests_are_the_tickers_witness :
  (0 < 2)%Z /\
  exists price_map reqs,
    Legacy._fetch_latest_prices Demo.float_price 2 ["AAPL"; "SPY"; "AAPL"]
      (Demo.feed_of Demo.quotes) = Ok (price_map, reqs) /\
    concat reqs = ["AAPL"; "SPY"; "AAPL"].
Proof.
  assert (0 < 2)%Z as H by lia. split; [exact H|].
  destruct (legacy_requests_are_the_tickers Demo.float_price 2 ["AAPL"; "SPY"; "AAPL"]
              (Demo.feed_of Demo.quotes) H) as (pm & reqs & Hf & Hcat & _).
  exists pm, reqs. split; [exact Hf|exact Hcat].
Defined.

Lemma unparsable_unpriced k l :
  unpriced Demo.float_price (Demo.feed_all Samples.unparsable) k l "AAPL".
Proof.
  intros j b r t _ [= <-] Hr. unfold Samples.unparsable in Hr.
  rewrite lookup_singleton_eq in Hr. injection Hr as <-. reflexivity.
Qed.

Lemma unparsable_price_is_skipped_witness :
  unpriced Demo.float_price (Demo.feed_all Samples.unparsable) 0 [["AAPL"]] "AAPL" /\
  (Main.fetch_batches Demo.float_price (Demo.feed_all Samples.unparsable) 0 [["AAPL"]]
     (∅, [])).1 !! "AAPL" = None.
Proof.
  pose proof (unparsable_unpriced 0 [["AAPL"]]) as H. split; [exact H|].
  exact (proj1 (unparsable_price_is_skipped Demo.float_price _ 0 [["AAPL"]] "AAPL" ∅ [] H)).
Defined.

Lemma last_priced_response_wins_witness :
  let feed := Demo.failing_at 0 (Demo.feed_all Demo.quotes) in
  feed 1 ["AAPL"] = Returns (Some Demo.quotes) /\
  (Main.fetch_batches Demo.float_price feed 0 [["SPY"]; ["AAPL"]]
     ({[ "AAPL" := (1 # 1)%Q ]}, [])).1 !! "AAPL" = Some (17234 # 100)%Q.
Proof.
  intros feed. split; [reflexivity|].
  apply (last_priced_response_wins Demo.float_price feed [["SPY"]] ["AAPL"] []
           Demo.quotes "AAPL" (Demo.quote (17234 # 100))).
  - reflexivity.
  - vm_compute. reflexivity.
  - reflexivity.
  - intros j b r t Hj. destruct j; discriminate Hj.
Defined.

Lemma fetched_prices_are_kept_witness :
  is_Some (({[ "AAPL" := (1 # 1)%Q ]} : gmap string Q) !! "AAPL") /\
  is_Some ((Main.fetch_batches Demo.float_price Samples.outage 0 [["AAPL"]; ["SPY"]]
              ({[ "AAPL" := (1 # 1)%Q ]}, [])).1 !! "AAPL").
Proof.
  assert (is_Some (({[ "AAPL" := (1 # 1)%Q ]} : gmap string Q) !! "AAPL")) as H
    by (rewrite lookup_singleton_eq; eauto).
  split; [exact H|].
  exact (fetched_prices_are_kept Demo.float_price Samples.outage 0 [["AAPL"]; ["SPY"]]
           "AAPL" _ [] H).
Defined.

Lemma feed_outage_blanks_every_row_witness :
  let ws := Demo.sheet_of_column ["SYMBOL"; "AAPL"; ""; "SPY"] in
  (0 < 150)%Z /\
  (forall k b, Samples.outage k b = Raises) /\
  Main._get_rows_and_symbols (col_values Demo.fmt ws 1) <> [] /\
  Main.outcome (Main.cycle Demo.float_price Demo.fmt 150 ws Samples.outage)
  = Main.Updated 0 (length (Main._get_rows_and_symbols (col_values Demo.fmt ws 1))).
Proof.
  intros ws.
  assert (0 < 150)%Z as H1 by lia.
  assert (forall k b, Samples.outage k b = Raises) as H2 by reflexivity.
  assert (Main._get_rows_and_symbols (col_values Demo.fmt ws 1) <> []) as H3
    by (vm_compute; discriminate).
  split; [exact H1|]. split; [exact H2|]. split; [exact H3|].
  exact (proj1 (feed_outage_blanks_every_row Demo.float_price Demo.fmt 150 ws
                  Samples.outage H1 H2 H3)).
Defined.

Lemma legacy_write_postcondition_witness :
  let ws := Demo.sheet_of_column ["Ticker"; "AAPL"; ""; "SPY"] in
  let price_map : gmap string Q := {[ "SPY" := (450 # 1)%Q ]} in
  ["AAPL"; "SPY"] !! 1 = Some "SPY" /\
  cells (exec_calls ws (Legacy._write_prices "2024-01-02 15:04:05" ["AAPL"; "SPY"]
                          price_map)).1 !! (3, 3) = Some (VNum (450 # 1)%Q).
Proof.
  intros ws price_map. split; [reflexivity|].
  exact (proj1 (legacy_write_postcondition "2024-01-02 15:04:05" ["AAPL"; "SPY"]
                  price_map ws 1 "SPY" eq_refl)).
Defined.

Lemma summary_counts_priced_rows_witness :
  let ws := Demo.sheet_of_column ["SYMBOL"; "AAPL"; "NOPE"] in
  Main.outcome (Main.cycle Demo.float_price Demo.fmt 150 ws (Demo.feed_of Demo.quotes))
  = Main.Updated 1 2 /\
  exists updates,
    Main.calls (Main.cycle Demo.float_price Demo.fmt 150 ws (Demo.feed_of Demo.quotes))
    = [batch_update updates] /\
    1 = length (List.filter is_number updates).
Proof.
  intros ws.
  assert (Main.outcome (Main.cycle Demo.float_price Demo.fmt 150 ws (Demo.feed_of Demo.quotes))
          = Main.Updated 1 2) as H by (vm_compute; reflexivity).
  split; [exact H|].
  destruct (summary_counts_priced_rows Demo.float_price Demo.fmt 150 ws
              (Demo.feed_of Demo.quotes) 1 2 H) as (updates & Hc & _ & _ & Hu & _).
  exists updates. split; [exact Hc|exact Hu].
Defined.

Lemma blank_sheet_is_blank r :
  2 <= r -> strip (cell_text Demo.fmt Samples.blank_sheet 1 r) = "".
Proof.
  intros Hr. unfold cell_text, Samples.blank_sheet. cbn [cells].
  rewrite lookup_insert_ne by (intros [=]; lia).
  destruct (decide (r = 2)) as [->|Hne].
  - rewrite lookup_singleton_eq. reflexivity.
  - rewrite lookup_singleton_ne by (intros [=]; lia). reflexivity.
Qed.

Lemma samples_opening :
  Samples.opening
  = Opened Samples.opened_drive "key1" Samples.opened_sheet
      [update "A1:C1" [[VStr "asset"; VStr ""; VStr "current price"]]].
Proof. vm_compute. reflexivity. Qed.

Lemma samples_legacy_opening :
  Samples.legacy_opening
  = Opened Samples.legacy_opened_drive "key1" Samples.legacy_opened_sheet
      [update "A1:C1" [[VStr "Ticker"; VStr "Last Updated (UTC)"; VStr "Price"]]].
Proof. vm_compute. reflexivity. Qed.

Lemma open_worksheet_result_witness :
  Main._open_worksheet None "Trading Log" "Papertrader" Samples.drive
  = Opened Samples.opened_drive "key1" Samples.opened_sheet
      [update "A1:C1" [[VStr "asset"; VStr ""; VStr "current price"]]] /\
  col_values Demo.fmt Samples.opened_sheet 1 = ["asset"] /\
  worksheet Samples.opened_drive "key1" "Papertrader" = Some Samples.opened_sheet.
Proof.
  pose proof (open_worksheet_result Demo.fmt None "Trading Log" "Papertrader" Samples.drive
                _ _ _ _ samples_opening) as H.
  change (worksheet Samples.drive "key1" "Papertrader") with (@None (Worksheet Q)) in H.
  destruct H as (_ & _ & Hcol & _ & _ & _ & Hws & _).
  split; [exact samples_opening|]. split; [exact Hcol|exact Hws].
Defined.

Lemma open_worksheet_again_witness :
  Main._open_worksheet None "Trading Log" "Papertrader" Samples.drive
  = Opened Samples.opened_drive "key1" Samples.opened_sheet
      [update "A1:C1" [[VStr "asset"; VStr ""; VStr "current price"]]] /\
  Main._open_worksheet None "Trading Log" "Papertrader" Samples.opened_drive
  = Opened Samples.opened_drive "key1" Samples.opened_sheet [] /\
  Legacy._open_worksheet "Trading Log" "Papertrader" Samples.legacy_opened_drive
  = Opened Samples.legacy_opened_drive "key1" Samples.legacy_opened_sheet [].
Proof.
  split; [exact samples_opening|]. split.
  - exact (proj1 (open_worksheet_again None "Trading Log" "Papertrader" Samples.drive
                    _ _ _ _) samples_opening).
  - exact (proj2 (open_worksheet_again None "Trading Log" "Papertrader" Samples.drive
                    _ _ _ _) samples_legacy_opening).
Defined.

Lemma legacy_open_worksheet_result_witness :
  Legacy._open_worksheet "Trading Log" "Papertrader" Samples.drive
  = Opened Samples.legacy_opened_drive "key1" Samples.legacy_opened_sheet
      [update "A1:C1" [[VStr "Ticker"; VStr "Last Updated (UTC)"; VStr "Price"]]] /\
  col_values Demo.fmt Samples.legacy_opened_sheet 1 = ["Ticker"].
Proof.
  pose proof (legacy_open_worksheet_result Demo.fmt "Trading Log" "Papertrader" Samples.drive
                _ _ _ _ samples_legacy_opening) as H.
  change (worksheet Samples.drive "key1" "Papertrader") with (@None (Worksheet Q)) in H.
  destruct H as (_ & _ & Hcol & _).
  split; [exact samples_legacy_opening|exact Hcol].
Defined.

Lemma main_on_missing_worksheet_witness :
  Main._open_worksheet None "Trading Log" "Papertrader" Samples.drive
  = Opened Samples.opened_drive "key1" Samples.opened_sheet
      [update "A1:C1" [[VStr "asset"; VStr ""; VStr "current price"]]] /\
  worksheet Samples.drive "key1" "Papertrader" = None /\
  exists cycles,
    Main.main Demo.float_price Demo.fmt 150 None "Trading Log" "Papertrader" Samples.drive
      true [(Demo.feed_of Demo.quotes, false); (Samples.outage, true)]
    = Some ([update "A1:C1" [[VStr "asset"; VStr ""; VStr "current price"]]], cycles) /\
    Forall (fun c => Main.calls c = []) cycles.
Proof.
  assert (worksheet Samples.drive "key1" "Papertrader" = None) as Hmissing by reflexivity.
  split; [exact samples_opening|]. split; [exact Hmissing|].
  destruct (main_on_missing_worksheet Demo.float_price Demo.fmt 150 None "Trading Log"
              "Papertrader" Samples.drive _ _ _ _ true
              [(Demo.feed_of Demo.quotes, false); (Samples.outage, true)]
              samples_opening Hmissing) as (cycles & Hmain & Hidle).
  exists cycles. split; [exact Hmain|].
  eapply Forall_impl; [exact Hidle|]. simpl. intros c ->. reflexivity.
Defined.

Lemma loop_keeps_other_columns_witness :
  let ws := Demo.sheet_of_column ["SYMBOL"; "AAPL"; ""; "SPY"] in
  let env := [(Demo.feed_of Demo.quotes, false); (Samples.outage, false)] in
  1 <> 3 /\
  Forall (fun cy => cells (Main.sheet cy) !! (1, 4) = cells ws !! (1, 4))
         (Main.main_loop Demo.float_price Demo.fmt 150 true env ws).
Proof.
  intros ws env. assert (1 <> 3) as H by lia. split; [exact H|].
  eapply Forall_impl;
    [exact (proj1 (loop_keeps_other_columns Demo.float_price Demo.fmt 150 ws true env []))|].
  simpl. intros cy [_ Hcells]. apply Hcells, H.
Defined.

Lemma loop_repeats_first_cycle_witness :
  let ws := Demo.sheet_of_column ["SYMBOL"; "AAPL"; ""; "SPY"] in
  let feed := Demo.feed_of Demo.quotes in
  let env := [(feed, false); (feed, false); (feed, true)] in
  Forall (fun e => e.1 = feed) env /\
  Forall (fun cy => cy = Main.cycle Demo.float_price Demo.fmt 150 ws feed)
         (Main.main_loop Demo.float_price Demo.fmt 150 true env ws).
Proof.
  intros ws feed env.
  assert (Forall (fun e => e.1 = feed) env) as H by (repeat constructor).
  split; [exact H|].
  exact (loop_repeats_first_cycle Demo.float_price Demo.fmt 150 ws true feed env H).
Defined.

Lemma loop_stops_after_signal_witness :
  let ws := Demo.sheet_of_column ["SYMBOL"; "AAPL"] in
  let feed := Demo.feed_of Demo.quotes in
  Forall (fun e : Feed Demo.Trade * bool => e.2 = false) [(feed, false)] /\
  length (Main.main_loop Demo.float_price Demo.fmt 150 true
            ([(feed, false)] ++ (feed, true) :: [(feed, false); (feed, false)]) ws) = 2.
Proof.
  intros ws feed.
  assert (Forall (fun e : Feed Demo.Trade * bool => e.2 = false) [(feed, false)]) as H
    by (repeat constructor).
  assert (Forall (fun e : string * Feed Demo.Trade * bool => e.2 = false) []) as H'
    by constructor.
  split; [exact H|].
  exact (proj1 (loop_stops_after_signal Demo.float_price Demo.fmt 150 ws [(feed, false)] feed
                  [(feed, false); (feed, false)] [] "" [] H H')).
Defined.

Lemma cycle_request_count_witness :
  let ws := Demo.sheet_of_column ["SYMBOL"; "AAPL"; "aapl"; "SPY"; "MSFT"] in
  (0 < 2)%Z /\
  length (Main.requests (Main.cycle Demo.float_price Demo.fmt 2 ws (Demo.feed_of Demo.quotes)))
  = (length (Spec.SymbolSet (Main._get_rows_and_symbols (col_values Demo.fmt ws 1)))
     + Z.to_nat 2 - 1) / Z.to_nat 2.
Proof.
  intros ws. assert (0 < 2)%Z as H by lia. split; [exact H|].
  exact (proj1 (cycle_request_count Demo.float_price Demo.fmt 2 ws
                  (Demo.feed_of Demo.quotes) H)).
Defined.

(** * The cycle: failing batches, keys of the price map, the updates
      emitted and repeated runs *)

(** ** What the fetch records *)

Section FetchRecords.

Context {Price Trade : Type}.
Variable float_price : Trade -> option Price.

Local Abbreviation fetch_batches := (Main.fetch_batches float_price).

(** A symbol is a key after the loop exactly when it was one before or a
    response names it with a price that parses. *)
Lemma fetch_key_iff (feed : Feed Trade) k l s prices issued :
  is_Some ((fetch_batches feed k l (prices, issued)).1 !! s) <->
  is_Some (prices !! s) \/
  exists j b r t p, l !! j = Some b /\ feed (k + j) b = Returns (Some r) /\
    r !! s = Some t /\ float_price t = Some p.
Proof.
  revert k prices issued. induction l as [|b l IH]; intros k prices issued.
  - simpl. split; [auto|]. intros [H|(j & b & r & t & p & Hl & _)]; [exact H|discriminate].
  - assert (forall prices' issued',
      (is_Some (prices' !! s) <->
       is_Some (prices !! s) \/
       exists r t p, feed k b = Returns (Some r) /\ r !! s = Some t /\ float_price t = Some p) ->
      (is_Some ((fetch_batches feed (S k) l (prices', issued')).1 !! s) <->
       is_Some (prices !! s) \/
       exists j b0 r t p, (b :: l) !! j = Some b0 /\ feed (k + j) b0 = Returns (Some r) /\
         r !! s = Some t /\ float_price t = Some p)) as Hstep.
    { intros prices' issued' Hnow. rewrite IH, Hnow. split.
      - intros [[H|(r & t & p & Hf & Hr & Hp)]|(j & b0 & r & t & p & Hl & Hf & Hr & Hp)].
        + auto.
        + right. exists 0, b, r, t, p. rewrite Nat.add_0_r. auto.
        + right. exists (S j), b0, r, t, p.
          replace (k + S j) with (S k + j) by lia. auto.
      - intros [H|(j & b0 & r & t & p & Hl & Hf & Hr & Hp)]; [auto|].
        destruct j as [|j]; simpl in Hl.
        + injection Hl as <-. rewrite Nat.add_0_r in Hf. left. right. exists r, t, p. auto.
        + right. exists j, b0, r, t, p.
          replace (S k + j) with (k + S j) by lia. auto. }
    simpl. destruct (feed k b) as [|result] eqn:Hf; apply Hstep.
    + split; [auto|]. intros [H|(r & t & p & [=] & _)]. exact H.
    + rewrite record_prices_lookup. destruct result as [r|]; simpl.
      * destruct (r !! s) as [t|] eqn:Hr; simpl.
        -- destruct (float_price t) as [p|] eqn:Hp.
           ++ split; [|eauto]. intros _. right. exists r, t, p. auto.
           ++ split; [auto|]. intros [H|(r' & t' & p' & [= <-] & Hr' & Hp')]; [exact H|].
              congruence.
        -- split; [auto|]. intros [H|(r' & t' & p' & [= <-] & Hr' & Hp')]; [exact H|].
           congruence.
      * rewrite lookup_empty. simpl.
        split; [auto|]. intros [H|(r' & t' & p' & [=] & _)]. exact H.
Qed.

(** The keys of the price map of a fetch are the symbols that a response
    names with a price that parses. *)
Lemma fetch_keys_priced (feed : Feed Trade) (batches : list (list string)) (s : string) :
  is_Some ((fetch_batches feed 0 batches (∅, [])).1 !! s)
  <-> exists j p, priced_by float_price feed batches j s p.
Proof.
  rewrite fetch_key_iff. unfold priced_by. split.
  - intros [H|(j & b & r & t & p & H)].
    + rewrite lookup_empty in H. destruct H as [? [=]].
    + exists j, p, b, r, t. exact H.
  - intros (j & p & b & r & t & H). right. exists j, b, r, t, p. exact H.
Qed.




End FetchRecords.

(** ** The cycle around the fetch *)

Section CycleRecords.

Context {Price Trade : Type}.
Variable float_price : Trade -> option Price.
Variable fmt : Price -> string.






End CycleRecords.

(** ** The keys of the price map *)

Section PriceMapKeys.

Context {Price Trade : Type}.
Variable float_price : Trade -> option Price.

Lemma fetch_keys (feed : Feed Trade) (batches reqs : list (list string))
    (pm : gmap string Price) (symbols : list string) :
  Main.fetch_batches float_price feed 0 batches (∅, []) = (pm, reqs) ->
  (forall b s, b ∈ batches -> s ∈ b -> s ∈ symbols) ->
  (forall s, is_Some (pm !! s) <-> exists j p, priced_by float_price feed reqs j s p) /\
  ((forall s, is_Some (pm !! s) -> s ∈ symbols)
   <-> (forall j s p, priced_by float_price feed reqs j s p -> s ∈ symbols)) /\
  ((forall j b r s, reqs !! j = Some b -> feed j b = Returns (Some r) ->
                    is_Some (r !! s) -> s ∈ symbols) ->
   forall s, is_Some (pm !! s) -> s ∈ symbols) /\
  (answers_requested feed -> forall s, is_Some (pm !! s) -> s ∈ symbols).
Proof.
  intros Hf Hin.
  pose proof (fetch_batches_issued float_price feed 0 batches ∅ []) as Hiss.
  rewrite Hf in Hiss. simpl in Hiss. subst reqs.
  assert (forall s, is_Some (pm !! s) <-> exists j p, priced_by float_price feed batches j s p)
    as Hkeys.
  { intros s. rewrite <- fetch_keys_priced, Hf. reflexivity. }
  split; [exact Hkeys|]. split; [|split].
  - split.
    + intros H j s p Hp. apply H, Hkeys. eauto.
    + intros H s Hs. apply Hkeys in Hs as (j & p & Hp). eapply H, Hp.
  - intros Hnamed s Hs. apply Hkeys in Hs as (j & p & b & r & t & Hj & Hfj & Hr & Hp).
    apply (Hnamed j b r s Hj Hfj). rewrite Hr. eauto.
  - intros Hreq s Hs. apply Hkeys in Hs as (j & p & b & r & t & Hj & Hfj & Hr & Hp).
    apply (Hin b); [eapply list_elem_of_lookup_2, Hj|].
    eapply Hreq; [exact Hfj|]. rewrite Hr. eauto.
Qed.

(** C9, as amended. For every sequence of TickerRows and every feed, the
    keys of the price map returned by the fetch are exactly the symbols
    that a response to a request of the cycle names with a price that
    parses. So the keys are symbols of the SymbolSet (for
    papertrader_updater.py: of the list of tickers) if and only if every
    symbol that a response names with a price that parses is one; they
    are when the responses name symbols of the SymbolSet only, and so
    when the responses name symbols of the batch requested only. *)
Theorem price_map_keys_requested (CHUNK_SIZE : Z) (rows : list Main.TickerRow)
    (symbols : list string) (feed : Feed Trade) :
  (forall price_map reqs,
     Main._fetch_latest_prices float_price CHUNK_SIZE (map snd rows) feed
     = Ok (price_map, reqs) ->
     (forall s, is_Some (price_map !! s)
                <-> exists j p, priced_by float_price feed reqs j s p) /\
     ((forall s, is_Some (price_map !! s) -> s ∈ Spec.SymbolSet rows)
      <-> (forall j s p, priced_by float_price feed reqs j s p -> s ∈ Spec.SymbolSet rows)) /\
     ((forall j b r s, reqs !! j = Some b -> feed j b = Returns (Some r) ->
                       is_Some (r !! s) -> s ∈ Spec.SymbolSet rows) ->
      forall s, is_Some (price_map !! s) -> s ∈ Spec.SymbolSet rows) /\
     (answers_requested feed ->
      forall s, is_Some (price_map !! s) -> s ∈ Spec.SymbolSet rows)) /\
  (forall price_map reqs,
     Legacy._fetch_latest_prices float_price CHUNK_SIZE symbols feed = Ok (price_map, reqs) ->
     (forall s, is_Some (price_map !! s)
                <-> exists j p, priced_by float_price feed reqs j s p) /\
     ((forall s, is_Some (price_map !! s) -> s ∈ symbols)
      <-> (forall j s p, priced_by float_price feed reqs j s p -> s ∈ symbols)) /\
     ((forall j b r s, reqs !! j = Some b -> feed j b = Returns (Some r) ->
                       is_Some (r !! s) -> s ∈ symbols) ->
      forall s, is_Some (price_map !! s) -> s ∈ symbols) /\
     (answers_requested feed -> forall s, is_Some (price_map !! s) -> s ∈ symbols)).
Proof.
  split.
  - intros pm reqs. unfold Main._fetch_latest_prices, Spec.SymbolSet.
    destruct (map snd rows) as [|s0 syms].
    + intros [= <- <-].
      apply (fetch_keys feed [] [] ∅ _ eq_refl).
      intros b s Hb. apply elem_of_nil in Hb as [].
    + destruct (Main._chunks _ _) as [batches|e] eqn:Hc; [|discriminate].
      intros [= Hf]. rewrite <- fromkeys_dedup_first.
      apply (fetch_keys feed batches reqs pm _ Hf).
      intros b s Hb Hs. exact (chunks_elements _ _ _ _ _ Hc Hb Hs).
  - intros pm reqs. unfold Legacy._fetch_latest_prices.
    destruct symbols as [|s0 syms].
    + intros [= <- <-].
      apply (fetch_keys feed [] [] ∅ _ eq_refl).
      intros b s Hb. apply elem_of_nil in Hb as [].
    + destruct (Legacy._chunks _ _) as [batches|e] eqn:Hc; [|discriminate].
      intros [= Hf].
      apply (fetch_keys feed batches reqs pm _ Hf).
      rewrite legacy_chunks_eq in Hc.
      intros b s Hb Hs. exact (chunks_elements _ _ _ _ _ Hc Hb Hs).
Qed.

End PriceMapKeys.

(** ** The updates emitted *)

Section UpdatesEmitted.

Context {Price : Type}.

(** C5. For every sequence of TickerRows and every PriceMap, one update is
    built per TickerRow, in order, and all are sent in one call; the value
    of the update is the price of the symbol when the symbol is a key of
    the PriceMap and the empty string otherwise; two TickerRows with the
    same symbol get the same value. papertrader_updater.py builds the
    values of column C the same way, one per ticker, and [_write_prices]
    emits them in one call, after the call for the timestamps, for the
    range of column C from row 2 that has one row per ticker; once the
    calls are executed, the row of the [i]-th ticker (from 0) holds its
    value in column C, and the rows of two tickers with the same symbol
    hold the same value. *)
Theorem one_update_per_ticker_row (rows : list Main.TickerRow)
    (price_map : gmap string Price) (timestamp : string) (ws : Worksheet Price) i r s :
  rows !! i = Some (r, s) ->
  length (Main.build_updates rows price_map) = length rows /\
  Main._write_prices_exact_rows rows price_map
  = [batch_update (Main.build_updates rows price_map)] /\
  (exists u, Main.build_updates rows price_map !! i = Some u /\
     values u = [[match price_map !! s with Some p => VNum p | None => VStr "" end]] /\
     forall j r', rows !! j = Some (r', s) ->
       exists u', Main.build_updates rows price_map !! j = Some u' /\ values u' = values u) /\
  length (Legacy.updates_colC (map snd rows) price_map) = length rows /\
  Legacy.updates_colC (map snd rows) price_map !! i
  = Some [match price_map !! s with Some p => VNum p | None => VStr "" end] /\
  Legacy._write_prices timestamp (map snd rows) price_map
  = [update ("B2:B" +:+ str_nat (length rows + 1))
       (Legacy.updates_colB timestamp (map snd rows));
     update ("C2:C" +:+ str_nat (length rows + 1))
       (Legacy.updates_colC (map snd rows) price_map)] /\
  parse_range ("C2:C" +:+ str_nat (length rows + 1))
  = Some (Span (3, 2) (3, length rows + 1)) /\
  cells (exec_calls ws (Legacy._write_prices timestamp (map snd rows) price_map)).1
    !! (3, i + 2)
  = Some (match price_map !! s with Some p => VNum p | None => VStr "" end) /\
  (forall j r', rows !! j = Some (r', s) ->
     cells (exec_calls ws (Legacy._write_prices timestamp (map snd rows) price_map)).1
       !! (3, j + 2)
     = cells (exec_calls ws (Legacy._write_prices timestamp (map snd rows) price_map)).1
         !! (3, i + 2)).
Proof.
  intros Hi.
  assert (forall j r', rows !! j = Some (r', s) ->
            cells (exec_calls ws (Legacy._write_prices timestamp (map snd rows) price_map)).1
              !! (3, j + 2)
            = Some (Main.cell_value (price_map !! s))) as Hcell.
  { intros j r' Hj.
    apply (legacy_write_cells timestamp (map snd rows) price_map ws j s).
    change (map ?f ?l) with (f <$> l). apply list_lookup_fmap_Some.
    exists (r', s). split; [reflexivity|exact Hj]. }
  split; [apply length_map|]. split; [|split; [|split; [|split; [|split; [|split; [|split]]]]]].
  - destruct rows as [|rs rows]; [discriminate|]. reflexivity.
  - eexists. split; [apply build_updates_lookup, Hi|]. split; [reflexivity|].
    intros j r' Hj. eexists. split; [apply build_updates_lookup, Hj|]. reflexivity.
  - unfold Legacy.updates_colC. rewrite !length_map. reflexivity.
  - unfold Legacy.updates_colC. change (map ?f ?l) with (f <$> l).
    rewrite <- list_fmap_compose. apply list_lookup_fmap_Some.
    exists (r, s). split; [reflexivity|exact Hi].
  - unfold Legacy._write_prices. rewrite length_map.
    destruct rows as [|rs rows]; [discriminate|]. reflexivity.
  - rewrite parse_range_C2.
    destruct (Nat.eqb_spec (length rows + 1) 0); [lia|reflexivity].
  - exact (Hcell i r Hi).
  - intros j r' Hj. rewrite (Hcell i r Hi). exact (Hcell j r' Hj).
Qed.

End UpdatesEmitted.

(** ** Repeated runs *)

Section RepeatedRuns.

Context {Price Trade : Type}.
Variable float_price : Trade -> option Price.
Variable fmt : Price -> string.
Variable CHUNK_SIZE : Z.

(** The calls of a cycle of papertrader_updater.py are those of
    [_write_prices] for symbols and a price map that do not depend on the
    clock. *)
Lemma legacy_calls_by_clock (ws : Worksheet Price) (feed : Feed Trade) :
  exists symbols price_map, forall t,
    Legacy.calls (Legacy.cycle float_price fmt CHUNK_SIZE t ws feed)
    = Legacy._write_prices t symbols price_map.
Proof.
  destruct (Legacy._get_tickers (col_values fmt ws 1)) as [|s0 syms] eqn:E.
  - exists [], ∅. intros t. rewrite legacy_cycle_closed_form. cbv zeta. rewrite E. reflexivity.
  - destruct (Legacy._fetch_latest_prices float_price CHUNK_SIZE (s0 :: syms) feed)
      as [[pm reqs]|e] eqn:Hf.
    + exists (s0 :: syms), pm. intros t.
      rewrite legacy_cycle_closed_form. cbv zeta. rewrite E, Hf. reflexivity.
    + exists [], ∅. intros t.
      rewrite legacy_cycle_closed_form. cbv zeta. rewrite E, Hf. reflexivity.
Qed.

(** Two runs of papertrader_updater.py issue the same calls exactly when
    their clock readings are equal or they write nothing. *)
Lemma legacy_rerun_identical_iff (t1 t2 : string) (ws : Worksheet Price) (feed : Feed Trade) :
  StatedRuns.second_run_identical float_price fmt CHUNK_SIZE t1 t2 ws feed
  <-> t1 = t2 \/ Legacy.calls (Legacy.cycle float_price fmt CHUNK_SIZE t1 ws feed) = [].
Proof.
  unfold StatedRuns.second_run_identical.
  destruct (legacy_cycle_twice float_price fmt CHUNK_SIZE t1 t2 ws feed) as [-> _].
  destruct (legacy_calls_by_clock ws feed) as (symbols & pm & Hcalls).
  rewrite !Hcalls. destruct symbols as [|s0 syms].
  - simpl. split; auto.
  - split.
    + intros H. left. simpl in H. injection H as H _. congruence.
    + intros [->|H]; [reflexivity|discriminate].
Qed.

(** C8, as amended. Two runs of the cycle of main.py on worksheets with
    the same content of column A and with the same feed responses issue
    the same requests and the same write call with the same updates, and
    end the same way; a second run on the worksheet left by the first is
    the first run again, worksheet included. Two runs of
    papertrader_updater.py, the second on the worksheet left by the first
    or on any worksheet with the same column A, issue the same call for
    column C, same range and same values; their calls are those of
    [_write_prices] for the same symbols and the same price map, at the
    clock reading of each run, which is what the call for column B
    writes: the two runs issue the same calls exactly when the clock
    readings are equal or nothing is written. *)
Theorem repeated_cycle_same_updates (ws ws' : Worksheet Price) (feed : Feed Trade)
    (t1 t2 : string) :
  col_values fmt ws' 1 = col_values fmt ws 1 ->
  (Main.calls (Main.cycle float_price fmt CHUNK_SIZE ws' feed)
   = Main.calls (Main.cycle float_price fmt CHUNK_SIZE ws feed) /\
   Main.requests (Main.cycle float_price fmt CHUNK_SIZE ws' feed)
   = Main.requests (Main.cycle float_price fmt CHUNK_SIZE ws feed) /\
   Main.outcome (Main.cycle float_price fmt CHUNK_SIZE ws' feed)
   = Main.outcome (Main.cycle float_price fmt CHUNK_SIZE ws feed)) /\
  Main.cycle float_price fmt CHUNK_SIZE
    (Main.sheet (Main.cycle float_price fmt CHUNK_SIZE ws feed)) feed
  = Main.cycle float_price fmt CHUNK_SIZE ws feed /\
  Legacy.calls (Legacy.cycle float_price fmt CHUNK_SIZE t1 ws' feed)
  = Legacy.calls (Legacy.cycle float_price fmt CHUNK_SIZE t1 ws feed) /\
  Legacy.calls (Legacy.cycle float_price fmt CHUNK_SIZE t2
                  (Legacy.sheet (Legacy.cycle float_price fmt CHUNK_SIZE t1 ws feed)) feed)
  = Legacy.calls (Legacy.cycle float_price fmt CHUNK_SIZE t2 ws feed) /\
  drop 1 (Legacy.calls (Legacy.cycle float_price fmt CHUNK_SIZE t2 ws feed))
  = drop 1 (Legacy.calls (Legacy.cycle float_price fmt CHUNK_SIZE t1 ws feed)) /\
  drop 1 (Legacy.calls (Legacy.cycle float_price fmt CHUNK_SIZE t2
                          (Legacy.sheet (Legacy.cycle float_price fmt CHUNK_SIZE t1 ws feed))
                          feed))
  = drop 1 (Legacy.calls (Legacy.cycle float_price fmt CHUNK_SIZE t1 ws feed)) /\
  drop 1 (Legacy.calls (Legacy.cycle float_price fmt CHUNK_SIZE t2 ws' feed))
  = drop 1 (Legacy.calls (Legacy.cycle float_price fmt CHUNK_SIZE t1 ws feed)) /\
  (exists symbols price_map,
     Legacy.calls (Legacy.cycle float_price fmt CHUNK_SIZE t1 ws feed)
     = Legacy._write_prices t1 symbols price_map /\
     Legacy.calls (Legacy.cycle float_price fmt CHUNK_SIZE t2
                     (Legacy.sheet (Legacy.cycle float_price fmt CHUNK_SIZE t1 ws feed)) feed)
     = Legacy._write_prices t2 symbols price_map /\
     Legacy.calls (Legacy.cycle float_price fmt CHUNK_SIZE t2 ws' feed)
     = Legacy._write_prices t2 symbols price_map) /\
  (StatedRuns.second_run_identical float_price fmt CHUNK_SIZE t1 t2 ws feed
   <-> t1 = t2 \/ Legacy.calls (Legacy.cycle float_price fmt CHUNK_SIZE t1 ws feed) = []).
Proof.
  intros Hcol.
  pose proof (legacy_cycle_twice float_price fmt CHUNK_SIZE t1 t2 ws feed) as [Htwice _].
  pose proof (legacy_cycle_reads_column_A float_price fmt CHUNK_SIZE t2 ws ws' feed Hcol)
    as Hcol2.
  split; [apply cycle_reads_column_A, Hcol|].
  split; [apply cycle_twice|].
  split; [apply legacy_cycle_reads_column_A, Hcol|].
  split; [exact Htwice|].
  split; [apply legacy_prices_clock_free|].
  split; [rewrite Htwice; apply legacy_prices_clock_free|].
  split; [rewrite Hcol2; apply legacy_prices_clock_free|].
  split; [|apply legacy_rerun_identical_iff].
  destruct (legacy_calls_by_clock ws feed) as (symbols & pm & Hcalls).
  exists symbols, pm. rewrite Htwice, Hcol2, !Hcalls. auto.
Qed.

End RepeatedRuns.

(** ** Columns of ASCII text

    On ASCII text [strip] and [upper] are [str.strip] and [str.upper]; the
    properties below, which depend on what is trimmed and upper-cased, are
    stated for columns whose cells below the header are ASCII text. *)

Lemma ascii_upper_char c : ascii_char c = true -> ascii_char (upper_char c) = true.
Proof.
  unfold ascii_char, upper_char. intros H. destruct (islower c); [|exact H].
  apply Nat.ltb_lt in H. apply Nat.ltb_lt. rewrite nat_ascii_embedding by lia. lia.
Qed.

Lemma ascii_text_upper s : ascii_text s = true -> ascii_text (upper s) = true.
Proof.
  induction s as [|c s IH]; simpl; [reflexivity|].
  intros H. apply andb_true_iff in H as [Hc Hs].
  rewrite (ascii_upper_char c Hc), (IH Hs). reflexivity.
Qed.

Lemma ascii_text_lstrip s : ascii_text s = true -> ascii_text (lstrip s) = true.
Proof.
  induction s as [|c s IH]; simpl; [reflexivity|].
  intros H. destruct (isspace c); [|exact H].
  apply andb_true_iff in H as [_ Hs]. exact (IH Hs).
Qed.

Lemma ascii_text_rstrip s : ascii_text s = true -> ascii_text (rstrip s) = true.
Proof.
  induction s as [|c s IH]; simpl; [reflexivity|].
  intros H. apply andb_true_iff in H as [Hc Hs]. specialize (IH Hs).
  destruct (rstrip s) as [|c' r].
  - destruct (isspace c); [reflexivity|]. simpl. rewrite Hc. reflexivity.
  - change (ascii_char c && ascii_text (String c' r) = true). rewrite Hc, IH. reflexivity.
Qed.

Lemma ascii_text_strip s : ascii_text s = true -> ascii_text (strip s) = true.
Proof. intros H. apply ascii_text_rstrip, ascii_text_lstrip, H. Qed.

(** The tickers read from a column of ASCII text are ASCII text. *)
Lemma tickers_ascii (col_a : list string) :
  ascii_column (tail col_a) -> ascii_column (Legacy._get_tickers col_a).
Proof.
  unfold ascii_column, Legacy._get_tickers. cbv zeta. intros H.
  apply Forall_map, Forall_forall. intros raw Hin.
  apply list_elem_of_In, filter_In in Hin as [Hin _]. simpl.
  apply ascii_text_upper, ascii_text_strip.
  rewrite Forall_forall in H. apply H, list_elem_of_In, Hin.
Qed.

(** X1. On a column of ASCII text, a row number is returned by the
    extraction of main.py exactly when it is at least 2 and the cell of
    column A in that row is not blank once trimmed: no ticker is dropped
    and no blank cell gives a row. *)
Theorem extraction_rows_are_nonblank_cells (col_a : list string) (r : nat) :
  ascii_column (tail col_a) ->
  r ∈ map fst (Main._get_rows_and_symbols col_a)
  <-> 2 <= r /\ exists raw, col_a !! (r - 1) = Some raw /\ strip raw <> "".
Proof. intros _. apply row_extracted_iff_nonblank. Qed.


(** X11. On a worksheet whose column A is ASCII text, a cycle of main.py
    leaves the header row and every row whose cell in column A is blank
    (empty or white space only) exactly as they were, column C included:
    a value left in column C next to a blank cell is never cleared. *)
Theorem cycle_skips_header_and_blank_rows {Price Trade : Type}
    (float_price : Trade -> option Price) (fmt : Price -> string) (CHUNK_SIZE : Z)
    (ws : Worksheet Price) (feed : Feed Trade) (c r : nat) :
  ascii_column (tail (col_values fmt ws 1)) ->
  r = 1 \/ strip (cell_text fmt ws 1 r) = "" ->
  cells (Main.sheet (Main.cycle float_price fmt CHUNK_SIZE ws feed)) !! (c, r)
  = cells ws !! (c, r).
Proof. intros _. apply blank_rows_skipped. Qed.

(** X14. On a worksheet whose column A is ASCII text and blank below the
    header (empty or white space only), a cycle of either script is a
    no-op: no request to the feed, no write call, the worksheet as it
    was. *)
Theorem blank_column_cycle_is_noop {Price Trade : Type} (float_price : Trade -> option Price)
    (fmt : Price -> string) (CHUNK_SIZE : Z) (ws : Worksheet Price) (feed : Feed Trade)
    (timestamp : string) :
  ascii_column (tail (col_values fmt ws 1)) ->
  (forall r, 2 <= r -> strip (cell_text fmt ws 1 r) = "") ->
  Main.cycle float_price fmt CHUNK_SIZE ws feed
  = {| Main.outcome := Main.NoTickers; Main.requests := [];
       Main.calls := []; Main.sheet := ws |} /\
  Legacy.cycle float_price fmt CHUNK_SIZE timestamp ws feed
  = {| Legacy.outcome := Legacy.NoTickers; Legacy.requests := [];
       Legacy.calls := []; Legacy.sheet := ws |}.
Proof. intros _. apply blank_column_idle. Qed.

(** X22. The tickers that papertrader_updater.py reads from a column of
    ASCII text are clean: none is empty, none holds a lower-case letter,
    none has white space at either end, and all are ASCII text. *)
Theorem legacy_tickers_are_clean (col_a : list string) :
  ascii_column (tail col_a) ->
  Forall (fun t => t <> "" /\ no_lower t = true /\ strip t = t /\ ascii_text t = true)
         (Legacy._get_tickers col_a).
Proof.
  intros H. apply tickers_ascii in H.
  pose proof (tickers_clean col_a) as Hclean.
  unfold ascii_column in H. rewrite Forall_forall in H, Hclean. apply Forall_forall.
  intros t Ht. destruct (Hclean t Ht) as (H1 & H2 & H3). auto.
Qed.

(** X23. Reading the tickers of a column of ASCII text is idempotent: the
    tickers that papertrader_updater.py has read are ASCII text, and a
    column made of a header and these tickers reads back as the same
    tickers. *)
Theorem legacy_tickers_read_back (header : string) (col_a : list string) :
  ascii_column (tail col_a) ->
  ascii_column (tail (header :: Legacy._get_tickers col_a)) /\
  Legacy._get_tickers (header :: Legacy._get_tickers col_a) = Legacy._get_tickers col_a.
Proof.
  intros H. split; [apply tickers_ascii, H|apply tickers_read_back].
Qed.

(** ** On concrete worksheets and feeds *)

(** C8 fails as stated for papertrader_updater.py: a second run, one
    minute after the first, on the worksheet left by the first and with
    the same quotes, writes another timestamp in column B. *)
Lemma legacy_rerun_changes_timestamps :
  ~ StatedRuns.second_run_identical Demo.float_price Demo.fmt 50
      "2024-05-01 14:30:00" "2024-05-01 14:31:00"
      (Demo.sheet_of_column ["SYMBOL"; "AAPL"]) (Demo.feed_of Demo.quotes).
Proof.
  unfold StatedRuns.second_run_identical. intros H. vm_compute in H. discriminate H.
Qed.

(** Batches that share a symbol are not isolated either, also when the
    responses name requested symbols only: the request for the batch AAPL
    raises, and the response to the batch AAPL, SPY prices AAPL. *)
Lemma shared_symbol_still_priced :
  answers_requested (Demo.failing_at 0 (Demo.feed_of Demo.quotes)) /\
  ~ Stated.failing_batch_absent Demo.float_price
      (Demo.failing_at 0 (Demo.feed_of Demo.quotes)) [["AAPL"]; ["AAPL"; "SPY"]].
Proof.
  split; [apply failing_at_answers_requested, feed_of_answers_requested|].
  intros H. specialize (H 0 ["AAPL"] "AAPL" eq_refl eq_refl).
  assert ("AAPL" ∈ ["AAPL"]) as Hin by (apply elem_of_cons; left; reflexivity).
  specialize (H Hin). vm_compute in H. discriminate H.
Qed.


Lemma price_map_keys_requested_witness :
  answers_requested (Demo.feed_of Demo.quotes) /\
  forall price_map reqs s,
    Main._fetch_latest_prices Demo.float_price 2
      (map snd (Main._get_rows_and_symbols ["SYMBOL"; "AAPL"; "SPY"; "aapl"]))
      (Demo.feed_of Demo.quotes) = Ok (price_map, reqs) ->
    is_Some (price_map !! s) ->
    s ∈ Spec.SymbolSet (Main._get_rows_and_symbols ["SYMBOL"; "AAPL"; "SPY"; "aapl"]).
Proof.
  split; [apply feed_of_answers_requested|].
  intros pm reqs s Hf.
  destruct (price_map_keys_requested Demo.float_price 2
              (Main._get_rows_and_symbols ["SYMBOL"; "AAPL"; "SPY"; "aapl"]) []
              (Demo.feed_of Demo.quotes)) as [Hmain _].
  destruct (Hmain pm reqs Hf) as (_ & _ & _ & Hin).
  apply Hin, feed_of_answers_requested.
Defined.

Lemma one_update_per_ticker_row_witness :
  let rows := [(2, "AAPL"); (4, "ZZZZ"); (5, "AAPL")] in
  let price_map : gmap string Q := {[ "AAPL" := (17234 # 100)%Q ]} in
  let ws := Demo.sheet_of_column ["SYMBOL"; "AAPL"; "ZZZZ"; "AAPL"] in
  rows !! 1 = Some (4, "ZZZZ") /\
  (exists u, Main.build_updates rows price_map !! 1 = Some u /\ values u = [[VStr ""]]) /\
  Legacy._write_prices "2024-05-01 14:30:00" (map snd rows) price_map
  = [update "B2:B4" (Legacy.updates_colB "2024-05-01 14:30:00" (map snd rows));
     update "C2:C4" (Legacy.updates_colC (map snd rows) price_map)] /\
  cells (exec_calls ws
           (Legacy._write_prices "2024-05-01 14:30:00" (map snd rows) price_map)).1 !! (3, 3)
  = Some (VStr "").
Proof.
  intros rows price_map ws.
  assert (rows !! 1 = Some (4, "ZZZZ")) as H by reflexivity.
  destruct (one_update_per_ticker_row rows price_map "2024-05-01 14:30:00" ws 1 4 "ZZZZ" H)
    as (_ & _ & (u & Hu & Hv & _) & _ & _ & Hw & _ & Hcell & _).
  split; [exact H|]. split; [exists u; split; [exact Hu|exact Hv]|].
  split; [exact Hw|exact Hcell].
Defined.

Lemma repeated_cycle_same_updates_witness :
  let ws := Demo.sheet_of_column ["SYMBOL"; "AAPL"; ""; "SPY"] in
  let ws' := Samples.stale_sheet in
  let feed := Demo.feed_of Demo.quotes in
  col_values Demo.fmt ws' 1 = col_values Demo.fmt ws 1 /\
  Main.calls (Main.cycle Demo.float_price Demo.fmt 150 ws' feed)
  = Main.calls (Main.cycle Demo.float_price Demo.fmt 150 ws feed) /\
  drop 1 (Legacy.calls
            (Legacy.cycle Demo.float_price Demo.fmt 150 "2024-05-01 14:31:00"
               (Legacy.sheet
                  (Legacy.cycle Demo.float_price Demo.fmt 150 "2024-05-01 14:30:00" ws feed))
               feed))
  = drop 1 (Legacy.calls
              (Legacy.cycle Demo.float_price Demo.fmt 150 "2024-05-01 14:30:00" ws feed)).
Proof.
  intros ws ws' feed.
  assert (col_values Demo.fmt ws' 1 = col_values Demo.fmt ws 1) as H
    by (vm_compute; reflexivity).
  destruct (repeated_cycle_same_updates Demo.float_price Demo.fmt 150 ws ws' feed
              "2024-05-01 14:30:00" "2024-05-01 14:31:00" H)
    as ((Hcalls & _) & _ & _ & _ & _ & Hdrop & _).
  split; [exact H|]. split; [exact Hcalls|exact Hdrop].
Defined.

Lemma extraction_rows_are_nonblank_cells_witness :
  ascii_column (tail ["SYMBOL"; "aapl"; "  "; "$spy"]) /\
  4 ∈ map fst (Main._get_rows_and_symbols ["SYMBOL"; "aapl"; "  "; "$spy"]) /\
  3 ∉ map fst (Main._get_rows_and_symbols ["SYMBOL"; "aapl"; "  "; "$spy"]).
Proof.
  assert (ascii_column (tail ["SYMBOL"; "aapl"; "  "; "$spy"])) as H
    by (repeat constructor).
  split; [exact H|]. split.
  - apply (extraction_rows_are_nonblank_cells ["SYMBOL"; "aapl"; "  "; "$spy"] 4 H).
    split; [repeat constructor|]. exists "$spy". split; [reflexivity|].
    vm_compute. discriminate.
  - intros Hin.
    apply (extraction_rows_are_nonblank_cells ["SYMBOL"; "aapl"; "  "; "$spy"] 3 H) in Hin
      as (_ & raw & Hraw & Hne).
    injection Hraw as <-. apply Hne. reflexivity.
Defined.


Lemma stale_sheet_ascii : ascii_column (tail (col_values Demo.fmt Samples.stale_sheet 1)).
Proof. vm_compute. repeat constructor. Qed.

Lemma blank_sheet_ascii : ascii_column (tail (col_values Demo.fmt Samples.blank_sheet 1)).
Proof. vm_compute. repeat constructor. Qed.

Lemma cycle_skips_header_and_blank_rows_witness :
  ascii_column (tail (col_values Demo.fmt Samples.stale_sheet 1)) /\
  strip (cell_text Demo.fmt Samples.stale_sheet 1 3) = "" /\
  cells (Main.sheet (Main.cycle Demo.float_price Demo.fmt 150 Samples.stale_sheet
                       (Demo.feed_of Demo.quotes))) !! (3, 3)
  = Some (VNum (9 # 1)%Q).
Proof.
  assert (strip (cell_text Demo.fmt Samples.stale_sheet 1 3) = "") as H
    by (vm_compute; reflexivity).
  split; [exact stale_sheet_ascii|]. split; [exact H|].
  rewrite (cycle_skips_header_and_blank_rows Demo.float_price Demo.fmt 150
             Samples.stale_sheet (Demo.feed_of Demo.quotes) 3 3 stale_sheet_ascii
             (or_intror H)).
  vm_compute. reflexivity.
Defined.

Lemma blank_column_cycle_is_noop_witness :
  ascii_column (tail (col_values Demo.fmt Samples.blank_sheet 1)) /\
  (forall r, 2 <= r -> strip (cell_text Demo.fmt Samples.blank_sheet 1 r) = "") /\
  Main.cycle Demo.float_price Demo.fmt 150 Samples.blank_sheet (Demo.feed_of Demo.quotes)
  = {| Main.outcome := Main.NoTickers; Main.requests := [];
       Main.calls := []; Main.sheet := Samples.blank_sheet |}.
Proof.
  split; [exact blank_sheet_ascii|]. split; [exact blank_sheet_is_blank|].
  exact (proj1 (blank_column_cycle_is_noop Demo.float_price Demo.fmt 150 Samples.blank_sheet
                  (Demo.feed_of Demo.quotes) "" blank_sheet_ascii blank_sheet_is_blank)).
Defined.

Lemma legacy_tickers_are_clean_witness :
  ascii_column (tail ["Ticker"; " aapl"; ""; "$spy "]) /\
  Legacy._get_tickers ["Ticker"; " aapl"; ""; "$spy "] = ["AAPL"; "$SPY"] /\
  Forall (fun t => t <> "" /\ no_lower t = true /\ strip t = t /\ ascii_text t = true)
         ["AAPL"; "$SPY"].
Proof.
  assert (ascii_column (tail ["Ticker"; " aapl"; ""; "$spy "])) as H by (repeat constructor).
  split; [exact H|]. split; [reflexivity|].
  exact (legacy_tickers_are_clean ["Ticker"; " aapl"; ""; "$spy "] H).
Defined.

Lemma legacy_tickers_read_back_witness :
  ascii_column (tail ["Ticker"; " aapl"; ""; "$spy "]) /\
  Legacy._get_tickers ("Ticker" :: Legacy._get_tickers ["Ticker"; " aapl"; ""; "$spy "])
  = ["AAPL"; "$SPY"].
Proof.
  assert (ascii_column (tail ["Ticker"; " aapl"; ""; "$spy "])) as H by (repeat constructor).
  split; [exact H|].
  exact (proj2 (legacy_tickers_read_back "Ticker" ["Ticker"; " aapl"; ""; "$spy "] H)).
Defined.
